(** * PowerVR video subsystem of the Dreamcast emulator (guest/pvr/pvr.c)

    A shallow embedding of the register dispatch, the scanline generator,
    the video memory address translation and the framebuffer extraction,
    together with the properties stated about them.

    [pvr_init] takes the register defaults and the memory map of the
    machine as parameters; allocation and release of the device
    ([pvr_create], [pvr_destroy]) are not part of the model. *)

From Stdlib Require Import ZArith List Bool Lia.
From Stdlib Require Strings.Byte.
Import ListNotations.
Local Open Scope Z_scope.

(** ** Machine integers

    C integers are represented by [Z]; every operation whose result is
    stored in a typed location is followed by the wrap of that type. *)

Definition u8 (x : Z) : Z := x mod 2 ^ 8.
Definition u16 (x : Z) : Z := x mod 2 ^ 16.
Definition u32 (x : Z) : Z := x mod 2 ^ 32.
(** [int]: two's complement wrap to [-2^31, 2^31). *)
Definition int32 (x : Z) : Z := (x + 2 ^ 31) mod 2 ^ 32 - 2 ^ 31.

(** ** VRAM address translation *)

Module Vram.

(** The comment above [VRAM64]: 8MB of vram, two banks of 4MB. *)
Definition VRAM_SIZE : Z := 0x00800000.

(** [static uint32_t VRAM64(uint32_t addr32)].  [~0x3] is an [int]
    complement converted to [uint32_t] by the [&]. *)
Definition VRAM64 (addr32 : Z) : Z :=
  let bank_size := 0x00400000 in
  let bank := Z.land addr32 bank_size in
  let offset := Z.land addr32 (bank_size - 1) in
  Z.lor (Z.lor (u32 (Z.shiftl (Z.land offset (u32 (Z.lnot 0x3))) 1))
               (Z.shiftr bank 20))
        (Z.land offset 0x3).

(** The inverse direction, which the source does not contain: the bank
    indicator at bit 2 goes back to bit 22, the word-aligned part moves
    down by one bit, the two byte-in-word bits stay. *)
Definition VRAM32 (addr64 : Z) : Z :=
  Z.lor (Z.lor (Z.shiftl (Z.land addr64 0x4) 20)
               (Z.land (Z.shiftr addr64 1) 0x003ffffc))
        (Z.land addr64 0x3).

End Vram.
Import Vram.


(** ** Byte-addressed memory

    [pvr->vram] and [pvr->framebuffer] are bare [uint8_t *]; a memory is
    the map from the byte index relative to that pointer to the byte
    stored there.  Multi-byte accesses go through a pointer cast on a
    little-endian host. *)

Definition mem := Z -> Byte.byte.

Definition byte_of_Z (v : Z) : Byte.byte :=
  match Strings.Byte.of_N (Z.to_N (v mod 256)) with
  | Some b => b
  | None => Byte.x00
  end.

Definition Z_of_byte (b : Byte.byte) : Z := Z.of_N (Strings.Byte.to_N b).

Definition upd {A : Type} (f : Z -> A) (i : Z) (v : A) : Z -> A :=
  fun j => if j =? i then v else f j.

Definition load8 (m : mem) (i : Z) : Z := Z_of_byte (m i).

Definition store8 (m : mem) (i : Z) (v : Z) : mem := upd m i (byte_of_Z v).

(** [*(uint16_t * )&m[i]] *)
Definition load16 (m : mem) (i : Z) : Z :=
  Z.lor (load8 m i) (Z.shiftl (load8 m (i + 1)) 8).

(** [*(uint32_t * )&m[i]] *)
Definition load32 (m : mem) (i : Z) : Z :=
  Z.lor (Z.lor (Z.lor (load8 m i) (Z.shiftl (load8 m (i + 1)) 8))
               (Z.shiftl (load8 m (i + 2)) 16))
        (Z.shiftl (load8 m (i + 3)) 24).

(** [*(uint32_t * )&m[i] = v] *)
Definition store32 (m : mem) (i : Z) (v : Z) : mem :=
  store8 (store8 (store8 (store8 m i v)
                         (i + 1) (Z.shiftr v 8))
                 (i + 2) (Z.shiftr v 16))
         (i + 3) (Z.shiftr v 24).

(** Byte [k] of a word, counted from the low end. *)
Definition byte_of_word (w k : Z) : Z := Z.land (Z.shiftr w (8 * k)) 0xff.

(** A memory holding the bytes of [l] from index 0 on, zero elsewhere. *)
Definition mem_of_list (l : list Z) : mem :=
  fun i => if i <? 0 then Byte.x00
           else byte_of_Z (nth (Z.to_nat i) l 0).

(** ** Registers

    [pvr_regs.inc] and [pvr_types.h] are not part of the sources at hand:
    the word index of every register and the position of every bit-field
    inside its register are parameters, gathered in a [layout]. *)

Inductive reg_name :=
| ID | SOFTRESET | STARTRENDER
| FB_R_CTRL | FB_R_SOF1 | FB_R_SOF2 | FB_R_SIZE | FB_W_SOF1 | FB_W_SOF2
| SPG_HBLANK_INT | SPG_VBLANK_INT | SPG_CONTROL | SPG_LOAD | SPG_VBLANK
| VO_CONTROL | SCALER_CTL | SPG_STATUS
| TA_LIST_INIT | TA_YUV_TEX_BASE | TA_LIST_CONT.

Definition all_regs : list reg_name :=
  [ ID; SOFTRESET; STARTRENDER;
    FB_R_CTRL; FB_R_SOF1; FB_R_SOF2; FB_R_SIZE; FB_W_SOF1; FB_W_SOF2;
    SPG_HBLANK_INT; SPG_VBLANK_INT; SPG_CONTROL; SPG_LOAD; SPG_VBLANK;
    VO_CONTROL; SCALER_CTL; SPG_STATUS;
    TA_LIST_INIT; TA_YUV_TEX_BASE; TA_LIST_CONT ].

(** The bit-fields the code reads or writes, named register first. *)
Inductive field_name :=
| FB_R_SIZE_x | FB_R_SIZE_y | FB_R_SIZE_mod
| FB_R_CTRL_fb_enable | FB_R_CTRL_fb_depth | FB_R_CTRL_vclk_div
| SPG_CONTROL_interlace
| SPG_STATUS_scanline | SPG_STATUS_fieldnum | SPG_STATUS_vsync
| SPG_LOAD_hcount | SPG_LOAD_vcount
| SPG_HBLANK_INT_line_comp_val | SPG_HBLANK_INT_hblank_int_mode
| SPG_VBLANK_INT_vblank_in_line_number
| SPG_VBLANK_INT_vblank_out_line_number
| SPG_VBLANK_vbstart | SPG_VBLANK_vbend
| VO_CONTROL_blank_video
| SCALER_CTL_scale_y | SCALER_CTL_scale_x | SCALER_CTL_interlace.

Definition all_fields : list field_name :=
  [ FB_R_SIZE_x; FB_R_SIZE_y; FB_R_SIZE_mod;
    FB_R_CTRL_fb_enable; FB_R_CTRL_fb_depth; FB_R_CTRL_vclk_div;
    SPG_CONTROL_interlace;
    SPG_STATUS_scanline; SPG_STATUS_fieldnum; SPG_STATUS_vsync;
    SPG_LOAD_hcount; SPG_LOAD_vcount;
    SPG_HBLANK_INT_line_comp_val; SPG_HBLANK_INT_hblank_int_mode;
    SPG_VBLANK_INT_vblank_in_line_number;
    SPG_VBLANK_INT_vblank_out_line_number;
    SPG_VBLANK_vbstart; SPG_VBLANK_vbend;
    VO_CONTROL_blank_video;
    SCALER_CTL_scale_y; SCALER_CTL_scale_x; SCALER_CTL_interlace ].

Definition field_reg (f : field_name) : reg_name :=
  match f with
  | FB_R_SIZE_x | FB_R_SIZE_y | FB_R_SIZE_mod => FB_R_SIZE
  | FB_R_CTRL_fb_enable | FB_R_CTRL_fb_depth | FB_R_CTRL_vclk_div => FB_R_CTRL
  | SPG_CONTROL_interlace => SPG_CONTROL
  | SPG_STATUS_scanline | SPG_STATUS_fieldnum | SPG_STATUS_vsync => SPG_STATUS
  | SPG_LOAD_hcount | SPG_LOAD_vcount => SPG_LOAD
  | SPG_HBLANK_INT_line_comp_val | SPG_HBLANK_INT_hblank_int_mode =>
      SPG_HBLANK_INT
  | SPG_VBLANK_INT_vblank_in_line_number
  | SPG_VBLANK_INT_vblank_out_line_number => SPG_VBLANK_INT
  | SPG_VBLANK_vbstart | SPG_VBLANK_vbend => SPG_VBLANK
  | VO_CONTROL_blank_video => VO_CONTROL
  | SCALER_CTL_scale_y | SCALER_CTL_scale_x | SCALER_CTL_interlace =>
      SCALER_CTL
  end.

Definition reg_name_eqb (a b : reg_name) : bool :=
  match a, b with
  | ID, ID | SOFTRESET, SOFTRESET | STARTRENDER, STARTRENDER
  | FB_R_CTRL, FB_R_CTRL | FB_R_SOF1, FB_R_SOF1 | FB_R_SOF2, FB_R_SOF2
  | FB_R_SIZE, FB_R_SIZE | FB_W_SOF1, FB_W_SOF1 | FB_W_SOF2, FB_W_SOF2
  | SPG_HBLANK_INT, SPG_HBLANK_INT | SPG_VBLANK_INT, SPG_VBLANK_INT
  | SPG_CONTROL, SPG_CONTROL | SPG_LOAD, SPG_LOAD | SPG_VBLANK, SPG_VBLANK
  | VO_CONTROL, VO_CONTROL | SCALER_CTL, SCALER_CTL | SPG_STATUS, SPG_STATUS
  | TA_LIST_INIT, TA_LIST_INIT | TA_YUV_TEX_BASE, TA_YUV_TEX_BASE
  | TA_LIST_CONT, TA_LIST_CONT => true
  | _, _ => false
  end.

Record layout := mkLayout {
  reg_index : reg_name -> Z;      (* the enum constant, [addr >> 2] *)
  field_lo : field_name -> Z;     (* lowest bit of the field *)
  field_len : field_name -> Z     (* width of the field in bits *)
}.

(** Two fields overlap when they live in one register and share a bit. *)
Definition fields_overlap (L : layout) (f g : field_name) : bool :=
  reg_name_eqb (field_reg f) (field_reg g)
  && (field_lo L f <? field_lo L g + field_len L g)
  && (field_lo L g <? field_lo L f + field_len L f).

Fixpoint pairwise {A : Type} (ok : A -> A -> bool) (l : list A) : bool :=
  match l with
  | [] => true
  | x :: t => forallb (ok x) t && pairwise ok t
  end.

(** What a register header can declare: distinct word indices, fields
    inside their 32-bit word, no two fields of a register on the same bit.
    No field is wider than 16 bits, the width the source gives for the
    widest one ([scale_y]: 6 integer and 10 fractional bits), and
    [fieldnum], which indexes the two-element array [fields], is one bit. *)
Definition layout_ok (L : layout) : bool :=
  forallb (fun r => 0 <=? reg_index L r) all_regs
  && pairwise (fun r s => negb (reg_index L r =? reg_index L s)) all_regs
  && forallb (fun f => (0 <=? field_lo L f) && (1 <=? field_len L f)
                       && (field_len L f <=? 16)
                       && (field_lo L f + field_len L f <=? 32)) all_fields
  && pairwise (fun f g => negb (fields_overlap L f g)) all_fields
  && (field_len L SPG_STATUS_fieldnum =? 1).

(** ** Device state *)

Record pvr := mkPvr {
  reg : Z -> Z;                 (* uint32_t reg[PVR_NUM_REGS] *)
  vram : mem;
  framebuffer : mem;
  framebuffer_w : Z;
  framebuffer_h : Z;
  current_line : Z;             (* unsigned *)
  got_startrender : Z;
  line_clock : Z;
  line_timer : option Z         (* the frequency the pending timer was
                                   armed with; [None] is [NULL] *)
}.

Definition set_reg (r : Z -> Z) (p : pvr) : pvr :=
  mkPvr r (vram p) (framebuffer p) (framebuffer_w p) (framebuffer_h p)
        (current_line p) (got_startrender p) (line_clock p) (line_timer p).
Definition set_vram (m : mem) (p : pvr) : pvr :=
  mkPvr (reg p) m (framebuffer p) (framebuffer_w p) (framebuffer_h p)
        (current_line p) (got_startrender p) (line_clock p) (line_timer p).
Definition set_framebuffer (m : mem) (p : pvr) : pvr :=
  mkPvr (reg p) (vram p) m (framebuffer_w p) (framebuffer_h p)
        (current_line p) (got_startrender p) (line_clock p) (line_timer p).
Definition set_framebuffer_size (w h : Z) (p : pvr) : pvr :=
  mkPvr (reg p) (vram p) (framebuffer p) w h
        (current_line p) (got_startrender p) (line_clock p) (line_timer p).
Definition set_current_line (l : Z) (p : pvr) : pvr :=
  mkPvr (reg p) (vram p) (framebuffer p) (framebuffer_w p) (framebuffer_h p)
        l (got_startrender p) (line_clock p) (line_timer p).
Definition set_got_startrender (g : Z) (p : pvr) : pvr :=
  mkPvr (reg p) (vram p) (framebuffer p) (framebuffer_w p) (framebuffer_h p)
        (current_line p) g (line_clock p) (line_timer p).
Definition set_line_clock (c : Z) (p : pvr) : pvr :=
  mkPvr (reg p) (vram p) (framebuffer p) (framebuffer_w p) (framebuffer_h p)
        (current_line p) (got_startrender p) c (line_timer p).
Definition set_line_timer (t : option Z) (p : pvr) : pvr :=
  mkPvr (reg p) (vram p) (framebuffer p) (framebuffer_w p) (framebuffer_h p)
        (current_line p) (got_startrender p) (line_clock p) t.

(** ** Calls out of the device

    The collaborators (interrupt controller, scheduler, tile accelerator,
    host) are outside the file; a call to one of them is recorded. *)

Inductive holly_interrupt :=
| HOLLY_INT_PCHIINT | HOLLY_INT_PCVIINT | HOLLY_INT_PCVOINT.

Inductive call :=
| holly_raise_interrupt (i : holly_interrupt)
| dc_vblank_in (blank_video : Z)
| dc_vblank_out
| dc_push_pixels (w h : Z)
| prof_counter_add (n : Z)
| sched_start_timer (hz : Z)    (* argument of [HZ_TO_NANO] *)
| sched_cancel_timer
| ta_soft_reset | ta_start_render
| ta_list_init | ta_list_cont | ta_yuv_init.

(** A computation reads and writes the device, records its calls, and
    may stop the emulator ([LOG_FATAL]): then there is no result. *)
Definition M (A : Type) : Type := pvr -> option (A * pvr * list call).

Definition ret {A : Type} (a : A) : M A := fun p => Some (a, p, []).

Definition bind {A B : Type} (m : M A) (k : A -> M B) : M B :=
  fun p =>
    match m p with
    | None => None
    | Some (a, p1, c1) =>
        match k a p1 with
        | None => None
        | Some (b, p2, c2) => Some (b, p2, c1 ++ c2)
        end
    end.

Definition get : M pvr := fun p => Some (p, p, []).
Definition modify (f : pvr -> pvr) : M unit := fun p => Some (tt, f p, []).
Definition emit (c : call) : M unit := fun p => Some (tt, p, [c]).
Definition LOG_FATAL {A : Type} : M A := fun _ => None.
Definition when (b : bool) (m : M unit) : M unit := if b then m else ret tt.

Declare Scope pvr_scope.
Delimit Scope pvr_scope with pvr.
Notation "x <- m ;; k" := (bind m (fun x => k))
  (at level 61, m at next level, right associativity) : pvr_scope.
Notation "m ;; k" := (bind m (fun _ => k))
  (at level 61, right associativity) : pvr_scope.
Local Open Scope pvr_scope.

(** C truth value of a comparison. *)
Definition b2i (b : bool) : Z := if b then 1 else 0.
Definition nonzero (x : Z) : bool := negb (x =? 0).

(** [for (int i = 0; i < bound; i += step) body], threading the state
    the body updates.  The counter test is the one of the source; the
    fuel only makes the recursion structural ([for_range] hands out
    [bound] of it, and every round with [step >= 1] uses one). *)
Fixpoint for_loop {S : Type} (fuel : nat) (i bound step : Z)
         (body : Z -> S -> S) (s : S) : S :=
  match fuel with
  | O => s
  | Datatypes.S fuel' =>
      if i <? bound
      then for_loop fuel' (int32 (i + step)) bound step body (body i s)
      else s
  end.

Definition for_range {S : Type} (bound step : Z)
           (body : Z -> S -> S) (s : S) : S :=
  for_loop (Z.to_nat bound) 0 bound step body s.

(** ** Framebuffer cookie *)

Definition PVR_FB_COOKIE : Z := 0xdeadbeef.

Definition pvr_test_framebuffer (p : pvr) (addr : Z) : Z :=
  let data := load32 (vram p) (VRAM64 addr) in
  b2i (negb (data =? PVR_FB_COOKIE)).

Definition line_width : list Z := [320; 640].
Definition line_bpp : list Z := [2; 3; 4].
Definition line_scale : list Z := [1; 2].

Definition pvr_mark_framebuffer (p : pvr) (addr : Z) : pvr :=
  (* don't mark framebuffers which are being used as textures *)
  if nonzero (Z.land addr 0x01000000) then p
  else
    let m := store32 (vram p) (VRAM64 addr) PVR_FB_COOKIE in
    let m :=
      fold_left (fun m i =>
        fold_left (fun m j =>
          fold_left (fun m k =>
            let next_line := u32 (addr + u32 (u32 (i * j) * k)) in
            store32 m (VRAM64 next_line) PVR_FB_COOKIE)
          line_scale m)
        line_bpp m)
      line_width m in
    set_vram m p.

(** ** Pixel formats of the framebuffer *)

(** [case 0]: masks 0b0111110000000000, 0b0000001111100000,
    0b0000000000011111. *)
Definition pixel_555 (rgb : Z) : Z * Z * Z :=
  (Z.shiftr (Z.land rgb 0x7c00) 7,
   Z.shiftr (Z.land rgb 0x03e0) 2,
   Z.shiftl (Z.land rgb 0x001f) 3).

(** [case 1]: masks 0b1111100000000000, 0b0000011111100000,
    0b0000000000011111. *)
Definition pixel_565 (rgb : Z) : Z * Z * Z :=
  (Z.shiftr (Z.land rgb 0xf800) 8,
   Z.shiftr (Z.land rgb 0x07e0) 3,
   Z.shiftl (Z.land rgb 0x001f) 3).

(** What one round of the innermost loop stores in [dst[0..2]], from the
    translated address [a] of the pixel. *)
Definition texel_555 (src : mem) (a : Z) : Z * Z * Z :=
  let '(r, g, b) := pixel_555 (load16 src a) in (u8 r, u8 g, u8 b).
Definition texel_565 (src : mem) (a : Z) : Z * Z * Z :=
  let '(r, g, b) := pixel_565 (load16 src a) in (u8 r, u8 g, u8 b).
(** [case 2], [uint8_t *rgb = &src[a]] *)
Definition texel_888 (src : mem) (a : Z) : Z * Z * Z :=
  (load8 src (a + 2), load8 src (a + 1), load8 src a).
(** [case 3], [uint8_t *krgb = &src[a]] *)
Definition texel_0888 (src : mem) (a : Z) : Z * Z * Z :=
  (load8 src (a + 2), load8 src (a + 1), load8 src a).

(** The conversion rule as the specification words it: a channel is a
    run of bits of the packed pixel, widened to 8 bits by a left shift
    that fills the low bits with zeros. *)
Definition channel (rgb lo len : Z) : Z :=
  Z.land (Z.shiftr rgb lo) (Z.ones len).
Definition widen (c len : Z) : Z := Z.shiftl c (8 - len).
Definition spec_555 (rgb : Z) : Z * Z * Z :=
  (widen (channel rgb 10 5) 5, widen (channel rgb 5 5) 5,
   widen (channel rgb 0 5) 5).
Definition spec_565 (rgb : Z) : Z * Z * Z :=
  (widen (channel rgb 11 5) 5, widen (channel rgb 5 6) 6,
   widen (channel rgb 0 5) 5).

(** The locals of the conversion: [fields[0]], [fields[1]], [dst] as an
    index into [pvr->framebuffer], and the buffer written so far. *)
Record cursor := mkCursor {
  fields0 : Z;
  fields1 : Z;
  dst : Z;
  out : mem
}.

(** [fields[n]]; [n] is a loop index below [num_fields] or the one-bit
    [fieldnum], so 0 or 1. *)
Definition field_at (c : cursor) (n : Z) : Z :=
  if n =? 0 then fields0 c else fields1 c.

(** [fields[n] += d] *)
Definition field_add (n d : Z) (c : cursor) : cursor :=
  if n =? 0
  then mkCursor (u32 (fields0 c + d)) (fields1 c) (dst c) (out c)
  else mkCursor (fields0 c) (u32 (fields1 c + d)) (dst c) (out c).

(** [dst[0] = r; dst[1] = g; dst[2] = b; dst += 3] *)
Definition put_pixel (rgb : Z * Z * Z) (c : cursor) : cursor :=
  let '(r, g, b) := rgb in
  mkCursor (fields0 c) (fields1 c) (dst c + 3)
           (store8 (store8 (store8 (out c) (dst c) r) (dst c + 1) g)
                   (dst c + 2) b).

(** The loop nest shared by the four cases of the switch, which differ
    in the pixel stride [bpp] and in what they store. *)
Definition convert (src : mem) (y_size num_fields x_size line_mod : Z)
           (bpp : Z) (texel : mem -> Z -> Z * Z * Z) (c : cursor) : cursor :=
  for_range y_size 1 (fun _ c =>
    for_range num_fields 1 (fun n c =>
      let c :=
        for_range x_size bpp (fun _ c =>
          field_add n bpp (put_pixel (texel src (VRAM64 (field_at c n))) c))
          c in
      field_add n line_mod c) c) c.

Section Device.

Variable L : layout.

(** [pvr->NAME->field] *)
Definition field (p : pvr) (f : field_name) : Z :=
  Z.land (Z.shiftr (reg p (reg_index L (field_reg f))) (field_lo L f))
         (Z.ones (field_len L f)).

(** [pvr->NAME->field = v] *)
Definition set_field (f : field_name) (v : Z) (p : pvr) : pvr :=
  let i := reg_index L (field_reg f) in
  let ones := Z.ones (field_len L f) in
  set_reg (upd (reg p) i
             (Z.lor (Z.land (reg p i) (Z.lnot (Z.shiftl ones (field_lo L f))))
                    (Z.shiftl (Z.land v ones) (field_lo L f)))) p.

(** [*pvr->NAME] and [pvr->NAME->full] *)
Definition full (p : pvr) (r : reg_name) : Z := reg p (reg_index L r).

Definition set_full (r : reg_name) (v : Z) (p : pvr) : pvr :=
  set_reg (upd (reg p) (reg_index L r) (u32 v)) p.

Definition pvr_framebuffer_size (p : pvr) : Z * Z :=
  let width := int32 (field p FB_R_SIZE_x + 1) in
  let height := int32 (field p FB_R_SIZE_y + 1) in
  (* FB_R_SIZE specifies x in 32-bit units *)
  let depth := field p FB_R_CTRL_fb_depth in
  let width :=
    if (depth =? 0) || (depth =? 1) then int32 (width * 2)
    else if depth =? 2 then int32 (Z.quot (int32 (width * 4)) 3)
    else width in
  (* if interlacing, full framebuffer height is double *)
  let height :=
    if nonzero (field p SPG_CONTROL_interlace) then int32 (height * 2)
    else height in
  (width, height).

Definition pvr_update_framebuffer : M Z :=
  p <- get ;;
  let fields := mkCursor (full p FB_R_SOF1) (full p FB_R_SOF2)
                         0 (framebuffer p) in
  let num_fields := if nonzero (field p SPG_CONTROL_interlace) then 2 else 1 in
  let fieldnum := field p SPG_STATUS_fieldnum in
  if negb (nonzero (field p FB_R_CTRL_fb_enable)) then ret 0
  else
    (* don't do anything if the framebuffer hasn't been written to *)
    if pvr_test_framebuffer p (field_at fields fieldnum) =? 0 then ret 0
    else
      let '(w, h) := pvr_framebuffer_size p in
      modify (set_framebuffer_size w h) ;;
      let src := vram p in
      (* values in FB_R_SIZE are in 32-bit units *)
      let line_mod := int32 (int32 (Z.shiftl (field p FB_R_SIZE_mod) 2) - 4) in
      let x_size := int32 (Z.shiftl (int32 (field p FB_R_SIZE_x + 1)) 2) in
      let y_size := int32 (field p FB_R_SIZE_y + 1) in
      let run := convert src y_size num_fields x_size line_mod in
      let depth := field p FB_R_CTRL_fb_depth in
      c <- (if depth =? 0 then ret (run 2 texel_555 fields)
            else if depth =? 1 then ret (run 2 texel_565 fields)
            else if depth =? 2 then ret (run 3 texel_888 fields)
            else if depth =? 3 then ret (run 4 texel_0888 fields)
            else LOG_FATAL) ;;
      modify (set_framebuffer (out c)) ;;
      emit (dc_push_pixels w h) ;;
      ret 1.

Definition pvr_vblank_out : M unit := emit dc_vblank_out.

Definition pvr_vblank_in : M unit :=
  emit (prof_counter_add 1) ;;
  (* if STARTRENDER wasn't written to this frame, check to see if the
     framebuffer was written to directly *)
  p <- get ;;
  (if negb (nonzero (got_startrender p))
   then (_ <- pvr_update_framebuffer ;; ret tt)
   else modify (set_got_startrender 0)) ;;
  (* flip field *)
  p <- get ;;
  (if nonzero (field p SPG_CONTROL_interlace)
   then modify (set_field SPG_STATUS_fieldnum
                  (b2i (negb (nonzero (field p SPG_STATUS_fieldnum)))))
   else modify (set_field SPG_STATUS_fieldnum 0)) ;;
  p <- get ;;
  emit (dc_vblank_in (field p VO_CONTROL_blank_video)).

(** The timer callback.  [num_lines] is at least 1 for any layout a
    header can declare, so the remainder is defined. *)
Definition pvr_next_scanline : M unit :=
  p <- get ;;
  let num_lines := u32 (field p SPG_LOAD_vcount + 1) in
  modify (set_current_line (u32 (current_line p + 1) mod num_lines)) ;;
  (* hblank in *)
  p <- get ;;
  (let mode := field p SPG_HBLANK_INT_hblank_int_mode in
   if mode =? 0x0
   then when (current_line p =? field p SPG_HBLANK_INT_line_comp_val)
             (emit (holly_raise_interrupt HOLLY_INT_PCHIINT))
   else if mode =? 0x2
   then emit (holly_raise_interrupt HOLLY_INT_PCHIINT)
   else LOG_FATAL) ;;
  (* vblank in *)
  when (current_line p =? field p SPG_VBLANK_INT_vblank_in_line_number)
       (emit (holly_raise_interrupt HOLLY_INT_PCVIINT)) ;;
  (* vblank out *)
  when (current_line p =? field p SPG_VBLANK_INT_vblank_out_line_number)
       (emit (holly_raise_interrupt HOLLY_INT_PCVOINT)) ;;
  let was_vsync := field p SPG_STATUS_vsync in
  let vbstart := field p SPG_VBLANK_vbstart in
  let vbend := field p SPG_VBLANK_vbend in
  modify (set_field SPG_STATUS_vsync
            (b2i (if vbstart <? vbend
                  then (vbstart <=? current_line p) && (current_line p <? vbend)
                  else (vbstart <=? current_line p) || (current_line p <? vbend)))) ;;
  modify (set_field SPG_STATUS_scanline (current_line p)) ;;
  q <- get ;;
  (if negb (nonzero was_vsync) && nonzero (field q SPG_STATUS_vsync)
   then pvr_vblank_in
   else if nonzero was_vsync && negb (nonzero (field q SPG_STATUS_vsync))
   then pvr_vblank_out
   else ret tt) ;;
  (* reschedule *)
  q <- get ;;
  emit (sched_start_timer (line_clock q)) ;;
  modify (set_line_timer (Some (line_clock q))).

(** The [LOG_INFO] line of the source has no effect on the device and is
    left out. *)
Definition pvr_reconfigure_spg : M unit :=
  p <- get ;;
  (* scale pixel clock frequency *)
  let pixel_clock := 13500000 in
  let pixel_clock :=
    if nonzero (field p FB_R_CTRL_vclk_div) then int32 (pixel_clock * 2)
    else pixel_clock in
  (* hcount is number of pixel clock cycles per line - 1 *)
  modify (set_line_clock
            (int32 (Z.quot pixel_clock (field p SPG_LOAD_hcount + 1)))) ;;
  when (nonzero (field p SPG_CONTROL_interlace))
       (modify (fun p => set_line_clock (int32 (line_clock p * 2)) p)) ;;
  q <- get ;;
  when (match line_timer q with Some _ => true | None => false end)
       (emit sched_cancel_timer ;; modify (set_line_timer None)) ;;
  q <- get ;;
  emit (sched_start_timer (line_clock q)) ;;
  modify (set_line_timer (Some (line_clock q))).

(** ** Register write handlers ([REG_W32]) *)

Definition SOFTRESET_write (value : Z) : M unit :=
  if negb (nonzero (Z.land value 0x1)) then ret tt
  else emit ta_soft_reset.

Definition STARTRENDER_write (value : Z) : M unit :=
  if negb (nonzero value) then ret tt
  else
    emit ta_start_render ;;
    modify (fun p => pvr_mark_framebuffer p (full p FB_W_SOF1)) ;;
    modify (fun p => pvr_mark_framebuffer p (full p FB_W_SOF2)) ;;
    modify (set_got_startrender 1).

Definition TA_LIST_INIT_write (value : Z) : M unit :=
  if negb (nonzero (Z.land value 0x80000000)) then ret tt
  else emit ta_list_init.

Definition TA_LIST_CONT_write (value : Z) : M unit :=
  if negb (nonzero (Z.land value 0x80000000)) then ret tt
  else emit ta_list_cont.

Definition TA_YUV_TEX_BASE_write (value : Z) : M unit :=
  modify (set_full TA_YUV_TEX_BASE value) ;;
  emit ta_yuv_init.

Definition SPG_LOAD_write (value : Z) : M unit :=
  modify (set_full SPG_LOAD value) ;;
  pvr_reconfigure_spg.

Definition FB_R_CTRL_write (value : Z) : M unit :=
  modify (set_full FB_R_CTRL value) ;;
  pvr_reconfigure_spg.

(** [pvr_cb[offset].write]: the table holds the seven handlers above at
    the index of their register and [NULL] everywhere else. *)
Definition pvr_cb_write (offset : Z) : option (Z -> M unit) :=
  if offset =? reg_index L SOFTRESET then Some SOFTRESET_write
  else if offset =? reg_index L STARTRENDER then Some STARTRENDER_write
  else if offset =? reg_index L TA_LIST_INIT then Some TA_LIST_INIT_write
  else if offset =? reg_index L TA_LIST_CONT then Some TA_LIST_CONT_write
  else if offset =? reg_index L TA_YUV_TEX_BASE
       then Some TA_YUV_TEX_BASE_write
  else if offset =? reg_index L SPG_LOAD then Some SPG_LOAD_write
  else if offset =? reg_index L FB_R_CTRL then Some FB_R_CTRL_write
  else None.

(** [pvr_cb[offset].read]: no read handler is registered. *)
Definition pvr_cb_read (offset : Z) : option (M Z) := None.

(** [pvr_reg_write] over a callback table [cb]; the source reads the
    global table [pvr_cb]. *)
Definition pvr_reg_write_via (cb : Z -> option (Z -> M unit))
           (addr data mask : Z) : M unit :=
  let offset := Z.shiftr addr 2 in
  let write := cb offset in
  (* ID register is read-only, and the bios will fail to boot if a write
     goes through to this register *)
  if offset =? reg_index L ID then ret tt
  else
    match write with
    | Some write => write data
    | None => modify (fun p => set_reg (upd (reg p) offset data) p)
    end.

Definition pvr_reg_write : Z -> Z -> Z -> M unit :=
  pvr_reg_write_via pvr_cb_write.

Definition pvr_reg_read (addr mask : Z) : M Z :=
  let offset := Z.shiftr addr 2 in
  match pvr_cb_read offset with
  | Some read => read
  | None => p <- get ;; ret (reg p offset)
  end.

Definition pvr_video_size (p : pvr) : Z * Z :=
  let '(width, height) := pvr_framebuffer_size p in
  (* scale_x: the original video width is double the framebuffer width *)
  let width :=
    if nonzero (field p SCALER_CTL_scale_x) then int32 (width * 2)
    else width in
  (* scale_y is a fixed-point scaler, 6 integer and 10 fractional bits *)
  let height :=
    int32 (Z.shiftr (int32 (height * field p SCALER_CTL_scale_y)) 10) in
  (* flicker-free type B interlacing *)
  let height :=
    if nonzero (field p SCALER_CTL_interlace) then Z.quot height 2
    else height in
  (width, height).

(** The same query as an operation on the device: [width] and [height]
    are its out-parameters, the device is read and nothing else. *)
Definition pvr_video_size_run : M (Z * Z) :=
  p <- get ;;
  ret (pvr_video_size p).

End Device.

(** ** The two access paths to video memory

    [READ_DATA] and [WRITE_DATA] come from a header outside the sources
    at hand; they are taken as they are used: from the memory, the index
    handed to them and the [mask] (and [data]) of the enclosing function. *)

Section VramAccess.

Variable READ_DATA : mem -> Z -> Z -> Z.
Variable WRITE_DATA : mem -> Z -> Z -> Z -> mem.

Definition pvr_vram32_write (p : pvr) (addr data mask : Z) : pvr :=
  let addr := VRAM64 addr in
  set_vram (WRITE_DATA (vram p) addr data mask) p.

Definition pvr_vram32_read (p : pvr) (addr mask : Z) : Z :=
  let addr := VRAM64 addr in
  READ_DATA (vram p) addr mask.

Definition pvr_vram64_write (p : pvr) (addr data mask : Z) : pvr :=
  set_vram (WRITE_DATA (vram p) addr data mask) p.

Definition pvr_vram64_read (p : pvr) (addr mask : Z) : Z :=
  READ_DATA (vram p) addr mask.

End VramAccess.

(** ** Running the scanline timer *)

(** [n] firings of the timer in a row, with the calls of all of them. *)
Fixpoint ticks (L : layout) (n : nat) : M unit :=
  match n with
  | O => ret tt
  | Datatypes.S n' => pvr_next_scanline L ;; ticks L n'
  end.

(** ** The register layout of the hardware

    Word indices are byte offsets into the register block divided by 4;
    bit positions are those of the chip's register description. *)

Definition dc_reg_index (r : reg_name) : Z :=
  match r with
  | ID => 0x000 | SOFTRESET => 0x008 | STARTRENDER => 0x014
  | FB_R_CTRL => 0x044 | FB_R_SOF1 => 0x050 | FB_R_SOF2 => 0x054
  | FB_R_SIZE => 0x05c | FB_W_SOF1 => 0x060 | FB_W_SOF2 => 0x064
  | SPG_HBLANK_INT => 0x0c8 | SPG_VBLANK_INT => 0x0cc
  | SPG_CONTROL => 0x0d0 | SPG_LOAD => 0x0d8 | SPG_VBLANK => 0x0dc
  | VO_CONTROL => 0x0e8 | SCALER_CTL => 0x0f4 | SPG_STATUS => 0x10c
  | TA_LIST_INIT => 0x144 | TA_YUV_TEX_BASE => 0x148
  | TA_LIST_CONT => 0x160
  end / 4.

Definition dc_field (f : field_name) : Z * Z :=
  match f with
  | FB_R_SIZE_x => (0, 10) | FB_R_SIZE_y => (10, 10)
  | FB_R_SIZE_mod => (20, 10)
  | FB_R_CTRL_fb_enable => (0, 1) | FB_R_CTRL_fb_depth => (2, 2)
  | FB_R_CTRL_vclk_div => (23, 1)
  | SPG_CONTROL_interlace => (4, 1)
  | SPG_STATUS_scanline => (0, 10) | SPG_STATUS_fieldnum => (10, 1)
  | SPG_STATUS_vsync => (13, 1)
  | SPG_LOAD_hcount => (0, 10) | SPG_LOAD_vcount => (16, 10)
  | SPG_HBLANK_INT_line_comp_val => (0, 10)
  | SPG_HBLANK_INT_hblank_int_mode => (12, 2)
  | SPG_VBLANK_INT_vblank_in_line_number => (0, 10)
  | SPG_VBLANK_INT_vblank_out_line_number => (16, 10)
  | SPG_VBLANK_vbstart => (0, 10) | SPG_VBLANK_vbend => (16, 10)
  | VO_CONTROL_blank_video => (3, 1)
  | SCALER_CTL_scale_y => (0, 16) | SCALER_CTL_scale_x => (16, 1)
  | SCALER_CTL_interlace => (17, 1)
  end.

Definition dc_layout : layout :=
  mkLayout dc_reg_index (fun f => fst (dc_field f)) (fun f => snd (dc_field f)).

(** A device with all registers and all memory zero, and one with the
    registers given as an association list of word index and value. *)
Definition pvr_zero : pvr :=
  mkPvr (fun _ => 0) (fun _ => Byte.x00) (fun _ => Byte.x00) 0 0 0 0 0 None.

Definition regs_of (l : list (reg_name * Z)) : Z -> Z :=
  fold_right (fun rv r => upd r (dc_reg_index (fst rv)) (snd rv))
             (fun _ => 0) l.

(** Pack a value into a field of the hardware layout. *)
Definition at_field (f : field_name) (v : Z) : Z :=
  Z.shiftl v (fst (dc_field f)).

(** A device that scans out one line at depth [depth] from linear
    address 0, with [x + 1] words per line and no line padding, over a
    video memory holding [bytes]. *)
Definition fb_device (depth x : Z) (bytes : list Z) : pvr :=
  mkPvr (regs_of [ (FB_R_CTRL, Z.lor (at_field FB_R_CTRL_fb_enable 1)
                                     (at_field FB_R_CTRL_fb_depth depth));
                   (FB_R_SIZE, Z.lor (at_field FB_R_SIZE_x x)
                                     (at_field FB_R_SIZE_mod 1));
                   (FB_R_SOF1, 0) ])
        (mem_of_list bytes) (fun _ => Byte.x00) 0 0 0 0 0 None.

(** A 640x480 16-bit display with the scaler set as given. *)
Definition scaler_device (scale_y scale_x : Z) : pvr :=
  mkPvr (regs_of [ (FB_R_CTRL, Z.lor (at_field FB_R_CTRL_fb_enable 1)
                                     (at_field FB_R_CTRL_fb_depth 1));
                   (FB_R_SIZE, Z.lor (at_field FB_R_SIZE_x 319)
                                     (at_field FB_R_SIZE_y 479));
                   (SCALER_CTL, Z.lor (at_field SCALER_CTL_scale_y scale_y)
                                      (at_field SCALER_CTL_scale_x scale_x)) ])
        (fun _ => Byte.x00) (fun _ => Byte.x00) 0 0 0 0 0 None.

(** The result of [pvr_update_framebuffer], the calls it made and the
    first [n] bytes it left in [pvr->framebuffer]. *)
Definition extracted (L : layout) (p : pvr) (n : nat)
  : option (Z * list call * list Z) :=
  match pvr_update_framebuffer L p with
  | Some (r, p', calls) =>
      Some (r, calls, map (fun i => load8 (framebuffer p') (Z.of_nat i)) (seq 0 n))
  | None => None
  end.

(** ** Counting calls *)

Definition is_vblank_in (c : call) : bool :=
  match c with dc_vblank_in _ => true | _ => false end.
Definition is_vblank_out (c : call) : bool :=
  match c with dc_vblank_out => true | _ => false end.

Definition count (f : call -> bool) (l : list call) : Z :=
  Z.of_nat (length (filter f l)).

(** The vsync interval of the generator, as a predicate of the line. *)
Definition in_vsync (vbstart vbend line : Z) : bool :=
  if vbstart <? vbend
  then (vbstart <=? line) && (line <? vbend)
  else (vbstart <=? line) || (line <? vbend).

(** A list of calls without vblank notifications. *)
Definition quiet (calls : list call) : Prop :=
  count is_vblank_in calls = 0 /\ count is_vblank_out calls = 0.

(** The line the counter moves to on the next tick. *)
Definition next_line (L : layout) (p : pvr) : Z :=
  u32 (current_line p + 1) mod u32 (field L p SPG_LOAD_vcount + 1).

(** The vsync interval of the device at line [line]. *)
Definition vsync_at (L : layout) (p : pvr) (line : Z) : bool :=
  in_vsync (field L p SPG_VBLANK_vbstart) (field L p SPG_VBLANK_vbend) line.

(** The tick cannot stop the emulator: a supported hblank interrupt mode
    and a supported framebuffer depth. *)
Definition runnable (L : layout) (p : pvr) : Prop :=
  (field L p SPG_HBLANK_INT_hblank_int_mode = 0
   \/ field L p SPG_HBLANK_INT_hblank_int_mode = 2)
  /\ field L p FB_R_CTRL_fb_depth <= 3.

(** [q] has the registers of [p] outside SPG_STATUS. *)
Definition same_config (L : layout) (p q : pvr) : Prop :=
  forall i, i <> reg_index L SPG_STATUS -> reg q i = reg p i.

(** The vsync flag of the device agrees with its line counter, as it
    does after any tick. *)
Definition consistent (L : layout) (p : pvr) : Prop :=
  nonzero (field L p SPG_STATUS_vsync) = vsync_at L p (current_line p).

(** Edges of a signal [V] over the [n] lines that follow line [l] in a
    frame of [N] lines. *)
Definition rising (a b : bool) : bool := negb a && b.
Definition falling (a b : bool) : bool := a && negb b.

Fixpoint edges (E : bool -> bool -> bool) (V : Z -> bool) (N l : Z)
         (n : nat) : Z :=
  match n with
  | O => 0
  | Datatypes.S n' =>
      let l' := (l + 1) mod N in
      b2i (E (V l) (V l')) + edges E V N l' n'
  end.

(** A device for the timing examples: 525 lines per frame, vsync from
    line [vbstart] to line [vbend], standing at line [line] with its
    vsync flag in agreement. *)
Definition spg_device (vbstart vbend line : Z) : pvr :=
  mkPvr (regs_of [ (SPG_LOAD, at_field SPG_LOAD_vcount 524);
                   (SPG_VBLANK, Z.lor (at_field SPG_VBLANK_vbstart vbstart)
                                      (at_field SPG_VBLANK_vbend vbend));
                   (SPG_STATUS,
                    at_field SPG_STATUS_vsync
                             (b2i (in_vsync vbstart vbend line))) ])
        (fun _ => Byte.x00) (fun _ => Byte.x00) 0 0 line 1 0 None.

(** ** Further vocabulary for the properties *)

(** The twelve addresses [pvr_mark_framebuffer] marks besides the base:
    where field 2 of the framebuffer could start, in the order of the
    loop nest. *)
Definition field2_candidates (addr : Z) : list Z :=
  flat_map (fun i =>
    flat_map (fun j =>
      map (fun k => u32 (addr + u32 (u32 (i * j) * k))) line_scale)
    line_bpp)
  line_width.

(** [fields[field]] of [pvr_update_framebuffer]: the address the dirty
    test looks at. *)
Definition read_source (L : layout) (p : pvr) : Z :=
  if field L p SPG_STATUS_fieldnum =? 0
  then full L p FB_R_SOF1 else full L p FB_R_SOF2.

Definition is_push_pixels (c : call) : bool :=
  match c with dc_push_pixels _ _ => true | _ => false end.
Definition is_start_timer (c : call) : bool :=
  match c with sched_start_timer _ => true | _ => false end.
Definition is_cancel_timer (c : call) : bool :=
  match c with sched_cancel_timer => true | _ => false end.
Definition is_interrupt (i : holly_interrupt) (c : call) : bool :=
  match c, i with
  | holly_raise_interrupt HOLLY_INT_PCHIINT, HOLLY_INT_PCHIINT
  | holly_raise_interrupt HOLLY_INT_PCVIINT, HOLLY_INT_PCVIINT
  | holly_raise_interrupt HOLLY_INT_PCVOINT, HOLLY_INT_PCVOINT => true
  | _, _ => false
  end.

(** The value [pvr_vblank_in] gives [fieldnum]. *)
Definition flipped (L : layout) (p : pvr) : Z :=
  if nonzero (field L p SPG_CONTROL_interlace)
  then b2i (negb (nonzero (field L p SPG_STATUS_fieldnum)))
  else 0.

(** The number of rounds of [for (i = 0; i < bound; i += step)]. *)
Definition iterations (bound step : Z) : Z :=
  if bound <=? 0 then 0 else (bound + step - 1) / step.

(** From cursor [c] to cursor [c'] exactly [n] pixels were put: [dst]
    moved on by [3 * n] and the buffer differs inside that stretch only. *)
Definition wrote (c c' : cursor) (n : Z) : Prop :=
  dst c' = dst c + 3 * n
  /\ forall i, i < dst c \/ dst c' <= i -> out c' i = out c i.

(** Pixels [pvr_update_framebuffer] converts per line of one field. *)
Definition pixels_per_line (L : layout) (p : pvr) : Z :=
  let x_size := 4 * (field L p FB_R_SIZE_x + 1) in
  let depth := field L p FB_R_CTRL_fb_depth in
  if (depth =? 0) || (depth =? 1) then iterations x_size 2
  else if depth =? 2 then iterations x_size 3
  else iterations x_size 4.

(** Rounds a [for] loop still runs when its counter stands at [i]. *)
Definition rounds_left (bound step i : Z) : Z :=
  if i <? bound then (bound - i + step - 1) / step else 0.

(** The calls of the three interrupt tests of a tick arriving at [line]. *)
Definition raised (L : layout) (p : pvr) (line : Z) : list call :=
  (if field L p SPG_HBLANK_INT_hblank_int_mode =? 0
   then if line =? field L p SPG_HBLANK_INT_line_comp_val
        then [holly_raise_interrupt HOLLY_INT_PCHIINT] else []
   else [holly_raise_interrupt HOLLY_INT_PCHIINT])
  ++ (if line =? field L p SPG_VBLANK_INT_vblank_in_line_number
      then [holly_raise_interrupt HOLLY_INT_PCVIINT] else [])
  ++ (if line =? field L p SPG_VBLANK_INT_vblank_out_line_number
      then [holly_raise_interrupt HOLLY_INT_PCVOINT] else []).

(** Calls that come from a vsync edge only. *)
Definition edge_call (c : call) : bool :=
  match c with
  | prof_counter_add _ | dc_push_pixels _ _ | dc_vblank_in _
  | dc_vblank_out => true
  | _ => false
  end.

(** The line clock [pvr_reconfigure_spg] computes from the registers. *)
Definition spg_line_clock (L : layout) (p : pvr) : Z :=
  (if nonzero (field L p FB_R_CTRL_vclk_div) then 27000000 else 13500000)
  / (field L p SPG_LOAD_hcount + 1)
  * (if nonzero (field L p SPG_CONTROL_interlace) then 2 else 1).

(** Register indices whose writes never reach the register array: the
    identifier and the four triggers. *)
Definition keeps_value (L : layout) (offset : Z) : bool :=
  (offset =? reg_index L ID)
  || (offset =? reg_index L SOFTRESET)
  || (offset =? reg_index L STARTRENDER)
  || (offset =? reg_index L TA_LIST_INIT)
  || (offset =? reg_index L TA_LIST_CONT).

(** ** Device initialisation

    [pvr_init] stores the default of every register named in
    [pvr_regs.inc], takes the video memory from the memory map and
    configures the generator.  The list of the header, as pairs of word
    index and default in the order of the file, and the memory the map
    hands out are parameters. *)

Definition pvr_init (L : layout) (pvr_regs_inc : list (Z * Z))
           (mem_vram : mem) : M Z :=
  (* init registers *)
  modify (fun p =>
            set_reg (fold_left (fun r e => upd r (fst e) (u32 (snd e)))
                               pvr_regs_inc (reg p)) p) ;;
  modify (set_vram mem_vram) ;;
  (* configure initial vsync interval *)
  pvr_reconfigure_spg L ;;
  ret 1.

(** [n] vblank-ins in a row, with the calls of all of them. *)
Fixpoint vblank_ins (L : layout) (n : nat) : M unit :=
  match n with
  | O => ret tt
  | Datatypes.S n' => pvr_vblank_in L ;; vblank_ins L n'
  end.

(** * Properties *)

Example VRAM64_ex1 : VRAM64 0x00000004 = 0x00000008.
Proof. reflexivity. Qed.
Example VRAM64_ex2 : VRAM64 0x00400000 = 0x00000004.
Proof. reflexivity. Qed.
Example VRAM64_ex3 : VRAM64 0x007fffff = 0x007fffff.
Proof. reflexivity. Qed.
Example VRAM64_ex4 : VRAM64 0xff400007 = 0x0000000f.
Proof. reflexivity. Qed.

(** ** Machine integers in range *)

Lemma int32_small (x : Z) : - 2 ^ 31 <= x < 2 ^ 31 -> int32 x = x.
Proof. intros Hx. unfold int32. rewrite Z.mod_small; lia. Qed.

Lemma u32_small (x : Z) : 0 <= x < 2 ^ 32 -> u32 x = x.
Proof. intros Hx. unfold u32. apply Z.mod_small; lia. Qed.

(** ** Bit-level reasoning *)

Lemma testbit_small (a k n : Z) :
  0 <= a < 2 ^ k -> 0 <= k <= n -> Z.testbit a n = false.
Proof.
  intros Ha Hk.
  rewrite <- (Z.mod_small a (2 ^ k)) by assumption.
  apply Z.mod_pow2_bits_high. lia.
Qed.

Lemma small_of_testbit (a k : Z) :
  0 <= a -> 0 <= k -> (forall n, k <= n -> Z.testbit a n = false) -> a < 2 ^ k.
Proof.
  intros Ha Hk Hbits.
  destruct (Z.eq_dec a 0) as [->|Hnz]; [apply Z.pow_pos_nonneg; lia|].
  apply Z.log2_lt_pow2; [lia|].
  destruct (Z_lt_le_dec (Z.log2 a) k) as [Hlt|Hge]; [assumption|].
  pose proof (Z.bit_log2 a ltac:(lia)) as Hb.
  rewrite (Hbits (Z.log2 a) Hge) in Hb. discriminate.
Qed.

Lemma testbit_mod_pow2 (a k n : Z) :
  0 <= k -> Z.testbit (a mod 2 ^ k) n = (n <? k) && Z.testbit a n.
Proof.
  intros Hk. destruct (Z.ltb_spec n k).
  - destruct (Z_lt_le_dec n 0).
    + now rewrite !Z.testbit_neg_r by lia.
    + now rewrite Z.mod_pow2_bits_low by lia.
  - now rewrite Z.mod_pow2_bits_high by lia.
Qed.

Lemma testbit_u8 a n : Z.testbit (u8 a) n = (n <? 8) && Z.testbit a n.
Proof. apply testbit_mod_pow2; lia. Qed.

Lemma testbit_u16 a n : Z.testbit (u16 a) n = (n <? 16) && Z.testbit a n.
Proof. apply testbit_mod_pow2; lia. Qed.

Lemma testbit_u32 a n : Z.testbit (u32 a) n = (n <? 32) && Z.testbit a n.
Proof. apply testbit_mod_pow2; lia. Qed.

Lemma testbit_shl a k n :
  Z.testbit (Z.shiftl a k) n = (0 <=? n) && Z.testbit a (n - k).
Proof.
  destruct (Z.leb_spec 0 n).
  - now rewrite Z.shiftl_spec by lia.
  - now rewrite Z.testbit_neg_r by lia.
Qed.

Lemma testbit_shr a k n :
  Z.testbit (Z.shiftr a k) n = (0 <=? n) && Z.testbit a (n + k).
Proof.
  destruct (Z.leb_spec 0 n).
  - now rewrite Z.shiftr_spec by lia.
  - now rewrite Z.testbit_neg_r by lia.
Qed.

Lemma testbit_not a n :
  Z.testbit (Z.lnot a) n = (0 <=? n) && negb (Z.testbit a n).
Proof.
  destruct (Z.leb_spec 0 n).
  - now rewrite Z.lnot_spec by lia.
  - now rewrite Z.testbit_neg_r by lia.
Qed.

Lemma testbit_mask k n :
  0 <= k -> Z.testbit (Z.ones k) n = (0 <=? n) && (n <? k).
Proof.
  intros Hk. destruct (Z.leb_spec 0 n), (Z.ltb_spec n k); simpl.
  - apply Z.ones_spec_low; lia.
  - apply Z.ones_spec_high; lia.
  - apply Z.testbit_neg_r; lia.
  - apply Z.testbit_neg_r; lia.
Qed.

Lemma testbit_bit k n : 0 <= k -> Z.testbit (2 ^ k) n = (n =? k).
Proof.
  intros Hk. rewrite Z.eqb_sym. apply Z.pow2_bits_eqb; exact Hk.
Qed.

(** Push [Z.testbit] through the operators down to the variables. *)
Ltac bit_rw :=
  repeat first
    [ rewrite Z.lor_spec | rewrite Z.land_spec | rewrite Z.lxor_spec
    | rewrite testbit_shl | rewrite testbit_shr
    | rewrite testbit_u32 | rewrite testbit_u16 | rewrite testbit_u8
    | rewrite testbit_not
    | rewrite testbit_mask by lia | rewrite testbit_bit by lia
    | rewrite testbit_mod_pow2 by lia ].

(** Split on every comparison of bit positions that is left. *)
Ltac cmp_cases :=
  repeat (match goal with
          | |- context [?x <=? ?y] => destruct (Z.leb_spec x y)
          | |- context [?x <? ?y] => destruct (Z.ltb_spec x y)
          | |- context [?x =? ?y] => destruct (Z.eqb_spec x y)
          end; try lia; cbn [andb orb negb]).

Ltac bit_close :=
  repeat match goal with
         | |- context [Z.testbit ?a ?i] =>
             rewrite (Z.testbit_neg_r a i) by lia
         end;
  rewrite ?Bool.andb_true_r, ?Bool.andb_false_r,
          ?Bool.orb_false_r, ?Bool.orb_true_r;
  cbn [andb orb negb];
  first [ reflexivity | f_equal; lia | idtac ].

Ltac bitwise n Hn :=
  apply Z.bits_inj'; intros n Hn; bit_rw; cmp_cases; bit_close.

(** The constants of [VRAM64] and [VRAM32] as masks and single bits. *)
Ltac vram_consts :=
  change (0x00400000 - 1) with (Z.ones 22);
  change 0x3 with (Z.ones 2);
  change 0x00400000 with (2 ^ 22);
  change 0x4 with (2 ^ 2);
  change 0x003ffffc with (Z.shiftl (Z.ones 20) 2).

Lemma VRAM32_VRAM64 (a : Z) : 0 <= a < 0x00800000 -> VRAM32 (VRAM64 a) = a.
Proof.
  intros Ha. unfold VRAM32, VRAM64. cbv zeta. vram_consts.
  bitwise n Hn.
  all: symmetry; apply (testbit_small a 23); [exact Ha | lia].
Qed.

Lemma VRAM64_nonneg (a : Z) : 0 <= VRAM64 a.
Proof.
  unfold VRAM64. cbv zeta.
  repeat (apply Z.lor_nonneg; split).
  - apply Z.mod_pos_bound. reflexivity.
  - apply Z.shiftr_nonneg, Z.land_nonneg. right. discriminate.
  - apply Z.land_nonneg. right. discriminate.
Qed.

Lemma VRAM64_bits_high (a n : Z) : 23 <= n -> Z.testbit (VRAM64 a) n = false.
Proof.
  intros Hn. unfold VRAM64. cbv zeta. vram_consts.
  bit_rw. cmp_cases; bit_close.
Qed.

Lemma VRAM64_lt (a : Z) : VRAM64 a < VRAM_SIZE.
Proof.
  change VRAM_SIZE with (2 ^ 23).
  apply small_of_testbit; [apply VRAM64_nonneg | lia |].
  intros n Hn. now apply VRAM64_bits_high.
Qed.

(** The translation looks at bits 0..22 of its argument only. *)
Lemma VRAM64_low_bits (a : Z) : VRAM64 a = VRAM64 (Z.land a 0x007fffff).
Proof.
  unfold VRAM64. cbv zeta. vram_consts. change 0x007fffff with (Z.ones 23).
  bitwise n Hn.
Qed.

(** The two byte-in-word bits pass through unchanged. *)
Lemma VRAM64_mod4 (a : Z) : VRAM64 a mod 4 = a mod 4.
Proof.
  change 4 with (2 ^ 2). unfold VRAM64. cbv zeta. vram_consts.
  bitwise n Hn.
Qed.

(** ** Memory *)

Lemma Z_of_byte_of_Z (v : Z) : Z_of_byte (byte_of_Z v) = v mod 256.
Proof.
  unfold Z_of_byte, byte_of_Z.
  pose proof (Z.mod_pos_bound v 256 ltac:(lia)) as Hv.
  destruct (Strings.Byte.of_N (Z.to_N (v mod 256))) as [b|] eqn:E.
  - apply Strings.Byte.to_of_N in E. rewrite E. lia.
  - apply Strings.Byte.of_N_None_iff in E. lia.
Qed.

Lemma Z_of_byte_range (b : Byte.byte) : 0 <= Z_of_byte b < 256.
Proof.
  unfold Z_of_byte. pose proof (Strings.Byte.to_N_bounded b). lia.
Qed.

Lemma load8_range (m : mem) (i : Z) : 0 <= load8 m i < 2 ^ 8.
Proof. apply Z_of_byte_range. Qed.

Lemma load8_store8_same (m : mem) (i v : Z) : load8 (store8 m i v) i = u8 v.
Proof.
  unfold load8, store8, upd. rewrite Z.eqb_refl. apply Z_of_byte_of_Z.
Qed.

Lemma load8_store8_other (m : mem) (i j v : Z) :
  j <> i -> load8 (store8 m i v) j = load8 m j.
Proof.
  intros Hne. unfold load8, store8, upd.
  destruct (Z.eqb_spec j i); [contradiction | reflexivity].
Qed.

Lemma load8_store32_other (m : mem) (i j v : Z) :
  j < i \/ i + 4 <= j -> load8 (store32 m i v) j = load8 m j.
Proof.
  intros Hj. unfold store32.
  rewrite !load8_store8_other by lia. reflexivity.
Qed.

Lemma load32_store32_other (m : mem) (i j v : Z) :
  j + 4 <= i \/ i + 4 <= j -> load32 (store32 m i v) j = load32 m j.
Proof.
  intros Hj. unfold load32.
  rewrite !load8_store32_other by lia. reflexivity.
Qed.

Lemma load32_store32_same (m : mem) (i v : Z) :
  load32 (store32 m i v) i = u32 v.
Proof.
  unfold load32, store32.
  rewrite (load8_store8_same _ (i + 3)).
  rewrite (load8_store8_other _ (i + 3) (i + 2)) by lia.
  rewrite (load8_store8_same _ (i + 2)).
  rewrite !(load8_store8_other _ _ (i + 1)) by lia.
  rewrite (load8_store8_same _ (i + 1)).
  rewrite !(load8_store8_other _ _ i) by lia.
  rewrite (load8_store8_same _ i).
  bitwise n Hn.
Qed.

Lemma load32_range (m : mem) (i : Z) : 0 <= load32 m i < 2 ^ 32.
Proof.
  unfold load32.
  pose proof (load8_range m i). pose proof (load8_range m (i + 1)).
  pose proof (load8_range m (i + 2)). pose proof (load8_range m (i + 3)).
  split.
  - repeat (apply Z.lor_nonneg; split); try apply Z.shiftl_nonneg; lia.
  - apply small_of_testbit; [| lia |].
    + repeat (apply Z.lor_nonneg; split); try apply Z.shiftl_nonneg; lia.
    + intros n Hn. bit_rw.
      rewrite (testbit_small (load8 m i) 8), (testbit_small (load8 m (i + 1)) 8),
        (testbit_small (load8 m (i + 2)) 8), (testbit_small (load8 m (i + 3)) 8)
        by (assumption || lia).
      now rewrite !Bool.andb_false_r.
Qed.

Lemma load32_byte (m : mem) (i k : Z) :
  0 <= k < 4 -> byte_of_word (load32 m i) k = load8 m (i + k).
Proof.
  intros Hk. unfold byte_of_word, load32.
  pose proof (load8_range m i) as H0.
  pose proof (load8_range m (i + 1)) as H1.
  pose proof (load8_range m (i + 2)) as H2.
  pose proof (load8_range m (i + 3)) as H3.
  set (b0 := load8 m i) in *. set (b1 := load8 m (i + 1)) in *.
  set (b2 := load8 m (i + 2)) in *. set (b3 := load8 m (i + 3)) in *.
  assert (E : load8 m (i + k) = u8 (load8 m (i + k))).
  { symmetry. apply Z.mod_small. apply load8_range. }
  rewrite E. clear E.
  assert (E0 : b0 = u8 b0) by (symmetry; now apply Z.mod_small).
  assert (E1 : b1 = u8 b1) by (symmetry; now apply Z.mod_small).
  assert (E2 : b2 = u8 b2) by (symmetry; now apply Z.mod_small).
  assert (E3 : b3 = u8 b3) by (symmetry; now apply Z.mod_small).
  rewrite E0, E1, E2, E3. clear E0 E1 E2 E3.
  change 0xff with (Z.ones 8).
  assert (Hc : k = 0 \/ k = 1 \/ k = 2 \/ k = 3) by lia.
  destruct Hc as [-> | [-> | [-> | ->]]];
    [rewrite Z.add_0_r; fold b0 | fold b1 | fold b2 | fold b3];
    bitwise n Hn.
Qed.

(** ** Marking and testing framebuffers *)

Lemma cookie_word : u32 PVR_FB_COOKIE = PVR_FB_COOKIE.
Proof. reflexivity. Qed.

Lemma pvr_test_framebuffer_clean (p : pvr) (addr : Z) :
  pvr_test_framebuffer p addr = 0 <->
  load32 (vram p) (VRAM64 addr) = PVR_FB_COOKIE.
Proof.
  unfold pvr_test_framebuffer. cbv zeta.
  destruct (Z.eqb_spec (load32 (vram p) (VRAM64 addr)) PVR_FB_COOKIE);
    simpl; split; intros; (assumption || reflexivity || discriminate
                           || contradiction).
Qed.

Lemma pvr_test_framebuffer_dirty (p : pvr) (addr : Z) :
  pvr_test_framebuffer p addr = 1 <->
  load32 (vram p) (VRAM64 addr) <> PVR_FB_COOKIE.
Proof.
  unfold pvr_test_framebuffer. cbv zeta.
  destruct (Z.eqb_spec (load32 (vram p) (VRAM64 addr)) PVR_FB_COOKIE);
    simpl; split; intros; (assumption || reflexivity || discriminate
                           || contradiction).
Qed.

(** Two translated addresses with the same byte-in-word bits are the same
    or at least one word apart. *)
Lemma VRAM64_same_or_apart (a off : Z) :
  off mod 4 = 0 ->
  let i := VRAM64 a in
  let j := VRAM64 (u32 (a + off)) in
  j = i \/ j + 4 <= i \/ i + 4 <= j.
Proof.
  intros Hoff i j.
  assert (Hm : j mod 4 = i mod 4).
  { unfold i, j. rewrite !VRAM64_mod4. unfold u32.
    change (2 ^ 32) with (4 * 2 ^ 30).
    rewrite Z.rem_mul_r by lia.
    rewrite Z.mul_comm, Z.mod_add by lia.
    rewrite Z.mod_mod by lia.
    rewrite Z.add_mod by lia. rewrite Hoff, Z.add_0_r.
    apply Z.mod_mod. lia. }
  pose proof (Z.div_mod i 4 ltac:(lia)).
  pose proof (Z.div_mod j 4 ltac:(lia)).
  lia.
Qed.

Lemma cookie_survives (m : mem) (a off : Z) :
  off mod 4 = 0 ->
  load32 m (VRAM64 a) = PVR_FB_COOKIE ->
  load32 (store32 m (VRAM64 (u32 (a + off))) PVR_FB_COOKIE) (VRAM64 a)
  = PVR_FB_COOKIE.
Proof.
  intros Hoff Hm.
  destruct (VRAM64_same_or_apart a off Hoff) as [E | Hapart].
  - rewrite E. rewrite load32_store32_same. apply cookie_word.
  - rewrite load32_store32_other by lia. exact Hm.
Qed.

Lemma pvr_mark_framebuffer_word (p : pvr) (addr : Z) :
  Z.land addr 0x01000000 = 0 ->
  load32 (vram (pvr_mark_framebuffer p addr)) (VRAM64 addr) = PVR_FB_COOKIE.
Proof.
  intros Htex. unfold pvr_mark_framebuffer. rewrite Htex.
  cbn [nonzero Z.eqb negb vram set_vram].
  unfold line_width, line_bpp, line_scale. cbn [fold_left].
  repeat (apply cookie_survives; [reflexivity |]).
  rewrite load32_store32_same. apply cookie_word.
Qed.

(** A framebuffer inside the texture mirror is left alone. *)
Lemma pvr_mark_framebuffer_texture (p : pvr) (addr : Z) :
  Z.land addr 0x01000000 <> 0 -> pvr_mark_framebuffer p addr = p.
Proof.
  intros Htex. unfold pvr_mark_framebuffer, nonzero.
  destruct (Z.eqb_spec (Z.land addr 0x01000000) 0); [contradiction|].
  reflexivity.
Qed.

(** C9, for a write that is told apart by its value: after marking a
    framebuffer at [addr] outside the texture region the dirty test at
    [addr] reports clean; the test reports clean exactly when the 32-bit
    word at [VRAM64 addr] is the cookie; after a later 32-bit store of
    [v] at [VRAM64 addr] it reports dirty exactly when [v] is not the
    cookie, and after a later store of a byte other than the cookie's
    into one of the four bytes it reports dirty. *)
Theorem mark_then_test (p : pvr) (addr : Z)
        (Htex : Z.land addr 0x01000000 = 0) :
  pvr_test_framebuffer (pvr_mark_framebuffer p addr) addr = 0
  /\ (forall q a,
        pvr_test_framebuffer q a = 0 <->
        load32 (vram q) (VRAM64 a) = PVR_FB_COOKIE)
  /\ (forall v,
        let marked := pvr_mark_framebuffer p addr in
        let written := set_vram (store32 (vram marked) (VRAM64 addr) v) marked in
        (u32 v <> PVR_FB_COOKIE -> pvr_test_framebuffer written addr = 1)
        /\ (u32 v = PVR_FB_COOKIE -> pvr_test_framebuffer written addr = 0))
  /\ (forall k v,
        let marked := pvr_mark_framebuffer p addr in
        let written :=
          set_vram (store8 (vram marked) (VRAM64 addr + k) v) marked in
        0 <= k < 4 -> u8 v <> byte_of_word PVR_FB_COOKIE k ->
        pvr_test_framebuffer written addr = 1).
Proof.
  split; [| split; [| split]].
  - apply pvr_test_framebuffer_clean. now apply pvr_mark_framebuffer_word.
  - intros q a. apply pvr_test_framebuffer_clean.
  - intros v marked written. split; intros Hv.
    + apply pvr_test_framebuffer_dirty. unfold written.
      cbn [vram set_vram]. rewrite load32_store32_same. exact Hv.
    + apply pvr_test_framebuffer_clean. unfold written.
      cbn [vram set_vram]. rewrite load32_store32_same. exact Hv.
  - intros k v marked written Hk Hv.
    apply pvr_test_framebuffer_dirty. unfold written. cbn [vram set_vram].
    intros Heq. apply Hv.
    rewrite <- Heq, load32_byte by exact Hk.
    now rewrite load8_store8_same.
Qed.

Lemma mark_then_test_witness :
  Z.land 0x00200000 0x01000000 = 0
  /\ pvr_test_framebuffer (pvr_mark_framebuffer pvr_zero 0x00200000) 0x00200000
     = 0.
Proof.
  split; [reflexivity |].
  exact (proj1 (mark_then_test pvr_zero 0x00200000 eq_refl)).
Defined.

(** C9 does not hold for every write: a write of the cookie over the
    marked word is a write to the bytes at [VRAM64 addr], and the test
    still says clean. *)
Lemma write_of_cookie_stays_clean :
  let marked := pvr_mark_framebuffer pvr_zero 0 in
  let written :=
    set_vram (store32 (vram marked) (VRAM64 0) 0xdeadbeef) marked in
  Z.land 0 0x01000000 = 0
  /\ pvr_test_framebuffer written 0 <> 1.
Proof.
  split; [reflexivity |]. vm_compute. discriminate.
Qed.

(** ** Address translation *)

(** C1: on linear addresses below 8MB the translation has [VRAM32] as a
    left inverse, bank bit and all offset bits included, and so it is
    injective there. *)
Theorem VRAM64_round_trip (a : Z) (Ha : 0 <= a < 0x00800000) :
  VRAM32 (VRAM64 a) = a
  /\ Z.testbit (VRAM64 a) 2 = Z.testbit a 22
  /\ VRAM64 a mod 4 = a mod 4
  /\ (forall b, 0 <= b < 0x00800000 -> VRAM64 a = VRAM64 b -> a = b).
Proof.
  split; [| split; [| split]].
  - now apply VRAM32_VRAM64.
  - unfold VRAM64. cbv zeta. vram_consts. bit_rw. cmp_cases; bit_close.
  - apply VRAM64_mod4.
  - intros b Hb Heq.
    rewrite <- (VRAM32_VRAM64 a Ha), <- (VRAM32_VRAM64 b Hb).
    now rewrite Heq.
Qed.

Lemma VRAM64_round_trip_witness :
  0 <= 0x00654321 < 0x00800000 /\ VRAM32 (VRAM64 0x00654321) = 0x00654321.
Proof.
  split; [lia |].
  exact (proj1 (VRAM64_round_trip 0x00654321 ltac:(lia))).
Defined.

(** C10: whatever the argument, the translated address is below 8MB and
    depends on bits 0..22 only, so the index the 32-bit access path hands
    to the memory macros lies inside the 8MB buffer, as does the aligned
    word around it. *)
Theorem vram32_index_in_range
        (READ_DATA : mem -> Z -> Z -> Z)
        (WRITE_DATA : mem -> Z -> Z -> Z -> mem)
        (p : pvr) (addr data mask : Z) :
  let i := VRAM64 addr in
  0 <= i < VRAM_SIZE
  /\ i = VRAM64 (Z.land addr 0x007fffff)
  /\ (forall n, 23 <= n -> Z.testbit i n = false)
  /\ 0 <= i - i mod 4 /\ i - i mod 4 + 4 <= VRAM_SIZE
  /\ pvr_vram32_read READ_DATA p addr mask = READ_DATA (vram p) i mask
  /\ pvr_vram32_write WRITE_DATA p addr data mask
     = set_vram (WRITE_DATA (vram p) i data mask) p.
Proof.
  intros i.
  pose proof (VRAM64_nonneg addr) as H0. pose proof (VRAM64_lt addr) as H1.
  fold i in H0, H1. unfold VRAM_SIZE in *.
  pose proof (Z.mod_pos_bound i 4 ltac:(lia)) as Hm.
  pose proof (Z.div_mod i 4 ltac:(lia)) as Hd.
  repeat split; try lia.
  - apply VRAM64_low_bits.
  - intros n Hn. now apply VRAM64_bits_high.
Qed.

(** ** Pixel formats *)

Lemma load16_range (m : mem) (i : Z) : 0 <= load16 m i < 2 ^ 16.
Proof.
  unfold load16.
  pose proof (load8_range m i). pose proof (load8_range m (i + 1)).
  assert (0 <= Z.lor (load8 m i) (Z.shiftl (load8 m (i + 1)) 8)).
  { apply Z.lor_nonneg; split; [| apply Z.shiftl_nonneg]; lia. }
  split; [assumption |].
  apply small_of_testbit; [assumption | lia |].
  intros n Hn. bit_rw.
  rewrite (testbit_small (load8 m i) 8), (testbit_small (load8 m (i + 1)) 8)
    by (assumption || lia).
  now rewrite !Bool.andb_false_r.
Qed.

Lemma texel_555_spec (src : mem) (a : Z) :
  texel_555 src a = spec_555 (load16 src a).
Proof.
  unfold texel_555, pixel_555, spec_555, widen, channel.
  change 0x7c00 with (Z.shiftl (Z.ones 5) 10).
  change 0x03e0 with (Z.shiftl (Z.ones 5) 5).
  change 0x001f with (Z.ones 5).
  repeat f_equal; bitwise n Hn.
Qed.

Lemma texel_565_spec (src : mem) (a : Z) :
  texel_565 src a = spec_565 (load16 src a).
Proof.
  unfold texel_565, pixel_565, spec_565, widen, channel.
  change 0xf800 with (Z.shiftl (Z.ones 5) 11).
  change 0x07e0 with (Z.shiftl (Z.ones 6) 5).
  change 0x001f with (Z.ones 5).
  repeat f_equal; bitwise n Hn.
Qed.

Lemma widen_channel (rgb lo len : Z) :
  0 <= lo -> 0 <= len <= 8 ->
  let c := widen (channel rgb lo len) len in
  0 <= c < 2 ^ 8 /\ c mod 2 ^ (8 - len) = 0.
Proof.
  intros Hlo Hlen c. unfold c, widen, channel.
  assert (Hnn : 0 <= Z.shiftl (Z.land (Z.shiftr rgb lo) (Z.ones len)) (8 - len)).
  { apply Z.shiftl_nonneg, Z.land_nonneg. right.
    rewrite Z.ones_equiv. pose proof (Z.pow_pos_nonneg 2 len). lia. }
  split; [split; [exact Hnn |] |].
  - apply small_of_testbit; [exact Hnn | lia |].
    intros n Hn. bit_rw. cmp_cases; bit_close.
  - apply Z.bits_inj'. intros n Hn. rewrite Z.bits_0.
    bit_rw. cmp_cases; bit_close.
Qed.

(** More fuel than [for_range] hands out changes nothing: the loop
    stops on its own test. *)
Lemma for_loop_fuel {S : Type} (body : Z -> S -> S) (bound step : Z) :
  1 <= step -> bound + step <= 2 ^ 31 ->
  forall (f1 f2 : nat) (i : Z) (s : S),
    0 <= i ->
    (Z.to_nat (bound - i) <= f1)%nat -> (Z.to_nat (bound - i) <= f2)%nat ->
    for_loop f1 i bound step body s = for_loop f2 i bound step body s.
Proof.
  intros Hstep Hmax. induction f1 as [| f1 IH]; intros f2 i s Hi H1 H2.
  - destruct f2 as [| f2]; [reflexivity |]. cbn [for_loop].
    destruct (Z.ltb_spec i bound); [lia | reflexivity].
  - destruct f2 as [| f2]; cbn [for_loop].
    + destruct (Z.ltb_spec i bound); [lia | reflexivity].
    + destruct (Z.ltb_spec i bound); [| reflexivity].
      rewrite int32_small by lia.
      apply IH; lia.
Qed.

Lemma for_range_fuel {S : Type} (body : Z -> S -> S) (bound step : Z)
      (extra : nat) (s : S) :
  1 <= step -> bound + step <= 2 ^ 31 ->
  for_range bound step body s
  = for_loop (Z.to_nat bound + extra) 0 bound step body s.
Proof.
  intros Hstep Hmax. unfold for_range.
  apply for_loop_fuel; try assumption; lia.
Qed.

Example extract_565 :
  extracted dc_layout (fb_device 1 0 [0x00; 0xf8; 0xe0; 0x07]) 6
  = Some (1, [dc_push_pixels 2 1], [0xf8; 0x00; 0x00; 0x00; 0xfc; 0x00]).
Proof. vm_compute. reflexivity. Qed.

Example extract_555 :
  extracted dc_layout (fb_device 0 0 [0x00; 0x7c; 0xe0; 0x03]) 6
  = Some (1, [dc_push_pixels 2 1], [0xf8; 0x00; 0x00; 0x00; 0xf8; 0x00]).
Proof. vm_compute. reflexivity. Qed.

Example extract_888 :
  extracted dc_layout (fb_device 2 0 [0x11; 0x22; 0x33; 0x44; 0x55; 0x66]) 6
  = Some (1, [dc_push_pixels 1 1], [0x33; 0x22; 0x11; 0x66; 0x55; 0x44]).
Proof. vm_compute. reflexivity. Qed.

Example extract_0888 :
  extracted dc_layout
            (fb_device 3 1 [0x11; 0x22; 0x33; 0xff; 0; 0; 0; 0;
                            0x44; 0x55; 0x66; 0xff]) 6
  = Some (1, [dc_push_pixels 2 1], [0x33; 0x22; 0x11; 0x66; 0x55; 0x44]).
Proof. vm_compute. reflexivity. Qed.

(** C6: the two 16-bit formats cut the pixel into its 5-5-5 or 5-6-5
    channels and shift each into the top of a byte, low bits zero; the
    two byte formats store source bytes 2, 1, 0 in that order and never
    look at byte 3; the 5-6-5 pixel 0xF800 becomes (0xF8, 0, 0); and a
    line of two pixels comes out as the expected six bytes at each of the
    four depths. *)
Theorem pixel_conversion :
  (forall src a, texel_555 src a = spec_555 (load16 src a))
  /\ (forall src a, texel_565 src a = spec_565 (load16 src a))
  /\ (forall src a,
        let '(r, g, b) := texel_555 src a in
        (0 <= r < 256 /\ r mod 8 = 0) /\ (0 <= g < 256 /\ g mod 8 = 0)
        /\ (0 <= b < 256 /\ b mod 8 = 0))
  /\ (forall src a,
        let '(r, g, b) := texel_565 src a in
        (0 <= r < 256 /\ r mod 8 = 0) /\ (0 <= g < 256 /\ g mod 4 = 0)
        /\ (0 <= b < 256 /\ b mod 8 = 0))
  /\ texel_565 (mem_of_list [0x00; 0xf8]) 0 = (0xf8, 0x00, 0x00)
  /\ (forall src a,
        texel_888 src a = (load8 src (a + 2), load8 src (a + 1), load8 src a))
  /\ (forall src a v,
        texel_0888 src a = (load8 src (a + 2), load8 src (a + 1), load8 src a)
        /\ texel_0888 (store8 src (a + 3) v) a = texel_0888 src a)
  /\ extracted dc_layout (fb_device 0 0 [0x00; 0x7c; 0xe0; 0x03]) 6
     = Some (1, [dc_push_pixels 2 1], [0xf8; 0x00; 0x00; 0x00; 0xf8; 0x00])
  /\ extracted dc_layout (fb_device 1 0 [0x00; 0xf8; 0xe0; 0x07]) 6
     = Some (1, [dc_push_pixels 2 1], [0xf8; 0x00; 0x00; 0x00; 0xfc; 0x00])
  /\ extracted dc_layout (fb_device 2 0 [0x11; 0x22; 0x33; 0x44; 0x55; 0x66]) 6
     = Some (1, [dc_push_pixels 1 1], [0x33; 0x22; 0x11; 0x66; 0x55; 0x44])
  /\ extracted dc_layout
               (fb_device 3 1 [0x11; 0x22; 0x33; 0xff; 0; 0; 0; 0;
                               0x44; 0x55; 0x66; 0xff]) 6
     = Some (1, [dc_push_pixels 2 1], [0x33; 0x22; 0x11; 0x66; 0x55; 0x44]).
Proof.
  split; [exact texel_555_spec |].
  split; [exact texel_565_spec |].
  split.
  { intros src a. rewrite texel_555_spec. unfold spec_555.
    pose proof (widen_channel (load16 src a) 10 5 ltac:(lia) ltac:(lia)).
    pose proof (widen_channel (load16 src a) 5 5 ltac:(lia) ltac:(lia)).
    pose proof (widen_channel (load16 src a) 0 5 ltac:(lia) ltac:(lia)).
    cbv zeta in *. change (2 ^ 8) with 256 in *.
    change (2 ^ (8 - 5)) with 8 in *. tauto. }
  split.
  { intros src a. rewrite texel_565_spec. unfold spec_565.
    pose proof (widen_channel (load16 src a) 11 5 ltac:(lia) ltac:(lia)).
    pose proof (widen_channel (load16 src a) 5 6 ltac:(lia) ltac:(lia)).
    pose proof (widen_channel (load16 src a) 0 5 ltac:(lia) ltac:(lia)).
    cbv zeta in *. change (2 ^ 8) with 256 in *.
    change (2 ^ (8 - 5)) with 8 in *. change (2 ^ (8 - 6)) with 4 in *.
    tauto. }
  split; [vm_compute; reflexivity |].
  split; [reflexivity |].
  split.
  { intros src a v. split; [reflexivity |]. unfold texel_0888.
    rewrite !load8_store8_other by lia. reflexivity. }
  split; [exact extract_555 |].
  split; [exact extract_565 |].
  split; [exact extract_888 | exact extract_0888].
Qed.

(** ** Register layouts *)

Lemma reg_name_eqb_eq (a b : reg_name) : reg_name_eqb a b = true <-> a = b.
Proof.
  split.
  - destruct a, b; simpl; intros H; (reflexivity || discriminate H).
  - intros ->. destruct b; reflexivity.
Qed.

Lemma in_all_regs (r : reg_name) : In r all_regs.
Proof. destruct r; simpl; tauto. Qed.

Lemma in_all_fields (f : field_name) : In f all_fields.
Proof. destruct f; simpl; tauto. Qed.

Lemma pairwise_in {A : Type} (ok : A -> A -> bool) (l : list A) (x y : A) :
  pairwise ok l = true -> In x l -> In y l -> x <> y ->
  ok x y = true \/ ok y x = true.
Proof.
  induction l as [| z t IH]; simpl; [tauto |].
  intros Hp Hx Hy Hne. apply andb_true_iff in Hp. destruct Hp as [Hz Ht].
  rewrite forallb_forall in Hz.
  destruct Hx as [-> | Hx], Hy as [-> | Hy].
  - contradiction.
  - left. now apply Hz.
  - right. now apply Hz.
  - now apply IH.
Qed.

Section LayoutFacts.

Variable L : layout.
Hypothesis Hok : layout_ok L = true.

Lemma layout_ok_parts :
  pairwise (fun r s => negb (reg_index L r =? reg_index L s)) all_regs = true
  /\ forallb (fun f => (0 <=? field_lo L f) && (1 <=? field_len L f)
                       && (field_len L f <=? 16)
                       && (field_lo L f + field_len L f <=? 32)) all_fields
     = true
  /\ pairwise (fun f g => negb (fields_overlap L f g)) all_fields = true.
Proof.
  unfold layout_ok in Hok.
  repeat (apply andb_true_iff in Hok; destruct Hok as [Hok ?]).
  tauto.
Qed.

Lemma reg_index_inj (r s : reg_name) :
  reg_index L r = reg_index L s -> r = s.
Proof.
  intros Heq.
  assert (Hdec : {r = s} + {r <> s}) by decide equality.
  destruct Hdec as [| Hne]; [assumption | exfalso].
  destruct layout_ok_parts as [Hp _].
  destruct (pairwise_in _ _ r s Hp (in_all_regs r) (in_all_regs s) Hne) as [H | H];
    apply negb_true_iff, Z.eqb_neq in H; congruence.
Qed.

Lemma field_shape (f : field_name) :
  0 <= field_lo L f /\ 1 <= field_len L f <= 16
  /\ field_lo L f + field_len L f <= 32.
Proof.
  destruct layout_ok_parts as (_ & Hf & _).
  rewrite forallb_forall in Hf. specialize (Hf f (in_all_fields f)).
  repeat (apply andb_true_iff in Hf; destruct Hf as [Hf ?]).
  lia.
Qed.

Lemma fields_apart (f g : field_name) :
  f <> g -> field_reg f = field_reg g ->
  field_lo L g + field_len L g <= field_lo L f
  \/ field_lo L f + field_len L f <= field_lo L g.
Proof.
  intros Hne Hreg.
  destruct layout_ok_parts as (_ & _ & Hp).
  assert (Hr : reg_name_eqb (field_reg f) (field_reg g) = true)
    by now apply reg_name_eqb_eq.
  assert (Hr' : reg_name_eqb (field_reg g) (field_reg f) = true)
    by now apply reg_name_eqb_eq.
  destruct (pairwise_in _ _ f g Hp (in_all_fields f) (in_all_fields g) Hne)
    as [H | H];
    apply negb_true_iff in H; unfold fields_overlap in H;
    rewrite ?Hr, ?Hr' in H; simpl in H;
    apply andb_false_iff in H; destruct H as [H | H];
    apply Z.ltb_ge in H; lia.
Qed.

Lemma field_range (p : pvr) (f : field_name) :
  0 <= field L p f < 2 ^ field_len L f.
Proof.
  destruct (field_shape f) as (Hlo & Hlen & _).
  unfold field. rewrite Z.land_ones by lia.
  apply Z.mod_pos_bound. apply Z.pow_pos_nonneg; lia.
Qed.

Lemma field_range16 (p : pvr) (f : field_name) : 0 <= field L p f < 2 ^ 16.
Proof.
  destruct (field_shape f) as (Hlo & Hlen & _).
  pose proof (field_range p f) as Hr.
  pose proof (Z.pow_le_mono_r 2 (field_len L f) 16 ltac:(lia) ltac:(lia)).
  lia.
Qed.

Lemma field_ext (p q : pvr) (f : field_name) :
  reg q (reg_index L (field_reg f)) = reg p (reg_index L (field_reg f)) ->
  field L q f = field L p f.
Proof. intros H. unfold field. now rewrite H. Qed.

Lemma field_set_same (p : pvr) (f : field_name) (v : Z) :
  field L (set_field L f v p) f = v mod 2 ^ field_len L f.
Proof.
  destruct (field_shape f) as (Hlo & Hlen & _).
  unfold field, set_field. cbv zeta. cbn [reg set_reg]. unfold upd.
  rewrite Z.eqb_refl.
  bitwise n Hn.
Qed.

Lemma field_set_bit (p : pvr) (f : field_name) (b : bool) :
  field L (set_field L f (b2i b) p) f = b2i b.
Proof.
  destruct (field_shape f) as (Hlo & Hlen & _).
  rewrite field_set_same. apply Z.mod_small.
  pose proof (Z.pow_le_mono_r 2 1 (field_len L f) ltac:(lia) ltac:(lia)).
  destruct b; simpl; lia.
Qed.

Lemma field_set_other (p : pvr) (f g : field_name) (v : Z) :
  f <> g -> field L (set_field L f v p) g = field L p g.
Proof.
  intros Hne.
  destruct (field_shape f) as (Hlof & Hlenf & _).
  destruct (field_shape g) as (Hlog & Hleng & _).
  unfold field, set_field. cbv zeta. cbn [reg set_reg]. unfold upd.
  destruct (Z.eqb_spec (reg_index L (field_reg g)) (reg_index L (field_reg f)))
    as [Heq | Hidx]; [| reflexivity].
  apply reg_index_inj in Heq. symmetry in Heq.
  pose proof (fields_apart f g Hne Heq) as Hap.
  rewrite <- Heq.
  bitwise n Hn.
Qed.

(** A field write touches the word of its own register only. *)
Lemma reg_set_field_other (p : pvr) (f : field_name) (v i : Z) :
  i <> reg_index L (field_reg f) -> reg (set_field L f v p) i = reg p i.
Proof.
  intros Hi. unfold set_field. cbv zeta. cbn [reg set_reg]. unfold upd.
  destruct (Z.eqb_spec i (reg_index L (field_reg f))); [contradiction |].
  reflexivity.
Qed.

End LayoutFacts.

Lemma dc_layout_ok : layout_ok dc_layout = true.
Proof. vm_compute. reflexivity. Qed.

(** ** Video size *)

Section VideoSize.

Variable L : layout.
Hypothesis Hok : layout_ok L = true.

Lemma pvr_framebuffer_size_bounds (p : pvr) :
  1 <= fst (pvr_framebuffer_size L p) <= 2 ^ 17
  /\ 1 <= snd (pvr_framebuffer_size L p) <= 2 ^ 17.
Proof.
  pose proof (field_range16 L Hok p FB_R_SIZE_x) as Hx.
  pose proof (field_range16 L Hok p FB_R_SIZE_y) as Hy.
  change (2 ^ 16) with 65536 in *. change (2 ^ 17) with 131072.
  unfold pvr_framebuffer_size. cbv zeta. cbn [fst snd].
  rewrite (int32_small (field L p FB_R_SIZE_x + 1)) by lia.
  rewrite (int32_small (field L p FB_R_SIZE_y + 1)) by lia.
  split.
  - destruct ((field L p FB_R_CTRL_fb_depth =? 0)
              || (field L p FB_R_CTRL_fb_depth =? 1)).
    + rewrite int32_small by lia. lia.
    + destruct (field L p FB_R_CTRL_fb_depth =? 2); [| lia].
      rewrite (int32_small ((field L p FB_R_SIZE_x + 1) * 4)) by lia.
      assert (Hq : 1 <= Z.quot ((field L p FB_R_SIZE_x + 1) * 4) 3 <= 131072).
      { rewrite Z.quot_div_nonneg by lia.
        split; [apply Z.div_le_lower_bound | apply Z.div_le_upper_bound]; lia. }
      rewrite int32_small by lia. exact Hq.
  - destruct (nonzero (field L p SPG_CONTROL_interlace)).
    + rewrite int32_small by lia. lia.
    + lia.
Qed.

Lemma pvr_video_size_width (p : pvr) :
  fst (pvr_video_size L p)
  = if nonzero (field L p SCALER_CTL_scale_x)
    then 2 * fst (pvr_framebuffer_size L p)
    else fst (pvr_framebuffer_size L p).
Proof.
  pose proof (pvr_framebuffer_size_bounds p) as [Hw _].
  change (2 ^ 17) with 131072 in Hw.
  unfold pvr_video_size.
  destruct (pvr_framebuffer_size L p) as [w h]. cbn [fst snd] in *.
  destruct (nonzero (field L p SCALER_CTL_scale_x)); [| reflexivity].
  rewrite int32_small by lia. lia.
Qed.

Lemma pvr_video_size_height (p : pvr) (k : Z) :
  0 <= k <= 2 ->
  field L p SCALER_CTL_interlace = 0 ->
  field L p SCALER_CTL_scale_y = 0x400 * k ->
  snd (pvr_video_size L p) = k * snd (pvr_framebuffer_size L p).
Proof.
  intros Hk Hil Hsy.
  pose proof (pvr_framebuffer_size_bounds p) as [_ Hh].
  change (2 ^ 17) with 131072 in Hh.
  unfold pvr_video_size.
  destruct (pvr_framebuffer_size L p) as [w h]. cbn [fst snd] in *.
  rewrite Hil, Hsy. cbn [nonzero Z.eqb negb].
  assert (Hkh : 0 <= k * h <= 2 * 131072) by nia.
  replace (h * (0x400 * k)) with (k * h * 2 ^ 10) by lia.
  rewrite (int32_small (k * h * 2 ^ 10)) by lia.
  rewrite Z.shiftr_div_pow2 by lia.
  rewrite Z.div_mul by lia.
  apply int32_small. lia.
Qed.

Lemma pvr_video_size_height_halved (p : pvr) (k : Z) :
  0 <= k <= 2 ->
  field L p SCALER_CTL_interlace <> 0 ->
  field L p SCALER_CTL_scale_y = 0x400 * k ->
  snd (pvr_video_size L p) = k * snd (pvr_framebuffer_size L p) / 2.
Proof.
  intros Hk Hil Hsy.
  pose proof (pvr_framebuffer_size_bounds p) as [_ Hh].
  change (2 ^ 17) with 131072 in Hh.
  unfold pvr_video_size.
  destruct (pvr_framebuffer_size L p) as [w h]. cbn [fst snd] in *.
  rewrite Hsy. unfold nonzero.
  destruct (Z.eqb_spec (field L p SCALER_CTL_interlace) 0); [contradiction |].
  cbn [negb].
  assert (Hkh : 0 <= k * h <= 2 * 131072) by nia.
  replace (h * (0x400 * k)) with (k * h * 2 ^ 10) by lia.
  rewrite (int32_small (k * h * 2 ^ 10)) by lia.
  rewrite Z.shiftr_div_pow2 by lia.
  rewrite Z.div_mul by lia.
  rewrite (int32_small (k * h)) by lia.
  apply Z.quot_div_nonneg; lia.
Qed.

End VideoSize.

(** C5, with the height doubled at [0x800]: with the flicker-free
    interlace flag of the scaler clear, unity scale [0x400] returns the
    framebuffer height, and the whole framebuffer size when [scale_x] is
    clear too, and [0x800] returns twice the framebuffer height; with
    that flag set [0x800] returns the framebuffer height itself.  In
    every mode the width is the framebuffer width, doubled when
    [scale_x] is set.  The query leaves the device as it was and makes
    no call, and its result is a function of the registers alone. *)
Theorem video_size_scaling (L : layout) (p : pvr)
        (Hok : layout_ok L = true) :
  (field L p SCALER_CTL_interlace = 0 ->
   field L p SCALER_CTL_scale_x = 0 ->
   field L p SCALER_CTL_scale_y = 0x400 ->
   pvr_video_size L p = pvr_framebuffer_size L p)
  /\ (field L p SCALER_CTL_interlace = 0 ->
      field L p SCALER_CTL_scale_y = 0x400 ->
      snd (pvr_video_size L p) = snd (pvr_framebuffer_size L p))
  /\ (field L p SCALER_CTL_interlace = 0 ->
      field L p SCALER_CTL_scale_y = 0x800 ->
      snd (pvr_video_size L p) = 2 * snd (pvr_framebuffer_size L p))
  /\ (field L p SCALER_CTL_interlace <> 0 ->
      field L p SCALER_CTL_scale_y = 0x800 ->
      snd (pvr_video_size L p) = snd (pvr_framebuffer_size L p))
  /\ (field L p SCALER_CTL_scale_x = 0 ->
      fst (pvr_video_size L p) = fst (pvr_framebuffer_size L p))
  /\ (field L p SCALER_CTL_scale_x <> 0 ->
      fst (pvr_video_size L p) = 2 * fst (pvr_framebuffer_size L p))
  /\ pvr_video_size_run L p = Some (pvr_video_size L p, p, [])
  /\ (forall q, reg q = reg p -> pvr_video_size L q = pvr_video_size L p).
Proof.
  pose proof (pvr_video_size_width L Hok p) as Hw.
  assert (Hx0 : field L p SCALER_CTL_scale_x = 0 ->
                fst (pvr_video_size L p) = fst (pvr_framebuffer_size L p)).
  { intros Hx. rewrite Hw, Hx. reflexivity. }
  assert (Hy1 : field L p SCALER_CTL_interlace = 0 ->
                field L p SCALER_CTL_scale_y = 0x400 ->
                snd (pvr_video_size L p) = snd (pvr_framebuffer_size L p)).
  { intros Hil Hy.
    rewrite (pvr_video_size_height L Hok p 1); [lia | lia | exact Hil |].
    rewrite Hy. reflexivity. }
  split; [| split; [exact Hy1 | split; [| split; [| split; [exact Hx0 |
          split; [| split]]]]]].
  - intros Hil Hx Hy. specialize (Hx0 Hx). specialize (Hy1 Hil Hy).
    destruct (pvr_video_size L p), (pvr_framebuffer_size L p).
    cbn [fst snd] in *. congruence.
  - intros Hil Hy.
    apply (pvr_video_size_height L Hok p 2); [lia | exact Hil |].
    rewrite Hy. reflexivity.
  - intros Hil Hy.
    rewrite (pvr_video_size_height_halved L Hok p 2); [| lia | exact Hil |].
    + rewrite Z.mul_comm. apply Z.div_mul. lia.
    + rewrite Hy. reflexivity.
  - intros Hx. rewrite Hw. unfold nonzero.
    destruct (Z.eqb_spec (field L p SCALER_CTL_scale_x) 0); [contradiction |].
    reflexivity.
  - reflexivity.
  - intros q Hq. unfold pvr_video_size, pvr_framebuffer_size, field.
    rewrite Hq. reflexivity.
Qed.

Lemma video_size_scaling_witness :
  layout_ok dc_layout = true
  /\ field dc_layout (scaler_device 0x800 1) SCALER_CTL_interlace = 0
  /\ pvr_framebuffer_size dc_layout (scaler_device 0x800 1) = (640, 480)
  /\ pvr_video_size dc_layout (scaler_device 0x800 1) = (1280, 960)
  /\ snd (pvr_video_size dc_layout (scaler_device 0x800 1))
     = 2 * snd (pvr_framebuffer_size dc_layout (scaler_device 0x800 1))
  /\ fst (pvr_video_size dc_layout (scaler_device 0x800 1))
     = 2 * fst (pvr_framebuffer_size dc_layout (scaler_device 0x800 1)).
Proof.
  split; [reflexivity |]. split; [reflexivity |].
  split; [reflexivity |]. split; [reflexivity |].
  destruct (video_size_scaling dc_layout (scaler_device 0x800 1) eq_refl)
    as (_ & _ & Hy2 & _ & _ & Hx1 & _).
  split.
  - apply Hy2; reflexivity.
  - apply Hx1. vm_compute. discriminate.
Defined.

(** C5 does not hold with the height halved: with [scale_y = 0x800] the
    height returned is 960 for a framebuffer of 480 lines, not 240. *)
Lemma video_size_0x800_not_halved :
  let p := scaler_device 0x800 0 in
  field dc_layout p SCALER_CTL_scale_y = 0x800
  /\ field dc_layout p SCALER_CTL_interlace = 0
  /\ snd (pvr_framebuffer_size dc_layout p) = 480
  /\ snd (pvr_video_size dc_layout p) = 960
  /\ snd (pvr_video_size dc_layout p)
     <> Z.quot (snd (pvr_framebuffer_size dc_layout p)) 2.
Proof.
  cbv zeta. repeat split; try reflexivity. vm_compute. discriminate.
Qed.

(** ** Register writes *)

Lemma land_bit (x k : Z) :
  0 <= k -> Z.land x (2 ^ k) = if Z.testbit x k then 2 ^ k else 0.
Proof.
  intros Hk. destruct (Z.testbit x k) eqn:E; bitwise n Hn.
  - subst n. exact E.
  - subst n. rewrite Z.bits_0. exact E.
  - now rewrite Z.bits_0.
Qed.

Lemma index_neq (L : layout) (r s : reg_name) :
  layout_ok L = true -> r <> s -> (reg_index L r =? reg_index L s) = false.
Proof.
  intros Hok Hne. apply Z.eqb_neq. intros Heq.
  apply Hne. now apply reg_index_inj with L.
Qed.

(** C8: a write addressed at the identifier register returns at once:
    the device is as before, nothing is called, whatever handler the
    table may hold for that index is not run, and a read gives the value
    the register had. *)
Theorem id_write_ignored (L : layout) (cb : Z -> option (Z -> M unit))
        (p : pvr) (addr data mask : Z)
        (Haddr : Z.shiftr addr 2 = reg_index L ID) :
  pvr_reg_write_via L cb addr data mask p = Some (tt, p, [])
  /\ pvr_reg_write L addr data mask p = Some (tt, p, [])
  /\ (forall mask',
        (pvr_reg_write L addr data mask ;; pvr_reg_read addr mask') p
        = Some (reg p (reg_index L ID), p, [])).
Proof.
  assert (Hvia : forall cb', pvr_reg_write_via L cb' addr data mask p
                             = Some (tt, p, [])).
  { intros cb'. unfold pvr_reg_write_via. cbv zeta.
    rewrite Haddr, Z.eqb_refl. reflexivity. }
  split; [apply Hvia |]. split; [apply Hvia |].
  intros mask'. unfold bind, pvr_reg_write. rewrite Hvia.
  unfold pvr_reg_read, pvr_cb_read, bind, get, ret. cbv zeta.
  rewrite Haddr. reflexivity.
Qed.

Lemma id_write_ignored_witness :
  Z.shiftr 0x00000002 2 = reg_index dc_layout ID
  /\ pvr_reg_write dc_layout 0x00000002 0xffffffff 0xffffffff pvr_zero
     = Some (tt, pvr_zero, []).
Proof.
  split; [reflexivity |].
  exact (proj1 (proj2 (id_write_ignored dc_layout (pvr_cb_write dc_layout)
                         pvr_zero 0x00000002 0xffffffff 0xffffffff eq_refl))).
Defined.

(** C7: a write addressed at TA_LIST_INIT with bit 31 of the value clear
    leaves the device as it is and calls nothing; with bit 31 set it
    leaves the device as it is and makes the one call [ta_list_init]. *)
Theorem list_init_write (L : layout) (p : pvr) (addr data mask : Z)
        (Hok : layout_ok L = true)
        (Haddr : Z.shiftr addr 2 = reg_index L TA_LIST_INIT) :
  (Z.testbit data 31 = false ->
   pvr_reg_write L addr data mask p = Some (tt, p, []))
  /\ (Z.testbit data 31 = true ->
      pvr_reg_write L addr data mask p = Some (tt, p, [ta_list_init])).
Proof.
  assert (Hrun : pvr_reg_write L addr data mask p = TA_LIST_INIT_write data p).
  { unfold pvr_reg_write, pvr_reg_write_via, pvr_cb_write. cbv zeta.
    rewrite Haddr.
    rewrite !(index_neq L TA_LIST_INIT) by (assumption || discriminate).
    rewrite Z.eqb_refl. reflexivity. }
  rewrite Hrun. unfold TA_LIST_INIT_write.
  change 0x80000000 with (2 ^ 31). rewrite land_bit by lia.
  split; intros Hbit; rewrite Hbit; reflexivity.
Qed.

Lemma list_init_write_witness :
  layout_ok dc_layout = true
  /\ Z.shiftr 0x00000144 2 = reg_index dc_layout TA_LIST_INIT
  /\ pvr_reg_write dc_layout 0x00000144 0x80000000 0xffffffff pvr_zero
     = Some (tt, pvr_zero, [ta_list_init])
  /\ pvr_reg_write dc_layout 0x00000144 0x7fffffff 0xffffffff pvr_zero
     = Some (tt, pvr_zero, []).
Proof.
  split; [reflexivity |]. split; [reflexivity |].
  split.
  - apply (list_init_write dc_layout pvr_zero 0x00000144 0x80000000 0xffffffff
             eq_refl eq_refl).
    reflexivity.
  - apply (list_init_write dc_layout pvr_zero 0x00000144 0x7fffffff 0xffffffff
             eq_refl eq_refl).
    reflexivity.
Defined.

(** ** Running computations *)

Lemma bind_inv {A B : Type} (m : M A) (k : A -> M B) (p q : pvr)
      (b : B) (c : list call) :
  bind m k p = Some (b, q, c) ->
  exists a p1 c1 c2,
    m p = Some (a, p1, c1) /\ k a p1 = Some (b, q, c2) /\ c = c1 ++ c2.
Proof.
  unfold bind. destruct (m p) as [[[a p1] c1] |]; [| discriminate].
  destruct (k a p1) as [[[b' p2] c2] |] eqn:Hk; [| discriminate].
  intros H. injection H as <- <- <-.
  exists a, p1, c1, c2. split; [reflexivity |]. split; [exact Hk | reflexivity].
Qed.

Lemma bind_run {A B : Type} (m : M A) (k : A -> M B) (p p1 q : pvr)
      (a : A) (b : B) (c1 c2 : list call) :
  m p = Some (a, p1, c1) -> k a p1 = Some (b, q, c2) ->
  bind m k p = Some (b, q, c1 ++ c2).
Proof. intros Hm Hk. unfold bind. now rewrite Hm, Hk. Qed.

Lemma bind_get {B : Type} (k : pvr -> M B) (p : pvr) : bind get k p = k p p.
Proof. unfold bind, get. now destruct (k p p) as [[[b q] c] |]. Qed.

Lemma bind_modify {B : Type} (f : pvr -> pvr) (k : unit -> M B) (p : pvr) :
  bind (modify f) k p = k tt (f p).
Proof. unfold bind, modify. now destruct (k tt (f p)) as [[[b q] c] |]. Qed.

Lemma bind_ret {A B : Type} (a : A) (k : A -> M B) (p : pvr) :
  bind (ret a) k p = k a p.
Proof. unfold bind, ret. now destruct (k a p) as [[[b q] c] |]. Qed.

Lemma when_emit (b : bool) (e : call) (p : pvr) :
  when b (emit e) p = Some (tt, p, if b then [e] else []).
Proof. now destruct b. Qed.

Lemma count_app (f : call -> bool) (a b : list call) :
  count f (a ++ b) = count f a + count f b.
Proof.
  unfold count. rewrite filter_app, length_app. lia.
Qed.

Lemma count_nil (f : call -> bool) : count f [] = 0.
Proof. reflexivity. Qed.

Lemma count_one (f : call -> bool) (e : call) : count f [e] = b2i (f e).
Proof. unfold count. simpl. now destruct (f e). Qed.

Lemma count_cons (f : call -> bool) (e : call) (l : list call) :
  count f (e :: l) = b2i (f e) + count f l.
Proof. change (e :: l) with ([e] ++ l). now rewrite count_app, count_one. Qed.

Lemma quiet_nil : quiet [].
Proof. split; reflexivity. Qed.

Lemma quiet_app (a b : list call) : quiet a -> quiet b -> quiet (a ++ b).
Proof.
  intros [Ha Ha'] [Hb Hb']. split; rewrite count_app; lia.
Qed.

Lemma quiet_when (b : bool) (e : call) :
  is_vblank_in e = false -> is_vblank_out e = false ->
  quiet (if b then [e] else []).
Proof.
  intros Hi Ho. destruct b; [| apply quiet_nil].
  split; rewrite count_one, ?Hi, ?Ho; reflexivity.
Qed.

(** ** Extraction leaves the timing state alone *)

Section Extraction.

Variable L : layout.

Lemma pvr_update_framebuffer_frame (p q : pvr) (r : Z) (c : list call) :
  pvr_update_framebuffer L p = Some (r, q, c) ->
  reg q = reg p /\ vram q = vram p /\ current_line q = current_line p
  /\ got_startrender q = got_startrender p
  /\ line_clock q = line_clock p /\ line_timer q = line_timer p
  /\ quiet c.
Proof.
  unfold pvr_update_framebuffer. rewrite bind_get.
  destruct (negb (nonzero (field L p FB_R_CTRL_fb_enable))).
  { intros H. injection H as <- <- <-. repeat split. }
  destruct (pvr_test_framebuffer p _ =? 0).
  { intros H. injection H as <- <- <-. repeat split. }
  destruct (pvr_framebuffer_size L p) as [w h].
  rewrite bind_modify. intros H.
  apply bind_inv in H. destruct H as (cur & p1 & c1 & c2 & Hsw & H & ->).
  assert (Hp1 : p1 = set_framebuffer_size w h p /\ c1 = []).
  { repeat match type of Hsw with
           | (if ?b then _ else _) _ = _ => destruct b
           end;
      try discriminate Hsw; injection Hsw as <- <- <-; split; reflexivity. }
  destruct Hp1 as [-> ->].
  rewrite bind_modify in H. unfold bind, emit, ret in H.
  injection H as <- <- <-. cbn [reg vram current_line got_startrender
                                    line_clock line_timer].
  repeat split.
Qed.

Lemma pvr_update_framebuffer_total (p : pvr) :
  0 <= field L p FB_R_CTRL_fb_depth <= 3 ->
  pvr_update_framebuffer L p <> None.
Proof.
  intros Hd. unfold pvr_update_framebuffer. rewrite bind_get.
  destruct (negb (nonzero (field L p FB_R_CTRL_fb_enable))); [discriminate |].
  destruct (pvr_test_framebuffer p _ =? 0); [discriminate |].
  destruct (pvr_framebuffer_size L p) as [w h].
  rewrite bind_modify.
  destruct (Z.eqb_spec (field L p FB_R_CTRL_fb_depth) 0);
    [rewrite bind_ret, bind_modify; discriminate |].
  destruct (Z.eqb_spec (field L p FB_R_CTRL_fb_depth) 1);
    [rewrite bind_ret, bind_modify; discriminate |].
  destruct (Z.eqb_spec (field L p FB_R_CTRL_fb_depth) 2);
    [rewrite bind_ret, bind_modify; discriminate |].
  destruct (Z.eqb_spec (field L p FB_R_CTRL_fb_depth) 3);
    [rewrite bind_ret, bind_modify; discriminate |].
  lia.
Qed.

End Extraction.

(** ** The vsync edges *)

Section Edges.

Variable L : layout.

Lemma emit_inv (e : call) (p q : pvr) (a : unit) (c : list call) :
  emit e p = Some (a, q, c) -> q = p /\ c = [e].
Proof. unfold emit. intros H. injection H as _ <- <-. split; reflexivity. Qed.

Lemma pvr_vblank_out_run (p : pvr) :
  pvr_vblank_out p = Some (tt, p, [dc_vblank_out]).
Proof. reflexivity. Qed.

Lemma pvr_vblank_in_frame (p q : pvr) (a : unit) (c : list call) :
  pvr_vblank_in L p = Some (a, q, c) ->
  (exists v, reg q = reg (set_field L SPG_STATUS_fieldnum v p))
  /\ current_line q = current_line p /\ line_clock q = line_clock p
  /\ count is_vblank_in c = 1 /\ count is_vblank_out c = 0.
Proof.
  unfold pvr_vblank_in. intros H.
  apply bind_inv in H. destruct H as (u0 & p0 & c0 & c0' & He & H & ->).
  apply emit_inv in He. destruct He as [-> ->].
  rewrite bind_get in H.
  apply bind_inv in H. destruct H as (u1 & p1 & c1 & c1' & Hup & H & ->).
  assert (Hp1 : reg p1 = reg p /\ current_line p1 = current_line p
                /\ line_clock p1 = line_clock p /\ quiet c1).
  { destruct (negb (nonzero (got_startrender p))).
    - apply bind_inv in Hup.
      destruct Hup as (r & p2 & c2 & c2' & Hup & Hret & ->).
      apply pvr_update_framebuffer_frame in Hup.
      injection Hret as _ <- <-. rewrite app_nil_r. tauto.
    - injection Hup as _ <- <-. repeat split. }
  destruct Hp1 as (Hreg & Hline & Hclk & Hq1). clear Hup.
  rewrite bind_get in H.
  apply bind_inv in H. destruct H as (u2 & p2 & c2 & c2' & Hflip & H & ->).
  rewrite bind_get in H. apply emit_inv in H. destruct H as [-> ->].
  assert (Hp2 : (exists v, p2 = set_field L SPG_STATUS_fieldnum v p1) /\ c2 = []).
  { destruct (nonzero (field L p1 SPG_CONTROL_interlace));
      injection Hflip as _ <- <-; split; eauto. }
  destruct Hp2 as [[v ->] ->].
  split; [| split; [| split; [| split]]].
  - exists v. unfold set_field. cbv zeta. cbn [reg set_reg]. now rewrite Hreg.
  - exact Hline.
  - exact Hclk.
  - destruct Hq1 as [Hin _].
    rewrite !count_app, Hin, count_nil, !count_one. reflexivity.
  - destruct Hq1 as [_ Hout].
    rewrite !count_app, Hout, count_nil, !count_one. reflexivity.
Qed.

Lemma pvr_vblank_in_total (p : pvr) :
  0 <= field L p FB_R_CTRL_fb_depth <= 3 -> pvr_vblank_in L p <> None.
Proof.
  intros Hd. unfold pvr_vblank_in.
  unfold bind at 1. cbn [emit]. rewrite bind_get.
  assert (Hmid : exists u p1 c1,
             (if negb (nonzero (got_startrender p))
              then _ <- pvr_update_framebuffer L;; ret tt
              else modify (set_got_startrender 0)) p = Some (u, p1, c1)).
  { destruct (negb (nonzero (got_startrender p))).
    - pose proof (pvr_update_framebuffer_total L p Hd) as Hne.
      unfold bind. destruct (pvr_update_framebuffer L p) as [[[r p1] c1] |];
        [| contradiction].
      cbn [ret]. do 3 eexists. reflexivity.
    - cbn [modify]. do 3 eexists. reflexivity. }
  destruct Hmid as (u & p1 & c1 & Hmid).
  unfold bind at 1. rewrite Hmid. rewrite bind_get.
  destruct (nonzero (field L p1 SPG_CONTROL_interlace));
    rewrite bind_modify, bind_get; cbn [emit]; discriminate.
Qed.

End Edges.

(** ** One scanline tick *)

Section Tick.

Variable L : layout.
Hypothesis Hok : layout_ok L = true.

Lemma nonzero_b2i (b : bool) : nonzero (b2i b) = b.
Proof. now destruct b. Qed.

Lemma field_of_reg (p q : pvr) (f : field_name) :
  reg q = reg p -> field L q f = field L p f.
Proof. intros H. unfold field. now rewrite H. Qed.

Lemma pvr_next_scanline_spec (p q : pvr) (a : unit) (c : list call) :
  pvr_next_scanline L p = Some (a, q, c) ->
  current_line q = next_line L p
  /\ (forall i, i <> reg_index L SPG_STATUS -> reg q i = reg p i)
  /\ line_clock q = line_clock p
  /\ field L q SPG_STATUS_vsync = b2i (vsync_at L p (next_line L p))
  /\ count is_vblank_in c
     = b2i (negb (nonzero (field L p SPG_STATUS_vsync))
            && vsync_at L p (next_line L p))
  /\ count is_vblank_out c
     = b2i (nonzero (field L p SPG_STATUS_vsync)
            && negb (vsync_at L p (next_line L p))).
Proof.
  unfold pvr_next_scanline. rewrite bind_get, bind_modify, bind_get.
  fold (next_line L p).
  set (p0 := set_current_line (next_line L p) p).
  assert (Hf0 : forall f, field L p0 f = field L p f) by reflexivity.
  intros H.
  (* the three interrupts *)
  apply bind_inv in H. destruct H as (u1 & p1 & c1 & c1' & Hh & H & ->).
  assert (Hh' : p1 = p0 /\ quiet c1).
  { destruct (field L p0 SPG_HBLANK_INT_hblank_int_mode =? 0).
    - rewrite when_emit in Hh. injection Hh as _ <- <-.
      split; [reflexivity | now apply quiet_when].
    - destruct (field L p0 SPG_HBLANK_INT_hblank_int_mode =? 2).
      + apply emit_inv in Hh. destruct Hh as [-> ->].
        split; [reflexivity |]. now apply (quiet_when true).
      + discriminate Hh. }
  destruct Hh' as [-> Hq1]. clear Hh.
  apply bind_inv in H. destruct H as (u2 & p2 & c2 & c2' & Hw & H & ->).
  rewrite when_emit in Hw. injection Hw as _ <- <-.
  apply bind_inv in H. destruct H as (u3 & p3 & c3 & c3' & Hw & H & ->).
  rewrite when_emit in Hw. injection Hw as _ <- <-.
  (* the vsync flag and the scanline field *)
  rewrite !bind_modify, bind_get in H.
  change (current_line p0) with (next_line L p) in *.
  rewrite !Hf0 in *.
  change (if field L p SPG_VBLANK_vbstart <? field L p SPG_VBLANK_vbend
          then (field L p SPG_VBLANK_vbstart <=? next_line L p)
               && (next_line L p <? field L p SPG_VBLANK_vbend)
          else (field L p SPG_VBLANK_vbstart <=? next_line L p)
               || (next_line L p <? field L p SPG_VBLANK_vbend))
    with (vsync_at L p (next_line L p)) in H.
  set (V := vsync_at L p (next_line L p)) in *.
  set (p4 := set_field L SPG_STATUS_scanline (next_line L p)
               (set_field L SPG_STATUS_vsync (b2i V) p0)) in *.
  assert (Hv4 : field L p4 SPG_STATUS_vsync = b2i V).
  { unfold p4. rewrite field_set_other by (assumption || discriminate).
    now apply field_set_bit. }
  assert (Hr4 : forall i, i <> reg_index L SPG_STATUS -> reg p4 i = reg p i).
  { intros i Hi. unfold p4. rewrite !reg_set_field_other by exact Hi.
    reflexivity. }
  rewrite Hv4, nonzero_b2i in H.
  (* the edge *)
  apply bind_inv in H. destruct H as (u5 & p5 & c5 & c5' & He & H & ->).
  rewrite bind_get in H.
  apply bind_inv in H. destruct H as (u6 & p6 & c6 & c6' & Ht & H & ->).
  apply emit_inv in Ht. destruct Ht as [-> ->].
  unfold modify in H. injection H as _ <- <-.
  cbn [current_line line_clock reg set_line_timer].
  assert (Hq : quiet ([sched_start_timer (line_clock p5)] ++ [])).
  { split; reflexivity. }
  assert (Hpre : quiet (c1 ++
                        (if next_line L p
                            =? field L p SPG_VBLANK_INT_vblank_in_line_number
                         then [holly_raise_interrupt HOLLY_INT_PCVIINT] else [])
                        ++ (if next_line L p
                               =? field L p SPG_VBLANK_INT_vblank_out_line_number
                            then [holly_raise_interrupt HOLLY_INT_PCVOINT]
                            else []))).
  { apply quiet_app; [exact Hq1 |].
    apply quiet_app; now apply quiet_when. }
  destruct Hpre as [Hpi Hpo]. destruct Hq as [Hqi Hqo].
  rewrite !count_app in Hpi, Hpo.
  assert (He' : current_line p5 = current_line p4
                /\ (forall i, i <> reg_index L SPG_STATUS -> reg p5 i = reg p i)
                /\ line_clock p5 = line_clock p4
                /\ field L p5 SPG_STATUS_vsync = b2i V
                /\ count is_vblank_in c5
                   = b2i (negb (nonzero (field L p SPG_STATUS_vsync)) && V)
                /\ count is_vblank_out c5
                   = b2i (nonzero (field L p SPG_STATUS_vsync) && negb V)).
  { destruct (nonzero (field L p SPG_STATUS_vsync)), V; cbn [negb andb] in *.
    - injection He as _ <- <-. repeat split; assumption.
    - injection He as _ <- <-. repeat split; assumption.
    - apply pvr_vblank_in_frame in He.
      destruct He as ([v Hreg] & Hl & Hc & Hi & Ho).
      split; [exact Hl |]. split; [| split; [exact Hc | split; [| split]]].
      + intros i Hi'. rewrite Hreg.
        rewrite reg_set_field_other by exact Hi'. now apply Hr4.
      + unfold field at 1. rewrite Hreg.
        fold (field L (set_field L SPG_STATUS_fieldnum v p4) SPG_STATUS_vsync).
        rewrite field_set_other by (assumption || discriminate). exact Hv4.
      + exact Hi.
      + exact Ho.
    - injection He as _ <- <-. repeat split; assumption. }
  destruct He' as (Hl5 & Hr5 & Hc5 & Hv5 & Hi5 & Ho5).
  split; [rewrite Hl5; reflexivity |].
  split; [exact Hr5 |].
  split; [rewrite Hc5; reflexivity |].
  split; [unfold field at 1; cbn [reg]; exact Hv5 |].
  rewrite !count_app. rewrite !count_app in Hqi, Hqo.
  split; lia.
Qed.

Lemma bind_total {A B : Type} (m : M A) (k : A -> M B) (p p1 : pvr)
      (a : A) (c1 : list call) :
  m p = Some (a, p1, c1) -> k a p1 <> None -> bind m k p <> None.
Proof.
  intros Hm Hk. unfold bind. rewrite Hm.
  destruct (k a p1) as [[[b q] c] |]; [discriminate | contradiction].
Qed.

Lemma pvr_next_scanline_total (p : pvr) :
  runnable L p -> pvr_next_scanline L p <> None.
Proof.
  intros [Hmode Hdepth].
  unfold pvr_next_scanline. rewrite bind_get, bind_modify, bind_get.
  set (p0 := set_current_line _ p).
  assert (Hf0 : forall f, field L p0 f = field L p f) by reflexivity.
  assert (Hh : exists c1,
             (if field L p0 SPG_HBLANK_INT_hblank_int_mode =? 0
              then when (current_line p0
                         =? field L p0 SPG_HBLANK_INT_line_comp_val)
                        (emit (holly_raise_interrupt HOLLY_INT_PCHIINT))
              else if field L p0 SPG_HBLANK_INT_hblank_int_mode =? 2
                   then emit (holly_raise_interrupt HOLLY_INT_PCHIINT)
                   else LOG_FATAL) p0 = Some (tt, p0, c1)).
  { rewrite Hf0. destruct Hmode as [-> | ->]; cbn [Z.eqb].
    - rewrite when_emit. eauto.
    - cbn [Pos.eqb]. unfold emit. eauto. }
  destruct Hh as [c1 Hh].
  apply (bind_total _ _ _ _ _ _ Hh).
  apply (bind_total _ _ _ _ _ _ (when_emit _ _ _)).
  apply (bind_total _ _ _ _ _ _ (when_emit _ _ _)).
  rewrite !bind_modify, bind_get.
  set (p4 := set_field L SPG_STATUS_scanline _ _).
  assert (Hd4 : 0 <= field L p4 FB_R_CTRL_fb_depth <= 3).
  { unfold p4. rewrite !field_set_other by (assumption || discriminate).
    rewrite Hf0. pose proof (field_range L Hok p FB_R_CTRL_fb_depth). lia. }
  assert (He : exists u p5 c5,
             (if negb (nonzero (field L p0 SPG_STATUS_vsync))
                 && nonzero (field L p4 SPG_STATUS_vsync)
              then pvr_vblank_in L
              else if nonzero (field L p0 SPG_STATUS_vsync)
                      && negb (nonzero (field L p4 SPG_STATUS_vsync))
                   then pvr_vblank_out
                   else ret tt) p4 = Some (u, p5, c5)).
  { destruct (negb (nonzero (field L p0 SPG_STATUS_vsync))
              && nonzero (field L p4 SPG_STATUS_vsync)).
    - pose proof (pvr_vblank_in_total L p4 Hd4) as Hne.
      destruct (pvr_vblank_in L p4) as [[[u p5] c5] |]; [| contradiction].
      do 3 eexists. reflexivity.
    - destruct (nonzero (field L p0 SPG_STATUS_vsync)
                && negb (nonzero (field L p4 SPG_STATUS_vsync)));
        do 3 eexists; reflexivity. }
  destruct He as (u & p5 & c5 & He).
  apply (bind_total _ _ _ _ _ _ He).
  rewrite bind_get. unfold bind, emit, modify. discriminate.
Qed.

End Tick.

(** C2: a tick that completes leaves the vsync flag at 0 or 1, and at 1
    exactly when the new line lies in the blanking interval: from
    [vbstart] up to [vbend] when [vbstart < vbend], from [vbstart] on or
    below [vbend] otherwise; with 10 and 20 these are the lines 10..19,
    with 400 and 5 the lines from 400 on and those below 5.  With a
    supported hblank mode and depth the tick does complete. *)
Theorem vsync_after_tick (L : layout) (p : pvr) (Hok : layout_ok L = true) :
  (runnable L p -> exists q c, pvr_next_scanline L p = Some (tt, q, c))
  /\ (forall q a c,
        pvr_next_scanline L p = Some (a, q, c) ->
        let line := current_line q in
        let vsync := field L q SPG_STATUS_vsync in
        let vbstart := field L q SPG_VBLANK_vbstart in
        let vbend := field L q SPG_VBLANK_vbend in
        (vsync = 0 \/ vsync = 1)
        /\ (vbstart < vbend -> (vsync = 1 <-> vbstart <= line < vbend))
        /\ (vbstart >= vbend ->
            (vsync = 1 <-> line >= vbstart \/ line < vbend))
        /\ (vbstart = 10 -> vbend = 20 -> (vsync = 1 <-> 10 <= line <= 19))
        /\ (vbstart = 400 -> vbend = 5 ->
            (vsync = 1 <-> line >= 400 \/ line < 5))).
Proof.
  split.
  - intros Hrun. pose proof (pvr_next_scanline_total L Hok p Hrun) as Hne.
    destruct (pvr_next_scanline L p) as [[[[] q] c] |]; [| contradiction].
    eauto.
  - intros q a c Hq.
    apply (pvr_next_scanline_spec L Hok) in Hq.
    destruct Hq as (Hl & Hr & _ & Hv & _).
    assert (Hs : field L q SPG_VBLANK_vbstart = field L p SPG_VBLANK_vbstart).
    { apply field_ext, Hr. cbn [field_reg]. intros E.
      apply (reg_index_inj L Hok) in E. discriminate E. }
    assert (He : field L q SPG_VBLANK_vbend = field L p SPG_VBLANK_vbend).
    { apply field_ext, Hr. cbn [field_reg]. intros E.
      apply (reg_index_inj L Hok) in E. discriminate E. }
    cbv zeta. rewrite Hs, He, Hv, Hl. unfold vsync_at, in_vsync.
    set (s := field L p SPG_VBLANK_vbstart).
    set (e := field L p SPG_VBLANK_vbend).
    set (l := next_line L p).
    destruct (Z.ltb_spec s e), (Z.leb_spec s l), (Z.ltb_spec l e);
      cbn [andb orb b2i]; repeat split; intros; try lia.
Qed.

Lemma vsync_after_tick_witness :
  layout_ok dc_layout = true
  /\ match pvr_next_scanline dc_layout (spg_device 10 20 9) with
     | Some (_, q, _) =>
         current_line q = 10 /\ field dc_layout q SPG_STATUS_vsync = 1
     | None => False
     end.
Proof.
  split; [reflexivity |].
  destruct (pvr_next_scanline dc_layout (spg_device 10 20 9))
    as [[[a q] c] |] eqn:E.
  - destruct (proj2 (vsync_after_tick dc_layout (spg_device 10 20 9) eq_refl)
                    q a c E) as (_ & _ & _ & H & _).
    apply (pvr_next_scanline_spec dc_layout eq_refl) in E.
    destruct E as (Hl & Hr & _).
    assert (Hl' : current_line q = 10) by (rewrite Hl; reflexivity).
    split; [exact Hl' |].
    apply H.
    + unfold field. rewrite Hr by (vm_compute; discriminate). reflexivity.
    + unfold field. rewrite Hr by (vm_compute; discriminate). reflexivity.
    + lia.
  - vm_compute in E. discriminate E.
Defined.

(** ** Edges of an interval signal over a frame *)

(** Decide every comparison in sight, then leave linear arithmetic. *)
Ltac cmp_all :=
  repeat match goal with
         | |- context [?a <? ?b] => destruct (Z.ltb_spec a b)
         | |- context [?a <=? ?b] => destruct (Z.leb_spec a b)
         | |- context [?a =? ?b] => destruct (Z.eqb_spec a b)
         | H : context [?a <? ?b] |- _ => destruct (Z.ltb_spec a b)
         | H : context [?a <=? ?b] |- _ => destruct (Z.leb_spec a b)
         | H : context [?a =? ?b] |- _ => destruct (Z.eqb_spec a b)
         end;
  cbn [andb orb negb b2i rising falling] in *;
  try discriminate; try lia.

Lemma edges_app (E : bool -> bool -> bool) (V : Z -> bool) (N l : Z)
      (n m : nat) :
  0 <= l < N ->
  edges E V N l (n + m)
  = edges E V N l n + edges E V N ((l + Z.of_nat n) mod N) m.
Proof.
  revert l. induction n as [| n IH]; intros l Hl.
  - cbn [Nat.add edges Z.of_nat]. rewrite Z.add_0_r, Z.mod_small by lia.
    reflexivity.
  - cbn [Nat.add edges]. cbv zeta.
    rewrite IH by (apply Z.mod_pos_bound; lia).
    rewrite Z.add_mod_idemp_l by lia.
    replace (l + 1 + Z.of_nat n) with (l + Z.of_nat (S n)) by lia.
    lia.
Qed.

Lemma rises_linear (s e N l : Z) (n : nat) :
  0 <= l -> l + Z.of_nat n < N ->
  edges rising (in_vsync s e) N l n
  = b2i ((l <? s) && (s <=? l + Z.of_nat n) && negb (s =? e)).
Proof.
  revert l. induction n as [| n IH]; intros l Hl Hn.
  - cbn [edges Z.of_nat]. cmp_all.
  - cbn [edges]. cbv zeta.
    rewrite (Z.mod_small (l + 1)) by lia.
    rewrite IH by lia.
    unfold in_vsync. cmp_all.
Qed.

Lemma falls_linear (s e N l : Z) (n : nat) :
  0 <= l -> l + Z.of_nat n < N ->
  edges falling (in_vsync s e) N l n
  = b2i ((l <? e) && (e <=? l + Z.of_nat n) && negb (s =? e)).
Proof.
  revert l. induction n as [| n IH]; intros l Hl Hn.
  - cbn [edges Z.of_nat]. cmp_all.
  - cbn [edges]. cbv zeta.
    rewrite (Z.mod_small (l + 1)) by lia.
    rewrite IH by lia.
    unfold in_vsync. cmp_all.
Qed.

(** One turn around the frame splits into the run up to the last line,
    the step back to line 0 and the run up to the starting line. *)
Lemma edges_turn (E : bool -> bool -> bool) (V : Z -> bool) (N l : Z) :
  0 <= l < N ->
  edges E V N l (Z.to_nat N)
  = edges E V N l (Z.to_nat (N - 1 - l))
    + b2i (E (V (N - 1)) (V 0))
    + edges E V N 0 (Z.to_nat l).
Proof.
  intros Hl.
  replace (Z.to_nat N) with (Z.to_nat (N - 1 - l) + (1 + Z.to_nat l))%nat
    by lia.
  rewrite edges_app by lia.
  rewrite Z2Nat.id by lia.
  replace (l + (N - 1 - l)) with (N - 1) by lia.
  rewrite (Z.mod_small (N - 1)) by lia.
  cbn [Nat.add edges]. cbv zeta.
  replace (N - 1 + 1) with N by lia. rewrite Z.mod_same by lia.
  lia.
Qed.

Lemma edges_cycle (s e N l t f : Z) :
  0 <= l < N ->
  0 <= t < N -> in_vsync s e t = true ->
  0 <= f < N -> in_vsync s e f = false ->
  edges rising (in_vsync s e) N l (Z.to_nat N) = 1
  /\ edges falling (in_vsync s e) N l (Z.to_nat N) = 1.
Proof.
  intros Hl Ht HVt Hf HVf.
  rewrite !edges_turn by exact Hl.
  rewrite !rises_linear, !falls_linear by lia.
  rewrite !Z2Nat.id by lia.
  replace (l + (N - 1 - l)) with (N - 1) by lia.
  unfold in_vsync in *.
  split; cmp_all.
Qed.

(** ** Runs of ticks *)

Section Ticks.

Variable L : layout.
Hypothesis Hok : layout_ok L = true.

Lemma config_field (p q : pvr) (f : field_name) :
  same_config L p q -> field_reg f <> SPG_STATUS -> field L q f = field L p f.
Proof.
  intros Hc Hf. apply field_ext, Hc. intros E.
  apply (reg_index_inj L Hok) in E. contradiction.
Qed.

Lemma config_runnable (p q : pvr) :
  same_config L p q -> runnable L p -> runnable L q.
Proof.
  intros Hc [Hm Hd]. unfold runnable.
  rewrite !(config_field p q) by (assumption || discriminate).
  split; assumption.
Qed.

Lemma config_vsync_at (p q : pvr) (l : Z) :
  same_config L p q -> vsync_at L q l = vsync_at L p l.
Proof.
  intros Hc. unfold vsync_at.
  rewrite !(config_field p q) by (assumption || discriminate).
  reflexivity.
Qed.

Lemma next_line_in_frame (p : pvr) :
  0 <= current_line p < field L p SPG_LOAD_vcount + 1 ->
  next_line L p = (current_line p + 1) mod (field L p SPG_LOAD_vcount + 1).
Proof.
  intros Hl. pose proof (field_range16 L Hok p SPG_LOAD_vcount) as Hv.
  change (2 ^ 16) with 65536 in Hv.
  unfold next_line. rewrite !u32_small by (change (2 ^ 32) with 4294967296; lia).
  reflexivity.
Qed.

Lemma ticks_spec (n : nat) :
  forall (p q : pvr) (a : unit) (c : list call),
    ticks L n p = Some (a, q, c) ->
    0 <= current_line p < field L p SPG_LOAD_vcount + 1 ->
    consistent L p ->
    same_config L p q
    /\ current_line q
       = (current_line p + Z.of_nat n) mod (field L p SPG_LOAD_vcount + 1)
    /\ consistent L q
    /\ count is_vblank_in c
       = edges rising (vsync_at L p) (field L p SPG_LOAD_vcount + 1)
               (current_line p) n
    /\ count is_vblank_out c
       = edges falling (vsync_at L p) (field L p SPG_LOAD_vcount + 1)
               (current_line p) n.
Proof.
  induction n as [| n IH]; intros p q a c Hrun Hl Hcons.
  - cbn [ticks] in Hrun. injection Hrun as _ <- <-.
    cbn [edges Z.of_nat]. rewrite Z.add_0_r, Z.mod_small by lia.
    repeat split; assumption.
  - cbn [ticks] in Hrun.
    apply bind_inv in Hrun.
    destruct Hrun as (u & p1 & c1 & c2 & Htick & Hrest & ->).
    apply (pvr_next_scanline_spec L Hok) in Htick.
    destruct Htick as (Hl1 & Hr1 & _ & Hv1 & Hi1 & Ho1).
    rewrite next_line_in_frame in Hl1, Hv1, Hi1, Ho1 by exact Hl.
    set (N := field L p SPG_LOAD_vcount + 1) in *.
    assert (HN1 : field L p1 SPG_LOAD_vcount + 1 = N).
    { unfold N. rewrite (config_field p p1) by (assumption || discriminate).
      reflexivity. }
    assert (Hin : 0 <= current_line p1 < N).
    { rewrite Hl1. apply Z.mod_pos_bound. lia. }
    assert (Hcons1 : consistent L p1).
    { unfold consistent. rewrite Hv1, nonzero_b2i, Hl1.
      symmetry. now apply config_vsync_at. }
    specialize (IH p1 q a c2 Hrest).
    rewrite HN1 in IH. specialize (IH Hin Hcons1).
    destruct IH as (Hr2 & Hl2 & Hcons2 & Hi2 & Ho2).
    assert (HV : edges rising (vsync_at L p1) N (current_line p1) n
                 = edges rising (vsync_at L p) N (current_line p1) n
                 /\ edges falling (vsync_at L p1) N (current_line p1) n
                    = edges falling (vsync_at L p) N (current_line p1) n).
    { unfold vsync_at.
      rewrite !(config_field p p1) by (assumption || discriminate).
      split; reflexivity. }
    destruct HV as [HVr HVf]. rewrite HVr in Hi2. rewrite HVf in Ho2.
    split; [| split; [| split; [| split]]].
    + intros i Hi. rewrite Hr2 by exact Hi. now apply Hr1.
    + rewrite Hl2, Hl1. rewrite Z.add_mod_idemp_l by lia.
      f_equal. lia.
    + exact Hcons2.
    + rewrite count_app, Hi1, Hi2. cbn [edges]. cbv zeta.
      rewrite Hcons, Hl1. reflexivity.
    + rewrite count_app, Ho1, Ho2. cbn [edges]. cbv zeta.
      rewrite Hcons, Hl1. reflexivity.
Qed.

Lemma ticks_total (n : nat) :
  forall p, runnable L p -> exists q c, ticks L n p = Some (tt, q, c).
Proof.
  induction n as [| n IH]; intros p Hrun.
  - exists p, []. reflexivity.
  - cbn [ticks].
    pose proof (pvr_next_scanline_total L Hok p Hrun) as Hne.
    destruct (pvr_next_scanline L p) as [[[u p1] c1] |] eqn:Htick;
      [| contradiction].
    pose proof (pvr_next_scanline_spec L Hok p p1 u c1 Htick) as (_ & Hr & _).
    destruct (IH p1 (config_runnable p p1 Hr Hrun)) as (q & c2 & Hrest).
    exists q, (c1 ++ c2). now apply bind_run with p1 u.
Qed.

(** The line counter alone does not need the vsync flag to agree. *)
Lemma ticks_line (n : nat) :
  forall (p q : pvr) (a : unit) (c : list call),
    ticks L n p = Some (a, q, c) ->
    0 <= current_line p < field L p SPG_LOAD_vcount + 1 ->
    same_config L p q
    /\ current_line q
       = (current_line p + Z.of_nat n) mod (field L p SPG_LOAD_vcount + 1).
Proof.
  induction n as [| n IH]; intros p q a c Hrun Hl.
  - cbn [ticks] in Hrun. injection Hrun as _ <- <-.
    cbn [Z.of_nat]. rewrite Z.add_0_r, Z.mod_small by lia.
    split; [intros i _; reflexivity | reflexivity].
  - cbn [ticks] in Hrun.
    apply bind_inv in Hrun.
    destruct Hrun as (u & p1 & c1 & c2 & Htick & Hrest & ->).
    apply (pvr_next_scanline_spec L Hok) in Htick.
    destruct Htick as (Hl1 & Hr1 & _).
    rewrite next_line_in_frame in Hl1 by exact Hl.
    set (N := field L p SPG_LOAD_vcount + 1) in *.
    assert (HN1 : field L p1 SPG_LOAD_vcount + 1 = N).
    { unfold N. rewrite (config_field p p1) by (assumption || discriminate).
      reflexivity. }
    assert (Hin : 0 <= current_line p1 < N).
    { rewrite Hl1. apply Z.mod_pos_bound. lia. }
    specialize (IH p1 q a c2 Hrest). rewrite HN1 in IH.
    destruct (IH Hin) as (Hr2 & Hl2).
    split.
    + intros i Hi. rewrite Hr2 by exact Hi. now apply Hr1.
    + rewrite Hl2, Hl1. rewrite Z.add_mod_idemp_l by lia.
      f_equal. lia.
Qed.

End Ticks.

(** C3: from a line inside the frame of [vcount + 1] lines, a tick moves
    the counter to the next line modulo [vcount + 1]; the counter stays
    below [vcount + 1] however many ticks follow, and after exactly
    [vcount + 1] of them, which do complete, it is back where it
    started, [vcount] being what it was. *)
Theorem line_counter_wraps (L : layout) (p : pvr)
        (Hok : layout_ok L = true)
        (Hrun : runnable L p)
        (Hline : 0 <= current_line p < field L p SPG_LOAD_vcount + 1) :
  let N := field L p SPG_LOAD_vcount + 1 in
  (exists q c,
      ticks L (Z.to_nat N) p = Some (tt, q, c)
      /\ current_line q = current_line p
      /\ field L q SPG_LOAD_vcount = field L p SPG_LOAD_vcount)
  /\ (forall n q a c,
        ticks L n p = Some (a, q, c) ->
        current_line q = (current_line p + Z.of_nat n) mod N
        /\ 0 <= current_line q < N
        /\ field L q SPG_LOAD_vcount = field L p SPG_LOAD_vcount)
  /\ (forall q a c,
        pvr_next_scanline L p = Some (a, q, c) ->
        current_line q = (current_line p + 1) mod N).
Proof.
  intros N.
  assert (Hall : forall n q a c,
             ticks L n p = Some (a, q, c) ->
             current_line q = (current_line p + Z.of_nat n) mod N
             /\ 0 <= current_line q < N
             /\ field L q SPG_LOAD_vcount = field L p SPG_LOAD_vcount).
  { intros n q a c Hq.
    destruct (ticks_line L Hok n p q a c Hq Hline) as [Hc Hl].
    fold N in Hl. split; [exact Hl |]. split.
    - rewrite Hl. apply Z.mod_pos_bound. unfold N. lia.
    - apply (config_field L Hok p q); [exact Hc | discriminate]. }
  split; [| split; [exact Hall |]].
  - destruct (ticks_total L Hok (Z.to_nat N) p Hrun) as (q & c & Hq).
    exists q, c. split; [exact Hq |].
    destruct (Hall _ _ _ _ Hq) as (Hl & _ & Hv).
    split; [| exact Hv].
    rewrite Hl, Z2Nat.id by (unfold N; lia).
    rewrite <- (Z.mul_1_l N) at 1. rewrite Z.mod_add by (unfold N; lia).
    apply Z.mod_small. exact Hline.
  - intros q a c Hq.
    apply (pvr_next_scanline_spec L Hok) in Hq. destruct Hq as (Hl & _).
    rewrite Hl. now apply next_line_in_frame.
Qed.

Lemma spg_device_runnable (s e l : Z) : runnable dc_layout (spg_device s e l).
Proof. split; [left; reflexivity | vm_compute; discriminate]. Qed.

Lemma line_counter_wraps_witness :
  layout_ok dc_layout = true
  /\ runnable dc_layout (spg_device 10 20 7)
  /\ 0 <= 7 < 524 + 1
  /\ exists q c,
       ticks dc_layout 525 (spg_device 10 20 7) = Some (tt, q, c)
       /\ current_line q = 7.
Proof.
  split; [reflexivity |]. split; [apply spg_device_runnable |].
  split; [lia |].
  destruct (line_counter_wraps dc_layout (spg_device 10 20 7) eq_refl
              (spg_device_runnable 10 20 7) ltac:(cbn; lia))
    as ((q & c & Hq & Hl & _) & _).
  exists q, c. split; [exact Hq | exact Hl].
Defined.

(** C4: on a tick that completes, [dc_vblank_in] is called once when the
    vsync flag goes from clear to set and not otherwise, [dc_vblank_out]
    once when it goes from set to clear and not otherwise, so never both;
    and over the [vcount + 1] ticks of a frame whose vsync interval
    holds some line and misses some line, from a state whose flag agrees
    with its line, each of the two is called exactly once. *)
Theorem vblank_edges (L : layout) (p : pvr) (Hok : layout_ok L = true) :
  (forall q a c,
      pvr_next_scanline L p = Some (a, q, c) ->
      let was := nonzero (field L p SPG_STATUS_vsync) in
      let now := nonzero (field L q SPG_STATUS_vsync) in
      count is_vblank_in c = b2i (negb was && now)
      /\ count is_vblank_out c = b2i (was && negb now)
      /\ count is_vblank_in c + count is_vblank_out c <= 1)
  /\ (let N := field L p SPG_LOAD_vcount + 1 in
      runnable L p ->
      0 <= current_line p < N ->
      consistent L p ->
      (exists t, 0 <= t < N /\ vsync_at L p t = true) ->
      (exists f, 0 <= f < N /\ vsync_at L p f = false) ->
      exists q c,
        ticks L (Z.to_nat N) p = Some (tt, q, c)
        /\ count is_vblank_in c = 1
        /\ count is_vblank_out c = 1).
Proof.
  split.
  - intros q a c Hq was now.
    apply (pvr_next_scanline_spec L Hok) in Hq.
    destruct Hq as (_ & _ & _ & Hv & Hi & Ho).
    unfold now. rewrite Hv, nonzero_b2i, Hi, Ho. fold was.
    repeat split.
    destruct was, (vsync_at L p (next_line L p)); cbn; lia.
  - intros N Hrun Hl Hcons (t & Ht & HVt) (f & Hf & HVf).
    destruct (ticks_total L Hok (Z.to_nat N) p Hrun) as (q & c & Hq).
    exists q, c. split; [exact Hq |].
    destruct (ticks_spec L Hok _ _ _ _ _ Hq Hl Hcons) as (_ & _ & _ & Hi & Ho).
    fold N in Hi, Ho. rewrite Hi, Ho.
    apply (edges_cycle _ _ N (current_line p) t f); assumption.
Qed.

Lemma vblank_edges_witness :
  layout_ok dc_layout = true
  /\ exists q c,
       ticks dc_layout 525 (spg_device 10 20 7) = Some (tt, q, c)
       /\ count is_vblank_in c = 1
       /\ count is_vblank_out c = 1.
Proof.
  split; [reflexivity |].
  apply (proj2 (vblank_edges dc_layout (spg_device 10 20 7) eq_refl)).
  - apply spg_device_runnable.
  - cbn. lia.
  - reflexivity.
  - exists 10. split; [cbn; lia | reflexivity].
  - exists 0. split; [cbn; lia | reflexivity].
Defined.

(** * Further properties of the code *)

(** ** The interleaving of the two banks *)

Lemma lor_add_disjoint (hi lo k : Z) :
  0 <= k -> 0 <= lo < 2 ^ k -> Z.lor (Z.shiftl hi k) lo = hi * 2 ^ k + lo.
Proof.
  intros Hk Hlo.
  assert (Hd : Z.land (Z.shiftl hi k) lo = 0).
  { apply Z.bits_inj'. intros n Hn. rewrite Z.bits_0. bit_rw.
    destruct (Z.ltb_spec n k).
    - rewrite (Z.testbit_neg_r hi (n - k)) by lia.
      now rewrite Bool.andb_false_r.
    - rewrite (testbit_small lo k n) by lia. apply Bool.andb_false_r. }
  rewrite <- Z.lxor_lor by exact Hd.
  rewrite <- Z.add_nocarry_lxor by exact Hd.
  now rewrite Z.shiftl_mul_pow2 by lia.
Qed.

(** Close what [bitwise] leaves with the ranges of the variables: bits
    of [x] from position [k] on are clear, bits below 0 too. *)
Ltac small_bits x k Hx :=
  repeat match goal with
         | |- context [Z.testbit x ?i] =>
             first [ rewrite (testbit_small x k i) by (exact Hx || lia)
                   | rewrite (Z.testbit_neg_r x i) by lia ]
         end.

(** X1: the translation moves word [w] of bank [bank] to word [2 * w + bank]
    and keeps the byte [l] inside the word. *)
Theorem VRAM64_interleaves (bank w l : Z)
        (Hbank : 0 <= bank < 2) (Hw : 0 <= w < 2 ^ 20) (Hl : 0 <= l < 4) :
  VRAM64 (bank * 0x00400000 + 4 * w + l) = 4 * (2 * w + bank) + l.
Proof.
  assert (Ein : bank * 0x00400000 + 4 * w + l
                = Z.lor (Z.shiftl bank 22) (Z.lor (Z.shiftl w 2) l)).
  { rewrite (lor_add_disjoint w l 2) by lia.
    rewrite (lor_add_disjoint bank (w * 2 ^ 2 + l) 22)
      by (change (2 ^ 22) with 4194304; change (2 ^ 20) with 1048576 in Hw;
          lia).
    change (2 ^ 22) with 0x00400000. lia. }
  assert (Eout : 4 * (2 * w + bank) + l
                 = Z.lor (Z.shiftl w 3) (Z.lor (Z.shiftl bank 2) l)).
  { rewrite (lor_add_disjoint bank l 2) by lia.
    rewrite (lor_add_disjoint w (bank * 2 ^ 2 + l) 3) by lia.
    lia. }
  set (x := bank * 0x00400000 + 4 * w + l) in *.
  set (y := 4 * (2 * w + bank) + l) in *.
  unfold VRAM64. cbv zeta. vram_consts. rewrite Ein, Eout.
  change 2 with (2 ^ 1) in Hbank. change 4 with (2 ^ 2) in Hl.
  bitwise n Hn;
    small_bits bank 1 Hbank; small_bits w 20 Hw; small_bits l 2 Hl;
    bit_close.
Qed.

Lemma VRAM64_interleaves_witness :
  0 <= 1 < 2 /\ 0 <= 5 < 2 ^ 20 /\ 0 <= 3 < 4
  /\ VRAM64 (1 * 0x00400000 + 4 * 5 + 3) = 4 * (2 * 5 + 1) + 3.
Proof.
  split; [lia |]. split; [lia |]. split; [lia |].
  apply (VRAM64_interleaves 1 5 3); lia.
Defined.

(** X2: every interleaved address below 8MB is the image of a linear one
    below 8MB: with C1 the translation is a permutation of the 8MB. *)
Theorem VRAM64_onto (b : Z) (Hb : 0 <= b < 0x00800000) :
  0 <= VRAM32 b < 0x00800000 /\ VRAM64 (VRAM32 b) = b.
Proof.
  change 0x00800000 with (2 ^ 23) in *.
  assert (Hnn : 0 <= VRAM32 b).
  { unfold VRAM32. repeat (apply Z.lor_nonneg; split).
    - apply Z.shiftl_nonneg, Z.land_nonneg. right. discriminate.
    - apply Z.land_nonneg. right. discriminate.
    - apply Z.land_nonneg. right. discriminate. }
  split; [split; [exact Hnn |] |].
  - apply small_of_testbit; [exact Hnn | lia |].
    intros n Hn. unfold VRAM32. vram_consts.
    bit_rw. cmp_cases; bit_close.
  - unfold VRAM32, VRAM64. cbv zeta. vram_consts.
    bitwise n Hn; small_bits b 23 Hb; bit_close.
Qed.

Lemma VRAM64_onto_witness :
  0 <= 0x0012345f < 0x00800000 /\ VRAM64 (VRAM32 0x0012345f) = 0x0012345f.
Proof.
  split; [lia |].
  exact (proj2 (VRAM64_onto 0x0012345f ltac:(lia))).
Defined.

(** X3: the four bytes of an aligned linear word stay together, in order and
    inside the 8MB, so an aligned 32-bit access through the translated
    address reads the word it means. *)
Theorem VRAM64_aligned_word (a k : Z)
        (Ha : a mod 4 = 0) (Hk : 0 <= k < 4) :
  VRAM64 (a + k) = VRAM64 a + k
  /\ VRAM64 a mod 4 = 0
  /\ VRAM64 a + 4 <= VRAM_SIZE.
Proof.
  assert (Hm : VRAM64 a mod 4 = 0) by (rewrite VRAM64_mod4; exact Ha).
  assert (Hlow : forall n, 0 <= n < 2 -> Z.testbit a n = false).
  { intros n Hn. rewrite <- (Z.mod_pow2_bits_low a 2 n) by lia.
    change (2 ^ 2) with 4. rewrite Ha. apply Z.bits_0. }
  assert (Hlow' : forall n, 0 <= n < 2 -> Z.testbit (VRAM64 a) n = false).
  { intros n Hn. rewrite <- (Z.mod_pow2_bits_low (VRAM64 a) 2 n) by lia.
    change (2 ^ 2) with 4. rewrite Hm. apply Z.bits_0. }
  assert (Eadd : forall x, (forall n, 0 <= n < 2 -> Z.testbit x n = false) ->
                           x + k = Z.lor x k).
  { intros x Hx.
    assert (Hd : Z.land x k = 0).
    { apply Z.bits_inj'. intros n Hn. rewrite Z.bits_0, Z.land_spec.
      destruct (Z.ltb_spec n 2).
      - now rewrite Hx by lia.
      - rewrite (testbit_small k 2 n) by (change (2 ^ 2) with 4; lia).
        apply Bool.andb_false_r. }
    rewrite <- Z.lxor_lor by exact Hd.
    now apply Z.add_nocarry_lxor. }
  split; [| split; [exact Hm |]].
  - rewrite (Eadd a Hlow), (Eadd (VRAM64 a) Hlow').
    unfold VRAM64. cbv zeta. vram_consts.
    change 4 with (2 ^ 2) in Hk.
    bitwise n Hn; small_bits k 2 Hk; bit_close;
      try (rewrite (Hlow n) by lia); try reflexivity.
    all: rewrite ?Bool.orb_false_r, ?Bool.andb_false_r; reflexivity.
  - pose proof (VRAM64_lt a). pose proof (VRAM64_nonneg a).
    unfold VRAM_SIZE in *.
    pose proof (Z.div_mod (VRAM64 a) 4 ltac:(lia)). lia.
Qed.

Lemma VRAM64_aligned_word_witness :
  0x00400010 mod 4 = 0 /\ 0 <= 3 < 4
  /\ VRAM64 (0x00400010 + 3) = VRAM64 0x00400010 + 3.
Proof.
  split; [reflexivity |]. split; [lia |].
  exact (proj1 (VRAM64_aligned_word 0x00400010 3 eq_refl ltac:(lia))).
Defined.

(** ** Marking: the candidates for field 2, and nothing else *)

Lemma u32_add_mod4 (a o : Z) : o mod 4 = 0 -> u32 (a + o) mod 4 = a mod 4.
Proof.
  intros Ho. unfold u32. change (2 ^ 32) with (4 * 2 ^ 30).
  rewrite Z.rem_mul_r by lia.
  rewrite Z.mul_comm, Z.mod_add by lia.
  rewrite Z.mod_mod by lia.
  rewrite Z.add_mod by lia. rewrite Ho, Z.add_0_r.
  apply Z.mod_mod. lia.
Qed.

Lemma VRAM64_apart (x y : Z) :
  x mod 4 = y mod 4 ->
  VRAM64 y = VRAM64 x \/ VRAM64 y + 4 <= VRAM64 x \/ VRAM64 x + 4 <= VRAM64 y.
Proof.
  intros Hxy.
  assert (Hm : VRAM64 y mod 4 = VRAM64 x mod 4)
    by (rewrite !VRAM64_mod4; now symmetry).
  pose proof (Z.div_mod (VRAM64 x) 4 ltac:(lia)).
  pose proof (Z.div_mod (VRAM64 y) 4 ltac:(lia)).
  lia.
Qed.

Lemma cookie_kept (m : mem) (x y : Z) :
  x mod 4 = y mod 4 ->
  load32 m (VRAM64 x) = PVR_FB_COOKIE ->
  load32 (store32 m (VRAM64 y) PVR_FB_COOKIE) (VRAM64 x) = PVR_FB_COOKIE.
Proof.
  intros Hxy Hm.
  destruct (VRAM64_apart x y Hxy) as [E | Hapart].
  - rewrite E, load32_store32_same. apply cookie_word.
  - rewrite load32_store32_other by lia. exact Hm.
Qed.

(** Walk outwards through the stores of [pvr_mark_framebuffer] to the
    one that put the cookie at the address looked at. *)
Ltac find_cookie :=
  repeat first
    [ rewrite load32_store32_same; apply cookie_word
    | apply cookie_kept;
      [ rewrite ?u32_add_mod4 by reflexivity; reflexivity | ] ].

(** X4: marking a framebuffer also marks every place its second field could
    start next frame: the dirty test is clean at [addr] plus each of the
    twelve line strides (320 or 640 pixels of 2, 3 or 4 bytes, once or
    twice). *)
Theorem mark_covers_field2 (p : pvr) (addr c : Z)
        (Htex : Z.land addr 0x01000000 = 0)
        (Hc : In c (field2_candidates addr)) :
  pvr_test_framebuffer (pvr_mark_framebuffer p addr) c = 0.
Proof.
  apply pvr_test_framebuffer_clean.
  unfold pvr_mark_framebuffer. rewrite Htex.
  cbn [nonzero Z.eqb negb vram set_vram].
  unfold field2_candidates, line_width, line_bpp, line_scale in *.
  cbn [fold_left flat_map map app In] in *.
  repeat (destruct Hc as [<- | Hc]; [find_cookie |]).
  contradiction.
Qed.

Lemma mark_covers_field2_witness :
  Z.land 0x00200000 0x01000000 = 0
  /\ In (0x00200000 + 1280) (field2_candidates 0x00200000)
  /\ pvr_test_framebuffer (pvr_mark_framebuffer pvr_zero 0x00200000)
                          (0x00200000 + 1280) = 0.
Proof.
  assert (Hin : In (0x00200000 + 1280) (field2_candidates 0x00200000)).
  { vm_compute. tauto. }
  split; [reflexivity |]. split; [exact Hin |].
  exact (mark_covers_field2 pvr_zero 0x00200000 (0x00200000 + 1280)
           eq_refl Hin).
Defined.

Lemma store32_other_byte (m : mem) (j v i : Z) :
  i < j \/ j + 4 <= i -> store32 m j v i = m i.
Proof.
  intros Hi. unfold store32, store8, upd.
  repeat match goal with
         | |- context [?a =? ?b] => destruct (Z.eqb_spec a b); [lia |]
         end.
  reflexivity.
Qed.

Lemma pvr_mark_framebuffer_keeps (p : pvr) (addr : Z) :
  reg (pvr_mark_framebuffer p addr) = reg p
  /\ framebuffer (pvr_mark_framebuffer p addr) = framebuffer p
  /\ current_line (pvr_mark_framebuffer p addr) = current_line p
  /\ got_startrender (pvr_mark_framebuffer p addr) = got_startrender p
  /\ line_timer (pvr_mark_framebuffer p addr) = line_timer p.
Proof.
  unfold pvr_mark_framebuffer.
  destruct (nonzero (Z.land addr 0x01000000)); repeat split.
Qed.

(** X5: marking writes video memory only, and there only the four bytes at
    the translated base and at the twelve translated candidates; a
    framebuffer in the texture region is not marked at all. *)
Theorem mark_writes_only_marks (p : pvr) (addr : Z) :
  reg (pvr_mark_framebuffer p addr) = reg p
  /\ framebuffer (pvr_mark_framebuffer p addr) = framebuffer p
  /\ current_line (pvr_mark_framebuffer p addr) = current_line p
  /\ got_startrender (pvr_mark_framebuffer p addr) = got_startrender p
  /\ line_timer (pvr_mark_framebuffer p addr) = line_timer p
  /\ (forall i,
        (forall c, In c (addr :: field2_candidates addr) ->
                   i < VRAM64 c \/ VRAM64 c + 4 <= i) ->
        vram (pvr_mark_framebuffer p addr) i = vram p i)
  /\ (Z.land addr 0x01000000 <> 0 -> pvr_mark_framebuffer p addr = p).
Proof.
  destruct (pvr_mark_framebuffer_keeps p addr) as (Hr & Hf & Hl & Hg & Ht).
  repeat split; try assumption.
  - intros i Hi. unfold pvr_mark_framebuffer.
    destruct (nonzero (Z.land addr 0x01000000)); [reflexivity |].
    cbn [vram set_vram].
    unfold field2_candidates, line_width, line_bpp, line_scale in *.
    cbn [fold_left flat_map map app] in *.
    repeat (rewrite store32_other_byte; [| apply Hi; cbn [In]; tauto]).
    reflexivity.
  - apply pvr_mark_framebuffer_texture.
Qed.

Lemma mark_writes_only_marks_witness :
  vram (pvr_mark_framebuffer pvr_zero 0x00200000) 0 = vram pvr_zero 0
  /\ pvr_mark_framebuffer pvr_zero 0x01000000 = pvr_zero.
Proof.
  destruct (mark_writes_only_marks pvr_zero 0x00200000)
    as (_ & _ & _ & _ & _ & Hbytes & _).
  destruct (mark_writes_only_marks pvr_zero 0x01000000)
    as (_ & _ & _ & _ & _ & _ & Htex).
  split.
  - apply Hbytes. intros c Hc. vm_compute in Hc.
    repeat (destruct Hc as [<- | Hc]; [left; reflexivity |]).
    contradiction.
  - apply Htex. discriminate.
Defined.

(** ** Extraction: when it runs and what it touches *)

Lemma bind_emit {B : Type} (e : call) (k : unit -> M B) (p : pvr) :
  bind (emit e) k p
  = match k tt p with
    | Some (b, q, c) => Some (b, q, e :: c)
    | None => None
    end.
Proof. reflexivity. Qed.

Section Extraction.

Variable L : layout.
Variable p : pvr.

Lemma pvr_update_framebuffer_skips :
  nonzero (field L p FB_R_CTRL_fb_enable) = false
  \/ pvr_test_framebuffer p (read_source L p) = 0 ->
  pvr_update_framebuffer L p = Some (0, p, []).
Proof.
  unfold pvr_update_framebuffer, read_source. rewrite bind_get.
  unfold field_at. cbn [fields0 fields1].
  intros [Hen | Hclean].
  - rewrite Hen. reflexivity.
  - rewrite Hclean. cbn [Z.eqb].
    destruct (negb (nonzero (field L p FB_R_CTRL_fb_enable))); reflexivity.
Qed.

Lemma pvr_update_framebuffer_extracts :
  nonzero (field L p FB_R_CTRL_fb_enable) = true ->
  pvr_test_framebuffer p (read_source L p) <> 0 ->
  0 <= field L p FB_R_CTRL_fb_depth <= 3 ->
  exists q,
    pvr_update_framebuffer L p
    = Some (1, q, [dc_push_pixels (fst (pvr_framebuffer_size L p))
                                  (snd (pvr_framebuffer_size L p))])
    /\ (framebuffer_w q, framebuffer_h q) = pvr_framebuffer_size L p
    /\ reg q = reg p /\ vram q = vram p
    /\ current_line q = current_line p
    /\ got_startrender q = got_startrender p
    /\ line_clock q = line_clock p /\ line_timer q = line_timer p.
Proof.
  unfold pvr_update_framebuffer, read_source. rewrite bind_get.
  unfold field_at. cbn [fields0 fields1].
  set (src := if field L p SPG_STATUS_fieldnum =? 0
              then full L p FB_R_SOF1 else full L p FB_R_SOF2).
  intros Hen Hdirty Hd. rewrite Hen. cbn [negb].
  destruct (Z.eqb_spec (pvr_test_framebuffer p src) 0); [contradiction |].
  destruct (pvr_framebuffer_size L p) as [w h]. cbn [fst snd].
  rewrite bind_modify.
  assert (Hc : field L p FB_R_CTRL_fb_depth = 0
               \/ field L p FB_R_CTRL_fb_depth = 1
               \/ field L p FB_R_CTRL_fb_depth = 2
               \/ field L p FB_R_CTRL_fb_depth = 3) by lia.
  destruct Hc as [-> | [-> | [-> | ->]]]; cbn [Z.eqb Pos.eqb];
    rewrite bind_ret, bind_modify;
    (eexists; split; [reflexivity | repeat split]).
Qed.

Lemma pvr_update_framebuffer_stops :
  nonzero (field L p FB_R_CTRL_fb_enable) = true ->
  pvr_test_framebuffer p (read_source L p) <> 0 ->
  field L p FB_R_CTRL_fb_depth < 0 \/ 3 < field L p FB_R_CTRL_fb_depth ->
  pvr_update_framebuffer L p = None.
Proof.
  unfold pvr_update_framebuffer, read_source. rewrite bind_get.
  unfold field_at. cbn [fields0 fields1].
  set (src := if field L p SPG_STATUS_fieldnum =? 0
              then full L p FB_R_SOF1 else full L p FB_R_SOF2).
  intros Hen Hdirty Hd. rewrite Hen. cbn [negb].
  destruct (Z.eqb_spec (pvr_test_framebuffer p src) 0); [contradiction |].
  destruct (pvr_framebuffer_size L p) as [w h].
  rewrite bind_modify.
  repeat match goal with
         | |- context [?a =? ?b] => destruct (Z.eqb_spec a b); [lia |]
         end.
  reflexivity.
Qed.

End Extraction.

(** X6: [pvr_update_framebuffer] has three outcomes.  With the framebuffer
    disabled or the cookie still at the read address it returns 0 and
    leaves the device alone.  Enabled, dirty and at a supported depth it
    returns 1 after one [dc_push_pixels] with the size of
    [pvr_framebuffer_size], which it also records; registers, video
    memory and timing state stay as they were.  Enabled, dirty and at
    any other depth it stops the emulator. *)
Theorem update_framebuffer_outcome (L : layout) (p : pvr) :
  (nonzero (field L p FB_R_CTRL_fb_enable) = false
   \/ pvr_test_framebuffer p (read_source L p) = 0 ->
   pvr_update_framebuffer L p = Some (0, p, []))
  /\ (nonzero (field L p FB_R_CTRL_fb_enable) = true ->
      pvr_test_framebuffer p (read_source L p) <> 0 ->
      0 <= field L p FB_R_CTRL_fb_depth <= 3 ->
      exists q,
        pvr_update_framebuffer L p
        = Some (1, q, [dc_push_pixels (fst (pvr_framebuffer_size L p))
                                      (snd (pvr_framebuffer_size L p))])
        /\ (framebuffer_w q, framebuffer_h q) = pvr_framebuffer_size L p
        /\ reg q = reg p /\ vram q = vram p
        /\ current_line q = current_line p
        /\ got_startrender q = got_startrender p
        /\ line_clock q = line_clock p /\ line_timer q = line_timer p)
  /\ (nonzero (field L p FB_R_CTRL_fb_enable) = true ->
      pvr_test_framebuffer p (read_source L p) <> 0 ->
      field L p FB_R_CTRL_fb_depth < 0 \/ 3 < field L p FB_R_CTRL_fb_depth ->
      pvr_update_framebuffer L p = None).
Proof.
  split; [apply pvr_update_framebuffer_skips |].
  split; [apply pvr_update_framebuffer_extracts
         | apply pvr_update_framebuffer_stops].
Qed.

Lemma update_framebuffer_outcome_witness :
  pvr_update_framebuffer dc_layout pvr_zero = Some (0, pvr_zero, [])
  /\ exists q,
       pvr_update_framebuffer dc_layout
                              (fb_device 1 0 [0x00; 0xf8; 0xe0; 0x07])
       = Some (1, q, [dc_push_pixels 2 1]).
Proof.
  split.
  - apply (proj1 (update_framebuffer_outcome dc_layout pvr_zero)).
    left. reflexivity.
  - destruct (proj1 (proj2 (update_framebuffer_outcome dc_layout
                              (fb_device 1 0 [0x00; 0xf8; 0xe0; 0x07])))
                eq_refl ltac:(vm_compute; discriminate)
                ltac:(vm_compute; split; discriminate))
      as (q & Hq & _).
    exists q. exact Hq.
Defined.

(** ** The start-render trigger *)

Lemma mark_keeps_cookie (p : pvr) (a b : Z) :
  a mod 4 = b mod 4 ->
  load32 (vram p) (VRAM64 a) = PVR_FB_COOKIE ->
  load32 (vram (pvr_mark_framebuffer p b)) (VRAM64 a) = PVR_FB_COOKIE.
Proof.
  intros Hab Hc. unfold pvr_mark_framebuffer.
  destruct (nonzero (Z.land b 0x01000000)); [exact Hc |].
  cbn [vram set_vram]. unfold line_width, line_bpp, line_scale.
  cbn [fold_left].
  repeat (apply cookie_kept;
          [rewrite ?u32_add_mod4 by reflexivity; exact Hab |]).
  exact Hc.
Qed.

Lemma pvr_reg_write_STARTRENDER (L : layout) (p : pvr) (addr data mask : Z) :
  layout_ok L = true ->
  Z.shiftr addr 2 = reg_index L STARTRENDER ->
  pvr_reg_write L addr data mask p = STARTRENDER_write L data p.
Proof.
  intros Hok Haddr.
  unfold pvr_reg_write, pvr_reg_write_via, pvr_cb_write. cbv zeta.
  rewrite Haddr.
  rewrite !(index_neq L STARTRENDER) by (assumption || discriminate).
  rewrite Z.eqb_refl. reflexivity.
Qed.

Lemma STARTRENDER_write_zero (L : layout) (p : pvr) :
  STARTRENDER_write L 0 p = Some (tt, p, []).
Proof. reflexivity. Qed.

Lemma STARTRENDER_write_nonzero (L : layout) (p : pvr) (data : Z) :
  data <> 0 ->
  STARTRENDER_write L data p
  = Some (tt,
          set_got_startrender 1
            (pvr_mark_framebuffer
               (pvr_mark_framebuffer p (full L p FB_W_SOF1))
               (full L p FB_W_SOF2)),
          [ta_start_render]).
Proof.
  intros Hd. unfold STARTRENDER_write, nonzero.
  destruct (Z.eqb_spec data 0); [contradiction |]. cbn [negb].
  rewrite bind_emit, !bind_modify. unfold modify.
  assert (E : full L (pvr_mark_framebuffer p (full L p FB_W_SOF1)) FB_W_SOF2
              = full L p FB_W_SOF2).
  { pose proof (proj1 (pvr_mark_framebuffer_keeps p (full L p FB_W_SOF1)))
      as Hr.
    unfold full in *. now rewrite Hr. }
  rewrite E. reflexivity.
Qed.

(** X7: a write of zero to STARTRENDER does nothing.  Any other value makes
    the one call [ta_start_render], sets the frame-presented flag and
    leaves the registers alone; when both write targets lie outside the
    texture region at the same byte offset within a word, the dirty test
    is afterwards clean at both. *)
Theorem startrender_write (L : layout) (p : pvr) (addr data mask : Z)
        (Hok : layout_ok L = true)
        (Haddr : Z.shiftr addr 2 = reg_index L STARTRENDER) :
  (data = 0 -> pvr_reg_write L addr data mask p = Some (tt, p, []))
  /\ (data <> 0 ->
      exists q,
        pvr_reg_write L addr data mask p = Some (tt, q, [ta_start_render])
        /\ got_startrender q = 1
        /\ reg q = reg p /\ framebuffer q = framebuffer p
        /\ current_line q = current_line p /\ line_timer q = line_timer p
        /\ (Z.land (full L p FB_W_SOF1) 0x01000000 = 0 ->
            Z.land (full L p FB_W_SOF2) 0x01000000 = 0 ->
            full L p FB_W_SOF1 mod 4 = full L p FB_W_SOF2 mod 4 ->
            pvr_test_framebuffer q (full L p FB_W_SOF1) = 0
            /\ pvr_test_framebuffer q (full L p FB_W_SOF2) = 0)).
Proof.
  rewrite (pvr_reg_write_STARTRENDER L p addr data mask Hok Haddr). split.
  - intros ->. apply STARTRENDER_write_zero.
  - intros Hd. rewrite (STARTRENDER_write_nonzero L p data Hd).
    set (p1 := pvr_mark_framebuffer p (full L p FB_W_SOF1)).
    set (p2 := pvr_mark_framebuffer p1 (full L p FB_W_SOF2)).
    destruct (pvr_mark_framebuffer_keeps p (full L p FB_W_SOF1))
      as (Hr1 & Hf1 & Hl1 & _ & Ht1).
    destruct (pvr_mark_framebuffer_keeps p1 (full L p FB_W_SOF2))
      as (Hr2 & Hf2 & Hl2 & _ & Ht2).
    fold p1 in Hr1, Hf1, Hl1, Ht1. fold p2 in Hr2, Hf2, Hl2, Ht2.
    eexists. split; [reflexivity |].
    cbn [got_startrender reg framebuffer current_line line_timer
         set_got_startrender].
    split; [reflexivity |]. split; [congruence |]. split; [congruence |].
    split; [congruence |]. split; [congruence |].
    intros Ht1' Ht2' Hmod.
    split; apply pvr_test_framebuffer_clean; cbn [vram].
    + unfold p2. apply mark_keeps_cookie; [exact Hmod |].
      unfold p1. now apply pvr_mark_framebuffer_word.
    + unfold p2. now apply pvr_mark_framebuffer_word.
Qed.

Lemma startrender_write_witness :
  layout_ok dc_layout = true
  /\ Z.shiftr 0x00000014 2 = reg_index dc_layout STARTRENDER
  /\ exists q,
       pvr_reg_write dc_layout 0x00000014 1 0xffffffff pvr_zero
       = Some (tt, q, [ta_start_render])
       /\ got_startrender q = 1.
Proof.
  split; [reflexivity |]. split; [reflexivity |].
  destruct (proj2 (startrender_write dc_layout pvr_zero 0x00000014 1
                     0xffffffff eq_refl eq_refl) ltac:(discriminate))
    as (q & Hq & Hg & _).
  exists q. split; [exact Hq | exact Hg].
Defined.

(** ** Vblank-in *)

Section VblankIn.

Variable L : layout.
Hypothesis Hok : layout_ok L = true.

Lemma pvr_vblank_in_presented (p : pvr) :
  got_startrender p <> 0 ->
  pvr_vblank_in L p
  = Some (tt,
          set_field L SPG_STATUS_fieldnum (flipped L p) (set_got_startrender 0 p),
          [prof_counter_add 1;
           dc_vblank_in (field L p VO_CONTROL_blank_video)]).
Proof.
  intros Hg. unfold pvr_vblank_in. rewrite bind_emit, bind_get.
  unfold nonzero at 1. destruct (Z.eqb_spec (got_startrender p) 0);
    [contradiction |]. cbn [negb].
  rewrite bind_modify, bind_get.
  change (field L (set_got_startrender 0 p)) with (field L p).
  unfold flipped.
  destruct (nonzero (field L p SPG_CONTROL_interlace));
    rewrite bind_modify, bind_get; unfold emit;
    rewrite field_set_other by (assumption || discriminate); reflexivity.
Qed.

Lemma pvr_vblank_in_inv (p q : pvr) (a : unit) (c : list call) :
  pvr_vblank_in L p = Some (a, q, c) ->
  exists (r : Z) (p1 : pvr) (mid : list call),
    (if negb (nonzero (got_startrender p))
     then pvr_update_framebuffer L p = Some (r, p1, mid)
     else p1 = set_got_startrender 0 p /\ mid = [])
    /\ q = set_field L SPG_STATUS_fieldnum (flipped L p1) p1
    /\ c = [prof_counter_add 1] ++ mid
           ++ [dc_vblank_in (field L p1 VO_CONTROL_blank_video)].
Proof.
  unfold pvr_vblank_in. rewrite bind_emit, bind_get. intros H.
  destruct (bind _ _ p) as [[[u q'] c'] |] eqn:E; [| discriminate].
  injection H as _ <- <-.
  apply bind_inv in E. destruct E as (u1 & p1 & c1 & c2 & Hmid & E & ->).
  rewrite bind_get in E.
  assert (Hq : q' = set_field L SPG_STATUS_fieldnum (flipped L p1) p1
               /\ c2 = [dc_vblank_in (field L p1 VO_CONTROL_blank_video)]).
  { unfold flipped.
    destruct (nonzero (field L p1 SPG_CONTROL_interlace));
      rewrite bind_modify, bind_get in E; unfold emit in E;
      rewrite field_set_other in E by (assumption || discriminate);
      injection E as _ <- <-; split; reflexivity. }
  destruct Hq as [-> ->].
  destruct (negb (nonzero (got_startrender p))).
  - apply bind_inv in Hmid.
    destruct Hmid as (r & p2 & c3 & c4 & Hup & Hret & ->).
    injection Hret as _ <- <-. rewrite app_nil_r.
    exists r, p2, c3. repeat split. exact Hup.
  - injection Hmid as _ <- <-. exists 0, (set_got_startrender 0 p), [].
    repeat split.
Qed.

Lemma pvr_vblank_in_skipped (p : pvr) :
  got_startrender p = 0 ->
  pvr_update_framebuffer L p = Some (0, p, []) ->
  pvr_vblank_in L p
  = Some (tt, set_field L SPG_STATUS_fieldnum (flipped L p) p,
          [prof_counter_add 1;
           dc_vblank_in (field L p VO_CONTROL_blank_video)]).
Proof.
  intros Hg Hup. unfold pvr_vblank_in. rewrite bind_emit, bind_get.
  rewrite Hg. cbn [nonzero Z.eqb negb].
  unfold bind at 1. unfold bind at 1. rewrite Hup. cbn [ret app].
  rewrite bind_get. unfold flipped.
  destruct (nonzero (field L p SPG_CONTROL_interlace));
    rewrite bind_modify, bind_get; unfold emit;
    rewrite field_set_other by (assumption || discriminate); reflexivity.
Qed.

Lemma pvr_vblank_in_mid (p q : pvr) (a : unit) (c : list call) :
  pvr_vblank_in L p = Some (a, q, c) ->
  exists (p1 : pvr) (mid : list call),
    q = set_field L SPG_STATUS_fieldnum (flipped L p) p1
    /\ c = [prof_counter_add 1] ++ mid
           ++ [dc_vblank_in (field L p VO_CONTROL_blank_video)]
    /\ reg p1 = reg p /\ vram p1 = vram p /\ got_startrender p1 = 0
    /\ (mid = [] \/ exists w h, mid = [dc_push_pixels w h])
    /\ (got_startrender p <> 0 ->
        mid = [] /\ framebuffer p1 = framebuffer p).
Proof.
  intros Hrun. apply pvr_vblank_in_inv in Hrun.
  destruct Hrun as (r & p1 & mid & Hmid & -> & ->).
  assert (H1 : reg p1 = reg p /\ vram p1 = vram p /\ got_startrender p1 = 0
               /\ (mid = [] \/ exists w h, mid = [dc_push_pixels w h])
               /\ (got_startrender p <> 0 ->
                   mid = [] /\ framebuffer p1 = framebuffer p)).
  { unfold nonzero in Hmid at 1.
    destruct (Z.eqb_spec (got_startrender p) 0) as [Hg | Hg]; cbn [negb] in Hmid.
    - pose proof (pvr_update_framebuffer_frame L p p1 r mid Hmid)
        as (Hr & Hv & _ & Hg1 & _).
      split; [exact Hr |]. split; [exact Hv |]. split; [congruence |].
      split; [| intros; contradiction].
      destruct (nonzero (field L p FB_R_CTRL_fb_enable)) eqn:Hen.
      + destruct (Z.eq_dec (pvr_test_framebuffer p (read_source L p)) 0)
          as [Hc | Hd].
        * rewrite (pvr_update_framebuffer_skips L p (or_intror Hc)) in Hmid.
          injection Hmid as _ _ <-. now left.
        * right.
          pose proof (field_range L Hok p FB_R_CTRL_fb_depth) as Hdr.
          destruct (Z_le_gt_dec (field L p FB_R_CTRL_fb_depth) 3) as [Hd3 | Hd3].
          -- destruct (pvr_update_framebuffer_extracts L p Hen Hd ltac:(lia))
               as (q' & Hq' & _).
             rewrite Hq' in Hmid. injection Hmid as _ _ <-. eauto.
          -- rewrite (pvr_update_framebuffer_stops L p Hen Hd ltac:(lia))
               in Hmid.
             discriminate.
      + rewrite (pvr_update_framebuffer_skips L p (or_introl Hen)) in Hmid.
        injection Hmid as _ _ <-. now left.
    - destruct Hmid as [-> ->]. repeat split. now left. }
  destruct H1 as (Hr1 & Hv1 & Hg1 & Hshape & Hpres).
  assert (Hfl : flipped L p1 = flipped L p)
    by (unfold flipped, field; now rewrite Hr1).
  assert (Hbv : field L p1 VO_CONTROL_blank_video
                = field L p VO_CONTROL_blank_video)
    by (unfold field; now rewrite Hr1).
  exists p1, mid. rewrite Hfl, Hbv. repeat split; try assumption.
  - apply Hpres. assumption.
  - apply Hpres. assumption.
Qed.

End VblankIn.

(** X8: whenever [pvr_vblank_in] completes, the frame-presented flag is
    clear afterwards; [fieldnum] is flipped in interlaced mode and 0
    otherwise, no other field of any register changes and video memory
    is untouched; the calls are [prof_counter_add], then at most one
    [dc_push_pixels], then [dc_vblank_in] with the [blank_video] flag.
    If the flag was set beforehand nothing is extracted: no
    [dc_push_pixels], and the output buffer is as it was. *)
Theorem vblank_in_effect (L : layout) (p q : pvr) (a : unit) (c : list call)
        (Hok : layout_ok L = true)
        (Hrun : pvr_vblank_in L p = Some (a, q, c)) :
  got_startrender q = 0
  /\ field L q SPG_STATUS_fieldnum
     = (if nonzero (field L p SPG_CONTROL_interlace)
        then b2i (negb (nonzero (field L p SPG_STATUS_fieldnum)))
        else 0)
  /\ (forall f, f <> SPG_STATUS_fieldnum -> field L q f = field L p f)
  /\ vram q = vram p
  /\ (exists mid,
        c = [prof_counter_add 1] ++ mid
            ++ [dc_vblank_in (field L p VO_CONTROL_blank_video)]
        /\ (mid = [] \/ exists w h, mid = [dc_push_pixels w h])
        /\ (got_startrender p <> 0 ->
            mid = [] /\ framebuffer q = framebuffer p)).
Proof.
  apply (pvr_vblank_in_mid L Hok) in Hrun.
  destruct Hrun as (p1 & mid & -> & -> & Hr1 & Hv1 & Hg1 & Hshape & Hpres).
  assert (Hf : forall f, field L p1 f = field L p f)
    by (intros f; unfold field; now rewrite Hr1).
  split; [exact Hg1 |]. split; [| split; [| split]].
  - rewrite field_set_same by exact Hok. unfold flipped.
    destruct (field_shape L Hok SPG_STATUS_fieldnum) as (_ & Hlen & _).
    apply Z.mod_small.
    pose proof (Z.pow_le_mono_r 2 1 (field_len L SPG_STATUS_fieldnum)
                  ltac:(lia) ltac:(lia)) as Hpow.
    change (2 ^ 1) with 2 in Hpow.
    destruct (nonzero (field L p SPG_CONTROL_interlace));
      [destruct (negb (nonzero (field L p SPG_STATUS_fieldnum))) |];
      cbn [b2i]; lia.
  - intros f Hne. rewrite field_set_other by (assumption || congruence).
    apply Hf.
  - exact Hv1.
  - exists mid. split; [reflexivity |]. split; [exact Hshape |].
    exact Hpres.
Qed.

Lemma vblank_in_effect_witness :
  layout_ok dc_layout = true
  /\ match pvr_vblank_in dc_layout (spg_device 10 20 10) with
     | Some (_, q, c) =>
         got_startrender q = 0
         /\ c = [prof_counter_add 1] ++ [] ++ [dc_vblank_in 0]
     | None => False
     end.
Proof.
  split; [reflexivity |].
  destruct (pvr_vblank_in dc_layout (spg_device 10 20 10))
    as [[[a q] c] |] eqn:E.
  - destruct (vblank_in_effect dc_layout (spg_device 10 20 10) q a c
                eq_refl E) as (Hg & _ & _ & _ & (mid & Hc & _ & Hpres)).
    split; [exact Hg |].
    destruct (Hpres ltac:(cbn; discriminate)) as [-> _]. exact Hc.
  - vm_compute in E. discriminate E.
Defined.

(** X9: a frame that went through STARTRENDER and was not written to
    afterwards is never extracted.  In non-interlaced mode, with the
    display reading where the renderer writes, the vblank that follows
    the trigger consumes the frame-presented flag and the one after it
    finds the cookie: neither calls [dc_push_pixels], and the output
    buffer is as it was. *)
Theorem rendered_frame_not_extracted (L : layout) (p : pvr) (data : Z)
        (Hok : layout_ok L = true)
        (Hdata : data <> 0)
        (Hil : field L p SPG_CONTROL_interlace = 0)
        (Hsrc : full L p FB_R_SOF1 = full L p FB_W_SOF1)
        (Htex : Z.land (full L p FB_W_SOF1) 0x01000000 = 0)
        (Hmod : full L p FB_W_SOF1 mod 4 = full L p FB_W_SOF2 mod 4) :
  exists q,
    (STARTRENDER_write L data ;; pvr_vblank_in L ;; pvr_vblank_in L) p
    = Some (tt, q,
            [ta_start_render;
             prof_counter_add 1;
             dc_vblank_in (field L p VO_CONTROL_blank_video);
             prof_counter_add 1;
             dc_vblank_in (field L p VO_CONTROL_blank_video)])
    /\ framebuffer q = framebuffer p
    /\ got_startrender q = 0.
Proof.
  set (m1 := pvr_mark_framebuffer p (full L p FB_W_SOF1)).
  set (m2 := pvr_mark_framebuffer m1 (full L p FB_W_SOF2)).
  set (p1 := set_got_startrender 1 m2).
  assert (Hr1 : reg p1 = reg p).
  { unfold p1, m2, m1. cbn [reg set_got_startrender].
    rewrite (proj1 (pvr_mark_framebuffer_keeps _ _)).
    apply (pvr_mark_framebuffer_keeps p). }
  assert (Hfb1 : framebuffer p1 = framebuffer p).
  { unfold p1, m2, m1. cbn [framebuffer set_got_startrender].
    rewrite (proj1 (proj2 (pvr_mark_framebuffer_keeps _ _))).
    apply (pvr_mark_framebuffer_keeps p). }
  assert (Hf1 : forall f, field L p1 f = field L p f)
    by (intros f; unfold field; now rewrite Hr1).
  assert (Hstart : STARTRENDER_write L data p = Some (tt, p1, [ta_start_render])).
  { exact (STARTRENDER_write_nonzero L p data Hdata). }
  assert (Hcookie : load32 (vram p1) (VRAM64 (full L p FB_W_SOF1))
                    = PVR_FB_COOKIE).
  { unfold p1, m2. cbn [vram set_got_startrender].
    apply mark_keeps_cookie; [exact Hmod |].
    unfold m1. now apply pvr_mark_framebuffer_word. }
  (* the vblank after the trigger *)
  assert (Hfl1 : flipped L p1 = 0) by (unfold flipped; now rewrite Hf1, Hil).
  pose proof (pvr_vblank_in_presented L Hok p1 ltac:(cbn; discriminate)) as Hv1.
  rewrite Hfl1, Hf1 in Hv1.
  set (p2 := set_field L SPG_STATUS_fieldnum 0 (set_got_startrender 0 p1))
    in *.
  assert (Hfn2 : field L p2 SPG_STATUS_fieldnum = 0).
  { unfold p2. rewrite field_set_same by exact Hok.
    apply Z.mod_0_l. apply Z.pow_nonzero; [lia |].
    destruct (field_shape L Hok SPG_STATUS_fieldnum); lia. }
  assert (Hf2 : forall f, f <> SPG_STATUS_fieldnum ->
                          field L p2 f = field L p f).
  { intros f Hf. unfold p2.
    rewrite field_set_other by (assumption || congruence).
    change (field L (set_got_startrender 0 p1) f) with (field L p1 f).
    apply Hf1. }
  assert (Hsof : full L p2 FB_R_SOF1 = full L p FB_W_SOF1).
  { rewrite <- Hsrc. unfold full, p2.
    rewrite reg_set_field_other.
    - cbn [reg set_got_startrender]. now rewrite Hr1.
    - cbn [field_reg]. intros E. apply (reg_index_inj L Hok) in E.
      discriminate E. }
  (* the next one *)
  assert (Hup : pvr_update_framebuffer L p2 = Some (0, p2, [])).
  { apply pvr_update_framebuffer_skips. right.
    apply pvr_test_framebuffer_clean.
    unfold read_source. rewrite Hfn2. cbn [Z.eqb]. rewrite Hsof.
    exact Hcookie. }
  pose proof (pvr_vblank_in_skipped L Hok p2 eq_refl Hup) as Hv2.
  assert (Hfl2 : flipped L p2 = 0).
  { unfold flipped. rewrite (Hf2 SPG_CONTROL_interlace) by discriminate.
    now rewrite Hil. }
  rewrite Hfl2, (Hf2 VO_CONTROL_blank_video) in Hv2 by discriminate.
  eexists. split.
  - unfold bind. rewrite Hstart, Hv1, Hv2. reflexivity.
  - split; [exact Hfb1 | reflexivity].
Qed.

Lemma rendered_frame_not_extracted_witness :
  layout_ok dc_layout = true /\ 1 <> 0
  /\ field dc_layout (fb_device 1 0 [1; 2; 3; 4]) SPG_CONTROL_interlace = 0
  /\ exists q,
       (STARTRENDER_write dc_layout 1 ;; pvr_vblank_in dc_layout ;;
        pvr_vblank_in dc_layout) (fb_device 1 0 [1; 2; 3; 4])
       = Some (tt, q,
               [ta_start_render; prof_counter_add 1; dc_vblank_in 0;
                prof_counter_add 1; dc_vblank_in 0]).
Proof.
  split; [reflexivity |]. split; [discriminate |]. split; [reflexivity |].
  destruct (rendered_frame_not_extracted dc_layout
              (fb_device 1 0 [1; 2; 3; 4]) 1 eq_refl ltac:(discriminate)
              eq_refl eq_refl eq_refl eq_refl) as (q & Hq & _).
  exists q. exact Hq.
Defined.

(** ** The conversion loops *)

Section LoopRelation.

Variable S : Type.
Variable R : S -> S -> Z -> Prop.
Hypothesis R_refl : forall s, R s s 0.
Hypothesis R_trans :
  forall a b c n m, 0 <= n -> 0 <= m -> R a b n -> R b c m -> R a c (n + m).

Variable body : Z -> S -> S.
Variables delta bound step : Z.
Hypothesis Hstep : 1 <= step.
Hypothesis Hmax : bound + step <= 2 ^ 31.
Hypothesis Hdelta : 0 <= delta.
Hypothesis Hbody : forall i s, R s (body i s) delta.

Lemma rounds_left_nonneg (i : Z) : 0 <= rounds_left bound step i.
Proof.
  unfold rounds_left. destruct (Z.ltb_spec i bound); [| lia].
  apply Z.div_pos; lia.
Qed.

Lemma rounds_left_step (i : Z) :
  i < bound -> rounds_left bound step i = 1 + rounds_left bound step (i + step).
Proof.
  intros Hi. unfold rounds_left.
  destruct (Z.ltb_spec i bound); [| lia].
  destruct (Z.ltb_spec (i + step) bound).
  - replace (bound - i + step - 1)
      with (bound - (i + step) + step - 1 + 1 * step) by lia.
    rewrite Z.div_add by lia. lia.
  - assert (E : (bound - i + step - 1) / step = 1); [| lia].
    symmetry. apply (Z.div_unique _ _ 1 (bound - i - 1)); lia.
Qed.

Lemma for_loop_rel (fuel : nat) :
  forall (i : Z) (s : S),
    0 <= i -> (Z.to_nat (bound - i) <= fuel)%nat ->
    R s (for_loop fuel i bound step body s) (delta * rounds_left bound step i).
Proof.
  induction fuel as [| fuel IH]; intros i s Hi Hfuel.
  - cbn [for_loop]. unfold rounds_left.
    destruct (Z.ltb_spec i bound); [lia |].
    rewrite Z.mul_0_r. apply R_refl.
  - cbn [for_loop]. destruct (Z.ltb_spec i bound) as [Hlt | Hge].
    + rewrite int32_small by lia.
      rewrite (rounds_left_step i Hlt), Z.mul_add_distr_l, Z.mul_1_r.
      pose proof (rounds_left_nonneg (i + step)).
      apply R_trans with (body i s); [lia | nia | apply Hbody |].
      apply IH; lia.
    + unfold rounds_left. destruct (Z.ltb_spec i bound); [lia |].
      rewrite Z.mul_0_r. apply R_refl.
Qed.

Lemma for_range_rel (s : S) :
  R s (for_range bound step body s) (delta * iterations bound step).
Proof.
  unfold for_range.
  replace (iterations bound step) with (rounds_left bound step 0).
  - apply for_loop_rel; lia.
  - unfold rounds_left, iterations.
    destruct (Z.ltb_spec 0 bound), (Z.leb_spec bound 0); try lia.
    now rewrite Z.sub_0_r.
Qed.

End LoopRelation.

Lemma iterations_nonneg (bound step : Z) :
  1 <= step -> 0 <= iterations bound step.
Proof.
  intros Hs. unfold iterations. destruct (Z.leb_spec bound 0); [lia |].
  apply Z.div_pos; lia.
Qed.

Lemma iterations_1 (bound : Z) : 0 <= bound -> iterations bound 1 = bound.
Proof.
  intros Hb. unfold iterations. destruct (Z.leb_spec bound 0); [lia |].
  replace (bound + 1 - 1) with bound by lia. apply Z.div_1_r.
Qed.

Lemma wrote_refl (c : cursor) : wrote c c 0.
Proof. split; [lia | reflexivity]. Qed.

Lemma wrote_trans (a b c : cursor) (n m : Z) :
  0 <= n -> 0 <= m -> wrote a b n -> wrote b c m -> wrote a c (n + m).
Proof.
  intros Hn Hm [Hd1 Ho1] [Hd2 Ho2]. split; [lia |].
  intros i Hi. rewrite Ho2 by lia. apply Ho1. lia.
Qed.

Lemma wrote_field_add (n d : Z) (c : cursor) : wrote c (field_add n d c) 0.
Proof.
  unfold field_add. destruct (n =? 0); split; cbn [dst out]; (lia || reflexivity).
Qed.

Lemma wrote_put_pixel (rgb : Z * Z * Z) (c : cursor) :
  wrote c (put_pixel rgb c) 1.
Proof.
  destruct rgb as [[r g] b]. unfold put_pixel. split; cbn [dst out]; [lia |].
  intros i Hi. unfold store8, upd.
  repeat match goal with
         | |- context [?x =? ?y] => destruct (Z.eqb_spec x y); [lia |]
         end.
  reflexivity.
Qed.

Lemma convert_wrote (src : mem) (y_size num_fields x_size line_mod bpp : Z)
      (texel : mem -> Z -> Z * Z * Z) (c : cursor) :
  1 <= bpp -> 0 <= x_size -> x_size + bpp <= 2 ^ 31 ->
  0 <= num_fields -> num_fields + 1 <= 2 ^ 31 ->
  0 <= y_size -> y_size + 1 <= 2 ^ 31 ->
  wrote c (convert src y_size num_fields x_size line_mod bpp texel c)
        (iterations x_size bpp * num_fields * y_size).
Proof.
  intros Hbpp Hx Hxm Hn Hnm Hy Hym.
  pose proof (iterations_nonneg x_size bpp Hbpp) as Hit.
  unfold convert.
  replace (iterations x_size bpp * num_fields * y_size)
    with (iterations x_size bpp * num_fields * iterations y_size 1)
    by (now rewrite iterations_1).
  apply (for_range_rel cursor wrote wrote_refl wrote_trans);
    [lia | lia | nia |].
  intros _ c1.
  replace (iterations x_size bpp * num_fields)
    with (iterations x_size bpp * iterations num_fields 1)
    by (now rewrite iterations_1).
  apply (for_range_rel cursor wrote wrote_refl wrote_trans);
    [lia | lia | lia |].
  intros n c2.
  rewrite <- (Z.add_0_r (iterations x_size bpp)).
  apply wrote_trans with
    (for_range x_size bpp
       (fun _ c0 => field_add n bpp
                      (put_pixel (texel src (VRAM64 (field_at c0 n))) c0)) c2);
    [lia | lia | | apply wrote_field_add].
  rewrite <- (Z.mul_1_l (iterations x_size bpp)).
  apply (for_range_rel cursor wrote wrote_refl wrote_trans);
    [lia | lia | lia |].
  intros _ c3.
  rewrite <- (Z.add_0_r 1).
  apply wrote_trans with (put_pixel (texel src (VRAM64 (field_at c3 n))) c3);
    [lia | lia | apply wrote_put_pixel | apply wrote_field_add].
Qed.

(** With [x + 1] words per line the loops convert this many pixels per
    line: the width [pvr_framebuffer_size] reports at 16 and 32 bits,
    and at 24 bits the width rounded up instead of down. *)
Lemma pixels_per_line_width (L : layout) (p : pvr) :
  layout_ok L = true ->
  (field L p FB_R_CTRL_fb_depth <> 2 ->
   pixels_per_line L p = fst (pvr_framebuffer_size L p))
  /\ (field L p FB_R_CTRL_fb_depth = 2 ->
      fst (pvr_framebuffer_size L p) <= pixels_per_line L p
      <= fst (pvr_framebuffer_size L p) + 1).
Proof.
  intros Hok.
  pose proof (field_range16 L Hok p FB_R_SIZE_x) as Hx.
  change (2 ^ 16) with 65536 in Hx.
  unfold pixels_per_line, pvr_framebuffer_size, iterations.
  cbv zeta. cbn [fst].
  set (x := field L p FB_R_SIZE_x) in *.
  rewrite (int32_small (x + 1)) by lia.
  destruct (Z.leb_spec (4 * (x + 1)) 0); [lia |].
  split.
  - intros Hd.
    destruct ((field L p FB_R_CTRL_fb_depth =? 0)
              || (field L p FB_R_CTRL_fb_depth =? 1)).
    + rewrite int32_small by lia.
      symmetry. apply (Z.div_unique _ _ _ 1); lia.
    + destruct (Z.eqb_spec (field L p FB_R_CTRL_fb_depth) 2); [contradiction |].
      symmetry. apply (Z.div_unique _ _ _ 3); lia.
  - intros ->. cbn [Z.eqb Pos.eqb orb].
    rewrite (int32_small ((x + 1) * 4)) by lia.
    rewrite Z.quot_div_nonneg by lia.
    pose proof (Z.div_mod ((x + 1) * 4) 3 ltac:(lia)).
    pose proof (Z.mod_pos_bound ((x + 1) * 4) 3 ltac:(lia)).
    pose proof (Z.div_mod (4 * (x + 1) + 3 - 1) 3 ltac:(lia)).
    pose proof (Z.mod_pos_bound (4 * (x + 1) + 3 - 1) 3 ltac:(lia)).
    assert (0 <= (x + 1) * 4 / 3 <= 131072).
    { split; [apply Z.div_pos | apply Z.div_le_upper_bound]; lia. }
    rewrite int32_small by lia. lia.
Qed.

(** X10: extraction writes the output buffer from its start and never past
    three bytes for each converted pixel: [pixels_per_line] times the
    framebuffer height.  At 16 and 32 bits per pixel that is exactly the
    width times height it hands to [dc_push_pixels]; at 24 bits a line
    can take one pixel more than the width. *)
Theorem extraction_stays_in_buffer (L : layout) (p q : pvr) (r : Z)
        (c : list call)
        (Hok : layout_ok L = true)
        (Hrun : pvr_update_framebuffer L p = Some (r, q, c)) :
  (forall i,
      i < 0
      \/ 3 * (pixels_per_line L p * snd (pvr_framebuffer_size L p)) <= i ->
      framebuffer q i = framebuffer p i)
  /\ (field L p FB_R_CTRL_fb_depth <> 2 ->
      pixels_per_line L p = fst (pvr_framebuffer_size L p))
  /\ (field L p FB_R_CTRL_fb_depth = 2 ->
      fst (pvr_framebuffer_size L p) <= pixels_per_line L p
      <= fst (pvr_framebuffer_size L p) + 1).
Proof.
  split; [| apply pixels_per_line_width; exact Hok].
  pose proof (field_range16 L Hok p FB_R_SIZE_x) as Hx.
  pose proof (field_range16 L Hok p FB_R_SIZE_y) as Hy.
  change (2 ^ 16) with 65536 in Hx, Hy.
  revert Hrun. unfold pvr_update_framebuffer. rewrite bind_get.
  destruct (negb (nonzero (field L p FB_R_CTRL_fb_enable))).
  { intros H. injection H as _ <- _. reflexivity. }
  destruct (pvr_test_framebuffer p _ =? 0).
  { intros H. injection H as _ <- _. reflexivity. }
  assert (Hh : snd (pvr_framebuffer_size L p)
               = (if nonzero (field L p SPG_CONTROL_interlace) then 2 else 1)
                 * (field L p FB_R_SIZE_y + 1)).
  { unfold pvr_framebuffer_size. cbv zeta. cbn [snd].
    rewrite (int32_small (field L p FB_R_SIZE_y + 1)) by lia.
    destruct (nonzero (field L p SPG_CONTROL_interlace));
      [rewrite int32_small by lia |]; lia. }
  rewrite Hh. clear Hh.
  destruct (pvr_framebuffer_size L p) as [w h].
  rewrite bind_modify.
  rewrite (int32_small (field L p FB_R_SIZE_x + 1)) by lia.
  rewrite (int32_small (field L p FB_R_SIZE_y + 1)) by lia.
  rewrite Z.shiftl_mul_pow2 by lia.
  rewrite (int32_small ((field L p FB_R_SIZE_x + 1) * 2 ^ 2)) by lia.
  replace ((field L p FB_R_SIZE_x + 1) * 2 ^ 2)
    with (4 * (field L p FB_R_SIZE_x + 1)) by lia.
  set (x_size := 4 * (field L p FB_R_SIZE_x + 1)).
  set (y_size := field L p FB_R_SIZE_y + 1).
  set (nf := if nonzero (field L p SPG_CONTROL_interlace) then 2 else 1).
  assert (Hnf : 0 <= nf <= 2)
    by (unfold nf; destruct (nonzero _); lia).
  set (c0 := mkCursor (full L p FB_R_SOF1) (full L p FB_R_SOF2) 0
                      (framebuffer p)).
  unfold pixels_per_line. cbv zeta. fold x_size.
  assert (Hw : forall bpp texel line_mod,
             1 <= bpp <= 4 ->
             forall i, i < 0 \/ 3 * (iterations x_size bpp * (nf * y_size)) <= i ->
             out (convert (vram p) y_size nf x_size line_mod bpp texel c0) i
             = framebuffer p i).
  { intros bpp texel line_mod Hbpp i Hi.
    destruct (convert_wrote (vram p) y_size nf x_size line_mod bpp texel c0)
      as [Hd Ho]; try (unfold x_size, y_size; lia).
    apply Ho. rewrite Hd. cbn [dst c0].
    replace (iterations x_size bpp * nf * y_size)
      with (iterations x_size bpp * (nf * y_size)) by lia.
    lia. }
  intros Hrun.
  apply bind_inv in Hrun. destruct Hrun as (cur & p1 & c1 & c2 & Hsw & H & _).
  rewrite bind_modify in H. unfold bind, emit, ret in H.
  injection H as _ <- _. cbn [framebuffer set_framebuffer].
  destruct (Z.eqb_spec (field L p FB_R_CTRL_fb_depth) 0) as [Hd0 | Hd0].
  { injection Hsw as <- _ _. cbn [orb]. apply Hw. lia. }
  destruct (Z.eqb_spec (field L p FB_R_CTRL_fb_depth) 1) as [Hd1 | Hd1].
  { injection Hsw as <- _ _. cbn [orb]. apply Hw. lia. }
  destruct (Z.eqb_spec (field L p FB_R_CTRL_fb_depth) 2) as [Hd2 | Hd2].
  { injection Hsw as <- _ _. cbn [orb]. apply Hw. lia. }
  destruct (Z.eqb_spec (field L p FB_R_CTRL_fb_depth) 3) as [Hd3 | Hd3].
  { injection Hsw as <- _ _. cbn [orb]. apply Hw. lia. }
  discriminate Hsw.
Qed.

Lemma extraction_stays_in_buffer_witness :
  layout_ok dc_layout = true
  /\ match pvr_update_framebuffer dc_layout
                                  (fb_device 1 0 [0x00; 0xf8; 0xe0; 0x07]) with
     | Some (_, q, _) =>
         forall i, i < 0 \/ 6 <= i -> framebuffer q i = Byte.x00
     | None => False
     end.
Proof.
  split; [reflexivity |].
  destruct (pvr_update_framebuffer dc_layout
              (fb_device 1 0 [0x00; 0xf8; 0xe0; 0x07]))
    as [[[r q] c] |] eqn:E.
  - exact (proj1 (extraction_stays_in_buffer dc_layout _ q r c eq_refl E)).
  - vm_compute in E. discriminate E.
Defined.

(** ** What one tick calls and leaves behind *)

Section TickCalls.

Variable L : layout.
Hypothesis Hok : layout_ok L = true.

Lemma pvr_next_scanline_inv (p q : pvr) (a : unit) (c : list call) :
  pvr_next_scanline L p = Some (a, q, c) ->
  let line := next_line L p in
  let p4 := set_field L SPG_STATUS_scanline line
              (set_field L SPG_STATUS_vsync (b2i (vsync_at L p line))
                 (set_current_line line p)) in
  exists (p5 : pvr) (edge : list call),
    (field L p SPG_HBLANK_INT_hblank_int_mode = 0
     \/ field L p SPG_HBLANK_INT_hblank_int_mode = 2)
    /\ (if negb (nonzero (field L p SPG_STATUS_vsync)) && vsync_at L p line
        then pvr_vblank_in L p4 = Some (tt, p5, edge)
        else p5 = p4
             /\ edge = (if nonzero (field L p SPG_STATUS_vsync)
                           && negb (vsync_at L p line)
                        then [dc_vblank_out] else []))
    /\ q = set_line_timer (Some (line_clock p5)) p5
    /\ c = raised L p line ++ edge ++ [sched_start_timer (line_clock p5)].
Proof.
  intros H line p4. unfold pvr_next_scanline in H.
  rewrite bind_get, bind_modify, bind_get in H.
  fold (next_line L p) in H. fold line in H.
  set (p0 := set_current_line line p) in *.
  assert (Hf0 : forall f, field L p0 f = field L p f) by reflexivity.
  apply bind_inv in H. destruct H as (u1 & p1 & c1 & c1' & Hh & H & ->).
  change (current_line p0) with line in *. rewrite !Hf0 in *.
  assert (Hh' : p1 = p0
                /\ c1 = (if field L p SPG_HBLANK_INT_hblank_int_mode =? 0
                         then if line =? field L p SPG_HBLANK_INT_line_comp_val
                              then [holly_raise_interrupt HOLLY_INT_PCHIINT]
                              else []
                         else [holly_raise_interrupt HOLLY_INT_PCHIINT])
                /\ (field L p SPG_HBLANK_INT_hblank_int_mode = 0
                    \/ field L p SPG_HBLANK_INT_hblank_int_mode = 2)).
  { destruct (Z.eqb_spec (field L p SPG_HBLANK_INT_hblank_int_mode) 0).
    - rewrite when_emit in Hh. injection Hh as _ <- <-. tauto.
    - destruct (Z.eqb_spec (field L p SPG_HBLANK_INT_hblank_int_mode) 2).
      + apply emit_inv in Hh. destruct Hh as [-> ->]. tauto.
      + discriminate Hh. }
  destruct Hh' as (-> & -> & Hmode). clear Hh.
  apply bind_inv in H. destruct H as (u2 & p2 & c2 & c2' & Hw & H & ->).
  rewrite when_emit in Hw. injection Hw as _ <- <-.
  apply bind_inv in H. destruct H as (u3 & p3 & c3 & c3' & Hw & H & ->).
  rewrite when_emit in Hw. injection Hw as _ <- <-.
  rewrite !bind_modify, bind_get in H.
  change (if field L p SPG_VBLANK_vbstart <? field L p SPG_VBLANK_vbend
          then (field L p SPG_VBLANK_vbstart <=? line)
               && (line <? field L p SPG_VBLANK_vbend)
          else (field L p SPG_VBLANK_vbstart <=? line)
               || (line <? field L p SPG_VBLANK_vbend))
    with (vsync_at L p line) in H.
  fold p4 in H.
  assert (Hv4 : field L p4 SPG_STATUS_vsync = b2i (vsync_at L p line)).
  { unfold p4. rewrite field_set_other by (assumption || discriminate).
    now apply field_set_bit. }
  rewrite Hv4, nonzero_b2i in H.
  apply bind_inv in H. destruct H as (u5 & p5 & c5 & c5' & He & H & ->).
  rewrite bind_get in H.
  apply bind_inv in H. destruct H as (u6 & p6 & c6 & c6' & Ht & H & ->).
  apply emit_inv in Ht. destruct Ht as [-> ->].
  unfold modify in H. injection H as _ <- <-.
  exists p5, c5. split; [exact Hmode |]. split; [| split].
  - destruct (negb (nonzero (field L p SPG_STATUS_vsync))
              && vsync_at L p line).
    + destruct u5. exact He.
    + destruct (nonzero (field L p SPG_STATUS_vsync)
                && negb (vsync_at L p line));
        injection He as _ <- <-; split; reflexivity.
  - reflexivity.
  - unfold raised. rewrite app_nil_r, <- !app_assoc. reflexivity.
Qed.

Lemma pvr_next_scanline_edge (p q : pvr) (a : unit) (c : list call) :
  pvr_next_scanline L p = Some (a, q, c) ->
  exists (p5 : pvr) (edge : list call),
    q = set_line_timer (Some (line_clock p)) p5
    /\ c = raised L p (next_line L p) ++ edge
           ++ [sched_start_timer (line_clock p)]
    /\ forallb edge_call edge = true
    /\ vram p5 = vram p /\ line_clock p5 = line_clock p
    /\ current_line p5 = next_line L p
    /\ (forall f, f <> SPG_STATUS_vsync -> f <> SPG_STATUS_scanline ->
                  f <> SPG_STATUS_fieldnum -> field L p5 f = field L p f)
    /\ field L p5 SPG_STATUS_scanline
       = next_line L p mod 2 ^ field_len L SPG_STATUS_scanline.
Proof.
  intros H. apply pvr_next_scanline_inv in H. cbv zeta in H.
  set (line := next_line L p) in *.
  set (p4 := set_field L SPG_STATUS_scanline line
               (set_field L SPG_STATUS_vsync (b2i (vsync_at L p line))
                  (set_current_line line p))) in *.
  destruct H as (p5 & edge & _ & He & -> & ->).
  assert (Hf4 : forall f, f <> SPG_STATUS_vsync -> f <> SPG_STATUS_scanline ->
                          field L p4 f = field L p f).
  { intros f H1 H2. unfold p4.
    rewrite !field_set_other by (assumption || congruence). reflexivity. }
  assert (Hs4 : field L p4 SPG_STATUS_scanline
                = line mod 2 ^ field_len L SPG_STATUS_scanline).
  { unfold p4. now apply field_set_same. }
  assert (H5 : forallb edge_call edge = true
               /\ vram p5 = vram p /\ line_clock p5 = line_clock p
               /\ current_line p5 = line
               /\ (forall f, f <> SPG_STATUS_fieldnum ->
                             field L p5 f = field L p4 f)).
  { destruct (negb (nonzero (field L p SPG_STATUS_vsync)) && vsync_at L p line).
    - pose proof (pvr_vblank_in_frame L p4 p5 tt edge He) as (_ & Hl & Hc & _).
      pose proof (pvr_vblank_in_mid L Hok p4 p5 tt edge He)
        as (p1 & mid & Hq & -> & Hr & Hv & _ & Hmid & _).
      split; [| split; [| split; [exact Hc | split; [exact Hl |]]]].
      + destruct Hmid as [-> | (w & h & ->)]; reflexivity.
      + rewrite Hq. exact Hv.
      + intros f Hf. rewrite Hq.
        rewrite field_set_other by (assumption || congruence).
        unfold field. now rewrite Hr.
    - destruct He as [-> ->].
      split; [| repeat split].
      destruct (nonzero (field L p SPG_STATUS_vsync)
                && negb (vsync_at L p line)); reflexivity. }
  destruct H5 as (Hedge & Hv5 & Hc5 & Hl5 & Hf5).
  exists p5, edge. rewrite Hc5.
  split; [reflexivity |]. split; [reflexivity |]. split; [exact Hedge |].
  split; [exact Hv5 |]. split; [reflexivity |]. split; [exact Hl5 |]. split.
  - intros f H1 H2 H3. rewrite Hf5 by exact H3. now apply Hf4.
  - rewrite Hf5 by discriminate. exact Hs4.
Qed.

Lemma count_edge_calls (f : call -> bool) (edge : list call) :
  (forall e, edge_call e = true -> f e = false) ->
  forallb edge_call edge = true -> count f edge = 0.
Proof.
  intros Hf He. unfold count.
  induction edge as [| e t IH]; [reflexivity |].
  cbn [forallb] in He. apply andb_true_iff in He. destruct He as [He Ht].
  cbn [filter]. rewrite (Hf e He). now apply IH.
Qed.

End TickCalls.

(** X11: a tick raises the hblank interrupt on every line in mode 2 and on
    the line [line_comp_val] in mode 0, the vblank-in interrupt on the
    line [vblank_in_line_number] and the vblank-out interrupt on the
    line [vblank_out_line_number], each at most once and each judged by
    the line the tick arrives at; a tick that completes had mode 0
    or 2. *)
Theorem tick_interrupts (L : layout) (p q : pvr) (a : unit) (c : list call)
        (Hok : layout_ok L = true)
        (Hrun : pvr_next_scanline L p = Some (a, q, c)) :
  let line := current_line q in
  (field L p SPG_HBLANK_INT_hblank_int_mode = 0
   \/ field L p SPG_HBLANK_INT_hblank_int_mode = 2)
  /\ count (is_interrupt HOLLY_INT_PCHIINT) c
     = (if field L p SPG_HBLANK_INT_hblank_int_mode =? 2 then 1
        else b2i (line =? field L p SPG_HBLANK_INT_line_comp_val))
  /\ count (is_interrupt HOLLY_INT_PCVIINT) c
     = b2i (line =? field L p SPG_VBLANK_INT_vblank_in_line_number)
  /\ count (is_interrupt HOLLY_INT_PCVOINT) c
     = b2i (line =? field L p SPG_VBLANK_INT_vblank_out_line_number).
Proof.
  pose proof (pvr_next_scanline_inv L Hok p q a c Hrun) as Hinv.
  cbv zeta in Hinv. destruct Hinv as (_ & _ & Hmode & _).
  pose proof (pvr_next_scanline_edge L Hok p q a c Hrun)
    as (p5 & edge & -> & -> & Hedge & _ & _ & Hl & _).
  cbv zeta. cbn [current_line set_line_timer]. rewrite Hl.
  set (line := next_line L p).
  assert (He : forall i, count (is_interrupt i) edge = 0).
  { intros i. apply count_edge_calls; [| exact Hedge].
    intros e. destruct e, i; cbn; congruence. }
  split; [exact Hmode |].
  unfold raised. rewrite !count_app, !He.
  repeat split;
    destruct Hmode as [-> | ->]; cbn [Z.eqb Pos.eqb];
    repeat match goal with
           | |- context [if ?b then _ else _] => destruct b
           end; reflexivity.
Qed.

Lemma tick_interrupts_witness :
  layout_ok dc_layout = true
  /\ match pvr_next_scanline dc_layout (spg_device 10 20 524) with
     | Some (_, q, c) =>
         current_line q = 0
         /\ count (is_interrupt HOLLY_INT_PCVIINT) c = 1
     | None => False
     end.
Proof.
  split; [reflexivity |].
  destruct (pvr_next_scanline dc_layout (spg_device 10 20 524))
    as [[[a q] c] |] eqn:E.
  - destruct (tick_interrupts dc_layout _ q a c eq_refl E)
      as (_ & _ & Hvi & _).
    pose proof (pvr_next_scanline_spec dc_layout eq_refl _ q a c E)
      as (Hl & _).
    assert (Hl' : current_line q = 0) by (rewrite Hl; reflexivity).
    split; [exact Hl' |]. rewrite Hvi, Hl'. reflexivity.
  - vm_compute in E. discriminate E.
Defined.

(** X12: an hblank interrupt mode other than 0 and 2 stops the emulator at
    the next tick. *)
Theorem tick_unsupported_hblank_mode (L : layout) (p : pvr)
        (H0 : field L p SPG_HBLANK_INT_hblank_int_mode <> 0)
        (H2 : field L p SPG_HBLANK_INT_hblank_int_mode <> 2) :
  pvr_next_scanline L p = None.
Proof.
  unfold pvr_next_scanline. rewrite bind_get, bind_modify, bind_get.
  set (p0 := set_current_line _ p).
  change (field L p0 SPG_HBLANK_INT_hblank_int_mode)
    with (field L p SPG_HBLANK_INT_hblank_int_mode).
  destruct (Z.eqb_spec (field L p SPG_HBLANK_INT_hblank_int_mode) 0);
    [contradiction |].
  destruct (Z.eqb_spec (field L p SPG_HBLANK_INT_hblank_int_mode) 2);
    [contradiction |].
  reflexivity.
Qed.

Lemma tick_unsupported_hblank_mode_witness :
  let p := set_field dc_layout SPG_HBLANK_INT_hblank_int_mode 1
                     (spg_device 10 20 7) in
  field dc_layout p SPG_HBLANK_INT_hblank_int_mode <> 0
  /\ field dc_layout p SPG_HBLANK_INT_hblank_int_mode <> 2
  /\ pvr_next_scanline dc_layout p = None.
Proof.
  cbv zeta.
  assert (H0 : field dc_layout
                 (set_field dc_layout SPG_HBLANK_INT_hblank_int_mode 1
                            (spg_device 10 20 7))
                 SPG_HBLANK_INT_hblank_int_mode <> 0)
    by (vm_compute; discriminate).
  assert (H2 : field dc_layout
                 (set_field dc_layout SPG_HBLANK_INT_hblank_int_mode 1
                            (spg_device 10 20 7))
                 SPG_HBLANK_INT_hblank_int_mode <> 2)
    by (vm_compute; discriminate).
  split; [exact H0 |]. split; [exact H2 |].
  exact (tick_unsupported_hblank_mode dc_layout _ H0 H2).
Defined.

(** X13: every tick that completes arms the scanline timer again: one
    [sched_start_timer] with the current line clock as its last call, no
    [sched_cancel_timer], and the new handle kept in [line_timer]; the
    line clock and the video memory are as before. *)
Theorem tick_rearms_timer (L : layout) (p q : pvr) (a : unit) (c : list call)
        (Hok : layout_ok L = true)
        (Hrun : pvr_next_scanline L p = Some (a, q, c)) :
  count is_start_timer c = 1
  /\ count is_cancel_timer c = 0
  /\ (exists c', c = c' ++ [sched_start_timer (line_clock p)])
  /\ line_timer q = Some (line_clock p)
  /\ line_clock q = line_clock p
  /\ vram q = vram p.
Proof.
  pose proof (pvr_next_scanline_edge L Hok p q a c Hrun)
    as (p5 & edge & -> & -> & Hedge & Hv & Hc & _).
  assert (He : count is_start_timer edge = 0
               /\ count is_cancel_timer edge = 0).
  { split; (apply count_edge_calls; [| exact Hedge]);
      intros e; destruct e; cbn; congruence. }
  destruct He as [He1 He2].
  assert (Hr : count is_start_timer (raised L p (next_line L p)) = 0
               /\ count is_cancel_timer (raised L p (next_line L p)) = 0).
  { unfold raised. rewrite !count_app.
    split;
      repeat match goal with
             | |- context [if ?b then _ else _] => destruct b
             end; reflexivity. }
  destruct Hr as [Hr1 Hr2].
  rewrite !count_app, He1, He2, Hr1, Hr2.
  cbn [line_timer line_clock vram set_line_timer].
  split; [reflexivity |]. split; [reflexivity |]. split.
  - exists (raised L p (next_line L p) ++ edge). now rewrite app_assoc.
  - repeat split; assumption.
Qed.

Lemma tick_rearms_timer_witness :
  layout_ok dc_layout = true
  /\ match pvr_next_scanline dc_layout (spg_device 10 20 9) with
     | Some (_, q, c) => count is_start_timer c = 1 /\ line_timer q = Some 0
     | None => False
     end.
Proof.
  split; [reflexivity |].
  destruct (pvr_next_scanline dc_layout (spg_device 10 20 9))
    as [[[a q] c] |] eqn:E.
  - destruct (tick_rearms_timer dc_layout _ q a c eq_refl E)
      as (H1 & _ & _ & Ht & _).
    split; [exact H1 | exact Ht].
  - vm_compute in E. discriminate E.
Defined.

(** X14: after a tick the [scanline] field of SPG_STATUS shows the line
    counter, cut to the width of the field, and the tick has changed no
    register field other than [vsync], [scanline] and [fieldnum]. *)
Theorem tick_status_register (L : layout) (p q : pvr) (a : unit)
        (c : list call)
        (Hok : layout_ok L = true)
        (Hrun : pvr_next_scanline L p = Some (a, q, c)) :
  field L q SPG_STATUS_scanline
  = current_line q mod 2 ^ field_len L SPG_STATUS_scanline
  /\ (forall f, f <> SPG_STATUS_vsync -> f <> SPG_STATUS_scanline ->
                f <> SPG_STATUS_fieldnum -> field L q f = field L p f).
Proof.
  pose proof (pvr_next_scanline_edge L Hok p q a c Hrun)
    as (p5 & edge & -> & _ & _ & _ & _ & Hl & Hf & Hs).
  change (field L (set_line_timer (Some (line_clock p)) p5))
    with (field L p5).
  cbn [current_line set_line_timer]. rewrite Hl. split; assumption.
Qed.

Lemma tick_status_register_witness :
  layout_ok dc_layout = true
  /\ match pvr_next_scanline dc_layout (spg_device 10 20 9) with
     | Some (_, q, _) => field dc_layout q SPG_STATUS_scanline = 10
     | None => False
     end.
Proof.
  split; [reflexivity |].
  destruct (pvr_next_scanline dc_layout (spg_device 10 20 9))
    as [[[a q] c] |] eqn:E.
  - destruct (tick_status_register dc_layout _ q a c eq_refl E) as (Hs & _).
    pose proof (pvr_next_scanline_spec dc_layout eq_refl _ q a c E)
      as (Hl & _).
    rewrite Hs, Hl. reflexivity.
  - vm_compute in E. discriminate E.
Defined.

(** ** Reconfiguring the generator *)

Lemma spg_pixel_clock_range (L : layout) (p : pvr) :
  layout_ok L = true ->
  let pc := if nonzero (field L p FB_R_CTRL_vclk_div)
            then 27000000 else 13500000 in
  205 <= pc / (field L p SPG_LOAD_hcount + 1) <= 27000000.
Proof.
  intros Hok pc.
  pose proof (field_range16 L Hok p SPG_LOAD_hcount) as Hh.
  change (2 ^ 16) with 65536 in Hh.
  assert (Hpc : 13500000 <= pc <= 27000000)
    by (unfold pc; destruct (nonzero _); lia).
  split.
  - apply Z.div_le_lower_bound; lia.
  - apply Z.div_le_upper_bound; nia.
Qed.

Lemma spg_line_clock_range (L : layout) (p : pvr) :
  layout_ok L = true -> 205 <= spg_line_clock L p <= 54000000.
Proof.
  intros Hok. pose proof (spg_pixel_clock_range L p Hok) as Hq.
  cbv zeta in Hq. unfold spg_line_clock.
  destruct (nonzero (field L p SPG_CONTROL_interlace)); lia.
Qed.

Lemma pvr_reconfigure_spg_run (L : layout) (p : pvr) :
  layout_ok L = true ->
  pvr_reconfigure_spg L p
  = Some (tt,
          set_line_timer (Some (spg_line_clock L p))
            (set_line_clock (spg_line_clock L p) p),
          (match line_timer p with
           | Some _ => [sched_cancel_timer]
           | None => []
           end) ++ [sched_start_timer (spg_line_clock L p)]).
Proof.
  intros Hok.
  pose proof (field_range16 L Hok p SPG_LOAD_hcount) as Hh.
  change (2 ^ 16) with 65536 in Hh.
  pose proof (spg_pixel_clock_range L p Hok) as Hq. cbv zeta in Hq.
  pose proof (spg_line_clock_range L p Hok) as Hclock.
  set (clock := spg_line_clock L p) in *.
  set (pc := if nonzero (field L p FB_R_CTRL_vclk_div)
             then 27000000 else 13500000) in *.
  assert (Hpc : 13500000 <= pc <= 27000000)
    by (unfold pc; destruct (nonzero _); lia).
  unfold pvr_reconfigure_spg. rewrite bind_get. cbv zeta.
  assert (Epc : (if nonzero (field L p FB_R_CTRL_vclk_div)
                 then int32 (13500000 * 2) else 13500000) = pc).
  { unfold pc. destruct (nonzero _); reflexivity. }
  rewrite Epc, bind_modify.
  rewrite Z.quot_div_nonneg by lia.
  rewrite (int32_small (pc / _)) by lia.
  set (p1 := set_line_clock (pc / (field L p SPG_LOAD_hcount + 1)) p).
  assert (E2 : forall k : unit -> M unit,
             bind (when (nonzero (field L p SPG_CONTROL_interlace))
                        (modify (fun p => set_line_clock
                                            (int32 (line_clock p * 2)) p)))
                  k p1
             = k tt (set_line_clock clock p)).
  { intros k. unfold clock, spg_line_clock in *. fold pc in Hclock |- *.
    destruct (nonzero (field L p SPG_CONTROL_interlace)); cbn [when].
    - rewrite bind_modify. cbn [line_clock p1 set_line_clock].
      rewrite int32_small by lia. reflexivity.
    - rewrite bind_ret, Z.mul_1_r. reflexivity. }
  rewrite E2, bind_get. cbn [line_timer set_line_clock].
  destruct (line_timer p); cbn [when].
  - unfold bind, emit, modify. reflexivity.
  - rewrite bind_ret, bind_get. unfold bind, emit, modify. reflexivity.
Qed.

(** X15: [pvr_reconfigure_spg] always completes.  The line clock becomes the
    pixel clock (13.5 MHz, doubled by [vclk_div]) divided by
    [hcount + 1], doubled when interlaced; it is positive, so the period
    asked of the scheduler is defined.  A pending timer is cancelled
    first and exactly one timer is started, whose handle is kept;
    registers and memory are not touched. *)
Theorem reconfigure_spg_effect (L : layout) (p : pvr)
        (Hok : layout_ok L = true) :
  let clock := spg_line_clock L p in
  pvr_reconfigure_spg L p
  = Some (tt, set_line_timer (Some clock) (set_line_clock clock p),
          (match line_timer p with
           | Some _ => [sched_cancel_timer]
           | None => []
           end) ++ [sched_start_timer clock])
  /\ 205 <= clock <= 54000000.
Proof.
  split; [now apply pvr_reconfigure_spg_run | now apply spg_line_clock_range].
Qed.

Lemma reconfigure_spg_effect_witness :
  layout_ok dc_layout = true
  /\ pvr_reconfigure_spg dc_layout pvr_zero
     = Some (tt, set_line_timer (Some 13500000)
                   (set_line_clock 13500000 pvr_zero),
             [sched_start_timer 13500000]).
Proof.
  split; [reflexivity |].
  exact (proj1 (reconfigure_spg_effect dc_layout pvr_zero eq_refl)).
Defined.

(** ** The register file as a whole *)

Lemma reg_set_full (L : layout) (r : reg_name) (v : Z) (p : pvr) (i : Z) :
  reg (set_full L r v p) i
  = if i =? reg_index L r then u32 v else reg p i.
Proof. reflexivity. Qed.

(** Unfold the dispatch of a register write with the comparisons of the
    offset that are known. *)
Ltac dispatch :=
  unfold pvr_reg_write, pvr_reg_write_via, pvr_cb_write, keeps_value;
  cbv zeta;
  repeat match goal with
         | H : (Z.shiftr ?a 2 =? _) = _ |- _ => rewrite H
         | H : (?o =? _) = _, o := Z.shiftr ?a 2 |- _ =>
             change (Z.shiftr a 2) with o; rewrite H
         end;
  cbn [orb]; try reflexivity.

(** X16: a register write never stops the emulator, and a read that follows
    it at the same address returns the value written, except at the
    identifier and the four trigger registers (SOFTRESET, STARTRENDER,
    TA_LIST_INIT, TA_LIST_CONT), which return what they held before.  No
    write changes the stored word of any other register. *)
Theorem reg_read_after_write (L : layout) (p : pvr) (addr data mask mask' : Z)
        (Hok : layout_ok L = true)
        (Hdata : 0 <= data < 2 ^ 32) :
  let offset := Z.shiftr addr 2 in
  exists q c,
    (pvr_reg_write L addr data mask ;; pvr_reg_read addr mask') p
    = Some (if keeps_value L offset then reg p offset else data, q, c)
    /\ forall i, i <> offset -> reg q i = reg p i.
Proof.
  intros offset.
  assert (Hread : forall q c,
             pvr_reg_write L addr data mask p = Some (tt, q, c) ->
             (pvr_reg_write L addr data mask ;; pvr_reg_read addr mask') p
             = Some (reg q offset, q, c)).
  { intros q c Hw. unfold bind at 1. rewrite Hw.
    unfold pvr_reg_read, pvr_cb_read. cbv zeta. rewrite bind_get.
    unfold ret. fold offset. now rewrite app_nil_r. }
  assert (Hgoal : forall q c v,
             pvr_reg_write L addr data mask p = Some (tt, q, c) ->
             reg q offset = v ->
             (forall i, i <> offset -> reg q i = reg p i) ->
             (if keeps_value L offset then reg p offset else data) = v ->
             exists q c,
               (pvr_reg_write L addr data mask ;; pvr_reg_read addr mask') p
               = Some (if keeps_value L offset then reg p offset else data,
                       q, c)
               /\ forall i, i <> offset -> reg q i = reg p i).
  { intros q c v Hw Hv Hfr Hk. exists q, c.
    rewrite (Hread q c Hw), Hv, Hk. split; [reflexivity | exact Hfr]. }
  clear Hread.
  destruct (offset =? reg_index L ID) eqn:E0.
  { apply (Hgoal p [] (reg p offset)); try reflexivity; dispatch. }
  destruct (offset =? reg_index L SOFTRESET) eqn:E1.
  { destruct (negb (nonzero (Z.land data 1))) eqn:Eb;
      [apply (Hgoal p [] (reg p offset))
      | apply (Hgoal p [ta_soft_reset] (reg p offset))];
      try reflexivity; dispatch; unfold SOFTRESET_write; now rewrite Eb. }
  destruct (offset =? reg_index L STARTRENDER) eqn:E2.
  { assert (Hoff : Z.shiftr addr 2 = reg_index L STARTRENDER)
      by now apply Z.eqb_eq.
    destruct (Z.eq_dec data 0) as [Hz | Hnz].
    - assert (Hw : pvr_reg_write L addr data mask p = Some (tt, p, [])).
      { rewrite (pvr_reg_write_STARTRENDER L p addr data mask Hok Hoff), Hz.
        apply STARTRENDER_write_zero. }
      apply (Hgoal p [] (reg p offset) Hw); try reflexivity. dispatch.
    - pose proof (STARTRENDER_write_nonzero L p data Hnz) as Hw.
      rewrite <- (pvr_reg_write_STARTRENDER L p addr data mask Hok Hoff)
        in Hw.
      assert (Hr : forall i,
                 reg (pvr_mark_framebuffer
                        (pvr_mark_framebuffer p (full L p FB_W_SOF1))
                        (full L p FB_W_SOF2)) i = reg p i).
      { intros i.
        rewrite (proj1 (pvr_mark_framebuffer_keeps _ _)).
        now rewrite (proj1 (pvr_mark_framebuffer_keeps _ _)). }
      eapply (Hgoal _ _ (reg p offset) Hw);
        [apply Hr | intros i _; apply Hr | dispatch]. }
  destruct (offset =? reg_index L TA_LIST_INIT) eqn:E3.
  { destruct (negb (nonzero (Z.land data 0x80000000))) eqn:Eb;
      [apply (Hgoal p [] (reg p offset))
      | apply (Hgoal p [ta_list_init] (reg p offset))];
      try reflexivity; dispatch; unfold TA_LIST_INIT_write; now rewrite Eb. }
  destruct (offset =? reg_index L TA_LIST_CONT) eqn:E4.
  { destruct (negb (nonzero (Z.land data 0x80000000))) eqn:Eb;
      [apply (Hgoal p [] (reg p offset))
      | apply (Hgoal p [ta_list_cont] (reg p offset))];
      try reflexivity; dispatch; unfold TA_LIST_CONT_write; now rewrite Eb. }
  assert (Hstore : forall r i,
             (offset =? reg_index L r) = true ->
             reg (set_full L r data p) i
             = if i =? offset then data else reg p i).
  { intros r i E. apply Z.eqb_eq in E. rewrite E.
    rewrite reg_set_full, u32_small by exact Hdata. reflexivity. }
  assert (Hframe : forall r i,
             (offset =? reg_index L r) = true -> i <> offset ->
             reg (set_full L r data p) i = reg p i).
  { intros r i E Hi. rewrite (Hstore r i E).
    destruct (Z.eqb_spec i offset); [contradiction | reflexivity]. }
  assert (Hsame : forall r,
             (offset =? reg_index L r) = true ->
             reg (set_full L r data p) offset = data).
  { intros r E. rewrite (Hstore r offset E). now rewrite Z.eqb_refl. }
  destruct (offset =? reg_index L TA_YUV_TEX_BASE) eqn:E5.
  { apply (Hgoal (set_full L TA_YUV_TEX_BASE data p) [ta_yuv_init] data);
      [dispatch; unfold TA_YUV_TEX_BASE_write; now rewrite bind_modify
      | now apply Hsame
      | intros i Hi; now apply Hframe
      | dispatch]. }
  destruct (offset =? reg_index L SPG_LOAD) eqn:E6.
  { pose proof (pvr_reconfigure_spg_run L (set_full L SPG_LOAD data p) Hok)
      as Hre.
    eapply (Hgoal _ _ data);
      [dispatch; unfold SPG_LOAD_write; rewrite bind_modify; exact Hre
      | cbn [reg set_line_timer set_line_clock]; now apply Hsame
      | intros i Hi; cbn [reg set_line_timer set_line_clock];
        now apply Hframe
      | dispatch]. }
  destruct (offset =? reg_index L FB_R_CTRL) eqn:E7.
  { pose proof (pvr_reconfigure_spg_run L (set_full L FB_R_CTRL data p) Hok)
      as Hre.
    eapply (Hgoal _ _ data);
      [dispatch; unfold FB_R_CTRL_write; rewrite bind_modify; exact Hre
      | cbn [reg set_line_timer set_line_clock]; now apply Hsame
      | intros i Hi; cbn [reg set_line_timer set_line_clock];
        now apply Hframe
      | dispatch]. }
  apply (Hgoal (set_reg (upd (reg p) offset data) p) [] data).
  - dispatch.
  - cbn [reg set_reg]. unfold upd. now rewrite Z.eqb_refl.
  - intros i Hi. cbn [reg set_reg]. unfold upd.
    destruct (Z.eqb_spec i offset); [contradiction | reflexivity].
  - dispatch.
Qed.

Lemma reg_read_after_write_witness :
  layout_ok dc_layout = true /\ 0 <= 0x12345678 < 2 ^ 32
  /\ exists q c,
       (pvr_reg_write dc_layout 0x050 0x12345678 0xffffffff ;;
        pvr_reg_read 0x050 0xffffffff) pvr_zero
       = Some (0x12345678, q, c).
Proof.
  split; [reflexivity |]. split; [lia |].
  destruct (reg_read_after_write dc_layout pvr_zero 0x050 0x12345678
              0xffffffff 0xffffffff eq_refl ltac:(lia))
    as (q & c & Hq & _).
  exists q, c. exact Hq.
Defined.

(** ** The other triggers and the timing registers *)

Lemma land_1 (x : Z) : Z.land x 1 = if Z.testbit x 0 then 1 else 0.
Proof. change 1 with (2 ^ 0) at 1. now rewrite land_bit by lia. Qed.

(** X17: SOFTRESET and TA_LIST_CONT are pure triggers: a write never changes
    the device, and calls [ta_soft_reset] exactly when bit 0 of the
    value is set, respectively [ta_list_cont] exactly when bit 31 is. *)
Theorem trigger_writes (L : layout) (p : pvr) (addr data mask : Z)
        (Hok : layout_ok L = true) :
  (Z.shiftr addr 2 = reg_index L SOFTRESET ->
   pvr_reg_write L addr data mask p
   = Some (tt, p, if Z.testbit data 0 then [ta_soft_reset] else []))
  /\ (Z.shiftr addr 2 = reg_index L TA_LIST_CONT ->
      pvr_reg_write L addr data mask p
      = Some (tt, p, if Z.testbit data 31 then [ta_list_cont] else [])).
Proof.
  split; intros Haddr.
  - unfold pvr_reg_write, pvr_reg_write_via, pvr_cb_write. cbv zeta.
    rewrite Haddr.
    rewrite !(index_neq L SOFTRESET) by (assumption || discriminate).
    rewrite Z.eqb_refl. unfold SOFTRESET_write. rewrite land_1.
    destruct (Z.testbit data 0); reflexivity.
  - unfold pvr_reg_write, pvr_reg_write_via, pvr_cb_write. cbv zeta.
    rewrite Haddr.
    rewrite !(index_neq L TA_LIST_CONT) by (assumption || discriminate).
    rewrite Z.eqb_refl. unfold TA_LIST_CONT_write.
    change 0x80000000 with (2 ^ 31). rewrite land_bit by lia.
    destruct (Z.testbit data 31); reflexivity.
Qed.

Lemma trigger_writes_witness :
  layout_ok dc_layout = true
  /\ pvr_reg_write dc_layout 0x008 1 0xffffffff pvr_zero
     = Some (tt, pvr_zero, [ta_soft_reset])
  /\ pvr_reg_write dc_layout 0x160 0x80000000 0xffffffff pvr_zero
     = Some (tt, pvr_zero, [ta_list_cont]).
Proof.
  split; [reflexivity |]. split.
  - exact (proj1 (trigger_writes dc_layout pvr_zero 0x008 1 0xffffffff
                    eq_refl) eq_refl).
  - exact (proj2 (trigger_writes dc_layout pvr_zero 0x160 0x80000000
                    0xffffffff eq_refl) eq_refl).
Defined.

(** X18: a write to SPG_LOAD or FB_R_CTRL takes effect at once: the value is
    stored and the generator is reconfigured from the registers as they
    then are, so the new line clock already reflects the written value,
    a pending timer is cancelled and one timer is started. *)
Theorem timing_register_write (L : layout) (p : pvr) (r : reg_name)
        (addr data mask : Z)
        (Hok : layout_ok L = true)
        (Hr : r = SPG_LOAD \/ r = FB_R_CTRL)
        (Haddr : Z.shiftr addr 2 = reg_index L r) :
  let stored := set_full L r data p in
  let clock := spg_line_clock L stored in
  pvr_reg_write L addr data mask p
  = Some (tt, set_line_timer (Some clock) (set_line_clock clock stored),
          (match line_timer p with
           | Some _ => [sched_cancel_timer]
           | None => []
           end) ++ [sched_start_timer clock])
  /\ 205 <= clock.
Proof.
  intros stored clock.
  pose proof (pvr_reconfigure_spg_run L stored Hok) as Hre.
  split; [| apply (spg_line_clock_range L stored Hok)].
  unfold pvr_reg_write, pvr_reg_write_via, pvr_cb_write. cbv zeta.
  rewrite Haddr.
  destruct Hr as [-> | ->];
    rewrite ?(index_neq L SPG_LOAD), ?(index_neq L FB_R_CTRL)
      by (assumption || discriminate);
    rewrite Z.eqb_refl.
  - unfold SPG_LOAD_write. rewrite bind_modify. exact Hre.
  - unfold FB_R_CTRL_write. rewrite bind_modify. exact Hre.
Qed.

Lemma timing_register_write_witness :
  layout_ok dc_layout = true
  /\ (SPG_LOAD = SPG_LOAD \/ SPG_LOAD = FB_R_CTRL)
  /\ Z.shiftr 0x0d8 2 = reg_index dc_layout SPG_LOAD
  /\ pvr_reg_write dc_layout 0x0d8 857 0xffffffff pvr_zero
     = Some (tt,
             set_line_timer (Some 15734)
               (set_line_clock 15734 (set_full dc_layout SPG_LOAD 857 pvr_zero)),
             [sched_start_timer 15734]).
Proof.
  split; [reflexivity |]. split; [now left |]. split; [reflexivity |].
  exact (proj1 (timing_register_write dc_layout pvr_zero SPG_LOAD 0x0d8 857
                  0xffffffff eq_refl (or_introl eq_refl) eq_refl)).
Defined.

(** ** Initialisation *)

Lemma fold_upd_other (l : list (Z * Z)) (r : Z -> Z) (i : Z) :
  ~ In i (map fst l) ->
  fold_left (fun r e => upd r (fst e) (u32 (snd e))) l r i = r i.
Proof.
  revert r. induction l as [| [j d] t IH]; intros r Hi; [reflexivity |].
  cbn [fold_left fst snd map In] in *. rewrite IH by tauto.
  unfold upd. destruct (Z.eqb_spec i j); [subst; tauto | reflexivity].
Qed.

Lemma fold_upd_in (l : list (Z * Z)) (r : Z -> Z) (i d : Z) :
  NoDup (map fst l) -> In (i, d) l ->
  fold_left (fun r e => upd r (fst e) (u32 (snd e))) l r i = u32 d.
Proof.
  revert r. induction l as [| [j e] t IH]; intros r Hnd Hin; [contradiction |].
  cbn [fold_left fst snd map] in *. inversion Hnd as [| ? ? Hnot Hnd']; subst.
  destruct Hin as [E | Hin].
  - injection E as -> ->. rewrite fold_upd_other by exact Hnot.
    unfold upd. now rewrite Z.eqb_refl.
  - now apply IH.
Qed.

(** X19: [pvr_init] returns 1.  Afterwards every register of the header holds
    its default and no other register has changed, the device uses the
    video memory of the memory map, and the generator is configured from
    the defaults: the line clock is the one they give and exactly one
    timer is started. *)
Theorem pvr_init_effect (L : layout) (pvr_regs_inc : list (Z * Z))
        (mem_vram : mem) (p : pvr)
        (Hok : layout_ok L = true)
        (Hnodup : NoDup (map fst pvr_regs_inc)) :
  exists q c,
    pvr_init L pvr_regs_inc mem_vram p = Some (1, q, c)
    /\ (forall i d, In (i, d) pvr_regs_inc -> reg q i = u32 d)
    /\ (forall i, ~ In i (map fst pvr_regs_inc) -> reg q i = reg p i)
    /\ vram q = mem_vram
    /\ line_clock q = spg_line_clock L q
    /\ line_timer q = Some (line_clock q)
    /\ count is_start_timer c = 1
    /\ count is_cancel_timer c
       = (match line_timer p with Some _ => 1 | None => 0 end).
Proof.
  unfold pvr_init. rewrite !bind_modify.
  set (p1 := set_vram mem_vram _).
  pose proof (pvr_reconfigure_spg_run L p1 Hok) as Hre.
  set (clock := spg_line_clock L p1) in *.
  eexists. eexists. split.
  - unfold bind. rewrite Hre. cbn [ret]. rewrite app_nil_r. reflexivity.
  - cbn [reg vram line_clock line_timer set_line_timer set_line_clock].
    split; [| split; [| split; [| split; [| split; [| split]]]]].
    + intros i d Hin. unfold p1. cbn [reg set_vram set_reg].
      now apply fold_upd_in.
    + intros i Hin. unfold p1. cbn [reg set_vram set_reg].
      now apply fold_upd_other.
    + reflexivity.
    + reflexivity.
    + reflexivity.
    + rewrite count_app, count_one. cbn [is_start_timer b2i].
      destruct (line_timer p1); reflexivity.
    + rewrite count_app, count_one. cbn [is_cancel_timer b2i].
      change (line_timer p1) with (line_timer p).
      destruct (line_timer p); reflexivity.
Qed.

Lemma pvr_init_effect_witness :
  layout_ok dc_layout = true
  /\ NoDup (map fst [(0, 0x17fd11db); (reg_index dc_layout SPG_LOAD, 857)])
  /\ exists q c,
       pvr_init dc_layout
                [(0, 0x17fd11db); (reg_index dc_layout SPG_LOAD, 857)]
                (fun _ => Byte.x00) pvr_zero
       = Some (1, q, c)
       /\ reg q 0 = 0x17fd11db.
Proof.
  assert (Hnd : NoDup (map fst [(0, 0x17fd11db);
                                (reg_index dc_layout SPG_LOAD, 857)])).
  { cbn. repeat constructor; cbn; intuition discriminate. }
  split; [reflexivity |]. split; [exact Hnd |].
  destruct (pvr_init_effect dc_layout
              [(0, 0x17fd11db); (reg_index dc_layout SPG_LOAD, 857)]
              (fun _ => Byte.x00) pvr_zero eq_refl Hnd)
    as (q & c & Hq & Hin & _).
  exists q, c. split; [exact Hq |].
  apply (Hin 0 0x17fd11db). cbn. tauto.
Defined.

(** ** Sizes *)

(** X20: the framebuffer is [x + 1] words wide and [y + 1] lines high: two
    pixels to the word at 16 bits, four pixels to three words at 24
    bits, one at 32 bits, and twice the lines when interlaced.  Neither
    dimension is ever below 1 or leaves the [int] range. *)
Theorem framebuffer_size_closed (L : layout) (p : pvr)
        (Hok : layout_ok L = true) :
  let x := field L p FB_R_SIZE_x in
  let y := field L p FB_R_SIZE_y in
  let depth := field L p FB_R_CTRL_fb_depth in
  fst (pvr_framebuffer_size L p)
  = (if (depth =? 0) || (depth =? 1) then 2 * (x + 1)
     else if depth =? 2 then 4 * (x + 1) / 3 else x + 1)
  /\ snd (pvr_framebuffer_size L p)
     = (if nonzero (field L p SPG_CONTROL_interlace) then 2 * (y + 1)
        else y + 1)
  /\ 1 <= fst (pvr_framebuffer_size L p) <= 2 ^ 17
  /\ 1 <= snd (pvr_framebuffer_size L p) <= 2 ^ 17.
Proof.
  intros x y depth.
  pose proof (field_range16 L Hok p FB_R_SIZE_x) as Hx.
  pose proof (field_range16 L Hok p FB_R_SIZE_y) as Hy.
  change (2 ^ 16) with 65536 in Hx, Hy. fold x in Hx. fold y in Hy.
  split; [| split; [| apply (pvr_framebuffer_size_bounds L Hok p)]].
  - unfold pvr_framebuffer_size. cbv zeta. cbn [fst]. fold x depth.
    rewrite (int32_small (x + 1)) by lia.
    destruct ((depth =? 0) || (depth =? 1)).
    + rewrite int32_small by lia. lia.
    + destruct (depth =? 2); [| reflexivity].
      rewrite (int32_small ((x + 1) * 4)) by lia.
      rewrite Z.quot_div_nonneg by lia.
      replace ((x + 1) * 4) with (4 * (x + 1)) by lia.
      apply int32_small.
      assert (0 <= 4 * (x + 1) / 3 <= 131072).
      { split; [apply Z.div_pos | apply Z.div_le_upper_bound]; lia. }
      lia.
  - unfold pvr_framebuffer_size. cbv zeta. cbn [snd]. fold y.
    rewrite (int32_small (y + 1)) by lia.
    destruct (nonzero (field L p SPG_CONTROL_interlace)); [| reflexivity].
    rewrite int32_small by lia. lia.
Qed.

Lemma framebuffer_size_closed_witness :
  layout_ok dc_layout = true
  /\ pvr_framebuffer_size dc_layout (scaler_device 0x400 0) = (640, 480).
Proof.
  split; [reflexivity |].
  destruct (framebuffer_size_closed dc_layout (scaler_device 0x400 0) eq_refl)
    as (Hw & Hh & _).
  destruct (pvr_framebuffer_size dc_layout (scaler_device 0x400 0)) as [w h].
  cbn [fst snd] in Hw, Hh. rewrite Hw, Hh. reflexivity.
Defined.

(** X21: the video height is the framebuffer height times [scale_y / 1024],
    rounded down, and half of that, rounded down, in flicker-free
    interlace mode, as long as the product fits an [int]; in that mode a
    scale of [0x800] gives back the framebuffer height, the halving
    undoing the scale. *)
Theorem video_height_scaled (L : layout) (p : pvr)
        (Hok : layout_ok L = true) :
  let h := snd (pvr_framebuffer_size L p) in
  let scale_y := field L p SCALER_CTL_scale_y in
  (h * scale_y < 2 ^ 31 ->
   snd (pvr_video_size L p)
   = (if nonzero (field L p SCALER_CTL_interlace)
      then h * scale_y / 1024 / 2 else h * scale_y / 1024))
  /\ (nonzero (field L p SCALER_CTL_interlace) = true -> scale_y = 0x800 ->
      snd (pvr_video_size L p) = h).
Proof.
  intros h scale_y.
  pose proof (pvr_framebuffer_size_bounds L Hok p) as [_ Hh].
  pose proof (field_range16 L Hok p SCALER_CTL_scale_y) as Hs.
  change (2 ^ 17) with 131072 in Hh. change (2 ^ 16) with 65536 in Hs.
  fold h in Hh. fold scale_y in Hs.
  assert (Hgen : h * scale_y < 2 ^ 31 ->
                 snd (pvr_video_size L p)
                 = (if nonzero (field L p SCALER_CTL_interlace)
                    then h * scale_y / 1024 / 2 else h * scale_y / 1024)).
  { intros Hov. change (2 ^ 31) with 2147483648 in Hov.
    unfold pvr_video_size. unfold h in *.
    destruct (pvr_framebuffer_size L p) as [w h']. cbn [fst snd] in *.
    fold scale_y.
    assert (0 <= h' * scale_y) by nia.
    rewrite (int32_small (h' * scale_y))
      by (change (2 ^ 31) with 2147483648; lia).
    rewrite Z.shiftr_div_pow2 by lia. change (2 ^ 10) with 1024.
    assert (0 <= h' * scale_y / 1024 <= h' * scale_y).
    { split; [apply Z.div_pos; lia |].
      apply Z.div_le_upper_bound; lia. }
    rewrite int32_small by (change (2 ^ 31) with 2147483648; lia).
    destruct (nonzero (field L p SCALER_CTL_interlace)); [| reflexivity].
    apply Z.quot_div_nonneg; lia. }
  split; [exact Hgen |].
  intros Hil Hsy. rewrite Hgen, Hil, Hsy.
  - replace (h * 0x800) with (2 * h * 1024) by lia.
    rewrite Z.div_mul by lia.
    rewrite Z.mul_comm, Z.div_mul by lia. reflexivity.
  - rewrite Hsy. change (2 ^ 31) with 2147483648. lia.
Qed.

Lemma video_height_scaled_witness :
  layout_ok dc_layout = true
  /\ snd (pvr_video_size dc_layout (scaler_device 0x200 0)) = 240.
Proof.
  split; [reflexivity |].
  rewrite (proj1 (video_height_scaled dc_layout (scaler_device 0x200 0)
                    eq_refl)).
  - reflexivity.
  - vm_compute. reflexivity.
Defined.

(** ** Extraction does not mark *)

Lemma pvr_framebuffer_size_ext (L : layout) (p q : pvr) :
  reg q = reg p -> pvr_framebuffer_size L q = pvr_framebuffer_size L p.
Proof.
  intros H. unfold pvr_framebuffer_size, field. now rewrite H.
Qed.

Lemma read_source_ext (L : layout) (p q : pvr) :
  reg q = reg p -> read_source L q = read_source L p.
Proof.
  intros H. unfold read_source, field, full. now rewrite H.
Qed.

Lemma field_name_eq_dec (a b : field_name) : {a = b} + {a <> b}.
Proof. decide equality. Qed.

Lemma pvr_framebuffer_size_fields (L : layout) (p q : pvr) :
  (forall f, field L q f = field L p f) ->
  pvr_framebuffer_size L q = pvr_framebuffer_size L p.
Proof.
  intros H. unfold pvr_framebuffer_size. now rewrite !H.
Qed.

Lemma pvr_vblank_in_checked (L : layout) (p q : pvr) (r : Z)
      (c : list call) :
  layout_ok L = true ->
  got_startrender p = 0 ->
  pvr_update_framebuffer L p = Some (r, q, c) ->
  pvr_vblank_in L p
  = Some (tt, set_field L SPG_STATUS_fieldnum (flipped L q) q,
          [prof_counter_add 1] ++ c
          ++ [dc_vblank_in (field L q VO_CONTROL_blank_video)]).
Proof.
  intros Hok Hg Hup. unfold pvr_vblank_in. rewrite bind_emit, bind_get.
  rewrite Hg. cbn [nonzero Z.eqb negb].
  unfold bind at 1. unfold bind at 1. rewrite Hup. cbn [ret].
  rewrite app_nil_r, bind_get. unfold flipped.
  destruct (nonzero (field L q SPG_CONTROL_interlace));
    rewrite bind_modify, bind_get; unfold emit;
    rewrite field_set_other by (assumption || discriminate); reflexivity.
Qed.

(** What a vblank-in keeps of a device that shows field 0 without
    interlace and has a dirty framebuffer to extract. *)
Lemma vblank_ins_extract (L : layout) (p : pvr) :
  layout_ok L = true ->
  field L p SPG_CONTROL_interlace = 0 ->
  field L p SPG_STATUS_fieldnum = 0 ->
  nonzero (field L p FB_R_CTRL_fb_enable) = true ->
  0 <= field L p FB_R_CTRL_fb_depth <= 3 ->
  pvr_test_framebuffer p (full L p FB_R_SOF1) <> 0 ->
  forall (n : nat) (p' : pvr),
    got_startrender p' = 0 ->
    vram p' = vram p ->
    (forall f, field L p' f = field L p f) ->
    full L p' FB_R_SOF1 = full L p FB_R_SOF1 ->
    exists q,
      vblank_ins L n p'
      = Some (tt, q,
              concat (repeat [prof_counter_add 1;
                              dc_push_pixels
                                (fst (pvr_framebuffer_size L p))
                                (snd (pvr_framebuffer_size L p));
                              dc_vblank_in
                                (field L p VO_CONTROL_blank_video)] n)).
Proof.
  intros Hok Hil Hfn Hen Hd Hdirty n.
  induction n as [| n IH]; intros p' Hg Hv Hf Hs.
  - exists p'. reflexivity.
  - assert (Hsrc : read_source L p' = full L p FB_R_SOF1).
    { unfold read_source. rewrite Hf, Hfn. exact Hs. }
    destruct (pvr_update_framebuffer_extracts L p') as (q0 & Hq0 & Hrest).
    + now rewrite Hf.
    + rewrite Hsrc. unfold pvr_test_framebuffer in *. now rewrite Hv.
    + now rewrite Hf.
    + destruct Hrest as (_ & Hr & Hv0 & _ & Hg0 & _).
      assert (Hf0 : forall f, field L q0 f = field L p f).
      { intros f. rewrite <- Hf. unfold field. now rewrite Hr. }
      pose proof (pvr_vblank_in_checked L p' q0 1 _ Hok Hg Hq0) as Hvb.
      assert (Hfl : flipped L q0 = 0)
        by (unfold flipped; now rewrite Hf0, Hil).
      rewrite Hfl, Hf0, (pvr_framebuffer_size_fields L p p' Hf) in Hvb.
      set (p1 := set_field L SPG_STATUS_fieldnum 0 q0) in *.
      destruct (IH p1) as (q & Hq).
      * unfold p1. cbn. congruence.
      * unfold p1. cbn. congruence.
      * intros f. unfold p1.
        destruct (field_name_eq_dec f SPG_STATUS_fieldnum) as [-> | Hne].
        -- rewrite field_set_same by exact Hok. rewrite Hfn.
           apply Z.mod_0_l. apply Z.pow_nonzero; [lia |].
           destruct (field_shape L Hok SPG_STATUS_fieldnum); lia.
        -- rewrite field_set_other by (assumption || congruence).
           apply Hf0.
      * unfold full, p1. rewrite reg_set_field_other.
        -- rewrite Hr. exact Hs.
        -- cbn [field_reg]. intros E. apply (reg_index_inj L Hok) in E.
           discriminate E.
      * exists q. cbn [vblank_ins]. unfold bind at 1. rewrite Hvb, Hq.
        reflexivity.
Qed.

(** X22: extraction itself never clears the dirty state.  After a run
    that extracted, the dirty test at the read address still fails and
    a second run right after it extracts again, with the same
    [dc_push_pixels].  Without interlace and with field 0 shown, any
    number of vblank-ins in a row with no STARTRENDER before them
    therefore each push the framebuffer again.  (With interlace the
    next vblank-in looks at the other field, and nothing is said.) *)
Theorem extraction_repeats (L : layout) (p q : pvr) (c : list call)
        (Hok : layout_ok L = true)
        (Hrun : pvr_update_framebuffer L p = Some (1, q, c)) :
  pvr_test_framebuffer q (read_source L q) <> 0
  /\ c = [dc_push_pixels (fst (pvr_framebuffer_size L p))
                         (snd (pvr_framebuffer_size L p))]
  /\ (exists q', pvr_update_framebuffer L q = Some (1, q', c))
  /\ (field L p SPG_CONTROL_interlace = 0 ->
      field L p SPG_STATUS_fieldnum = 0 ->
      got_startrender p = 0 ->
      forall n : nat,
      exists q',
        vblank_ins L n p
        = Some (tt, q',
                concat (repeat ([prof_counter_add 1] ++ c
                                ++ [dc_vblank_in
                                      (field L p VO_CONTROL_blank_video)])
                               n))).
Proof.
  destruct (nonzero (field L p FB_R_CTRL_fb_enable)) eqn:Hen.
  2: { rewrite (pvr_update_framebuffer_skips L p (or_introl Hen)) in Hrun.
       discriminate Hrun. }
  destruct (Z.eq_dec (pvr_test_framebuffer p (read_source L p)) 0)
    as [Hclean | Hdirty].
  { rewrite (pvr_update_framebuffer_skips L p (or_intror Hclean)) in Hrun.
    discriminate Hrun. }
  pose proof (field_range L Hok p FB_R_CTRL_fb_depth) as Hd.
  destruct (Z_le_gt_dec (field L p FB_R_CTRL_fb_depth) 3) as [Hd3 | Hd3].
  2: { rewrite (pvr_update_framebuffer_stops L p Hen Hdirty ltac:(lia))
         in Hrun.
       discriminate Hrun. }
  destruct (pvr_update_framebuffer_extracts L p Hen Hdirty ltac:(lia))
    as (q0 & Hq0 & _ & Hr & Hv & _).
  rewrite Hq0 in Hrun. injection Hrun as <- <-.
  assert (Hf : forall f, field L q0 f = field L p f)
    by (intros f; unfold field; now rewrite Hr).
  assert (Hsrc : read_source L q0 = read_source L p)
    by now apply read_source_ext.
  assert (Htest : pvr_test_framebuffer q0 (read_source L q0)
                  = pvr_test_framebuffer p (read_source L p))
    by (unfold pvr_test_framebuffer; now rewrite Hsrc, Hv).
  split; [now rewrite Htest |]. split; [reflexivity |]. split.
  - destruct (pvr_update_framebuffer_extracts L q0) as (q' & Hq' & _).
    + now rewrite Hf.
    + now rewrite Htest.
    + rewrite Hf. lia.
    + exists q'. rewrite Hq'.
      now rewrite (pvr_framebuffer_size_ext L p q0 Hr).
  - intros Hil Hfn Hg n.
    assert (Hd1 : pvr_test_framebuffer p (full L p FB_R_SOF1) <> 0).
    { unfold read_source in Hdirty. rewrite Hfn in Hdirty. exact Hdirty. }
    apply (vblank_ins_extract L p Hok Hil Hfn Hen ltac:(lia) Hd1 n p);
      [exact Hg | reflexivity | reflexivity | reflexivity].
Qed.

Lemma extraction_repeats_witness :
  layout_ok dc_layout = true
  /\ exists q q' q'',
       pvr_update_framebuffer dc_layout
                              (fb_device 1 0 [0x00; 0xf8; 0xe0; 0x07])
       = Some (1, q, [dc_push_pixels 2 1])
       /\ pvr_update_framebuffer dc_layout q
          = Some (1, q', [dc_push_pixels 2 1])
       /\ vblank_ins dc_layout 2 (fb_device 1 0 [0x00; 0xf8; 0xe0; 0x07])
          = Some (tt, q'',
                  [prof_counter_add 1; dc_push_pixels 2 1; dc_vblank_in 0;
                   prof_counter_add 1; dc_push_pixels 2 1; dc_vblank_in 0]).
Proof.
  split; [reflexivity |].
  destruct (pvr_update_framebuffer_extracts dc_layout
              (fb_device 1 0 [0x00; 0xf8; 0xe0; 0x07])
              eq_refl ltac:(vm_compute; discriminate)
              ltac:(vm_compute; split; discriminate))
    as (q & Hq & _).
  destruct (extraction_repeats dc_layout _ q _ eq_refl Hq)
    as (_ & _ & (q' & Hq') & Hn).
  destruct (Hn eq_refl eq_refl eq_refl 2%nat) as (q'' & Hq'').
  exists q, q', q''. split; [exact Hq |]. split; [exact Hq' | exact Hq''].
Defined.
